(** * Job orchestration and alert evaluation pipeline

    A shallow embedding of the product-monitoring services:
    - [services/alert_check_service.py]  (alert rule evaluator),
    - [database/asin_status_queries.py]  (identifier status store),
    - [services/webhook_service.py]      (webhook ingestor),
    - [database/report_queries.py], [services/report_service.py],
      [tasks/report_tasks.py]            (idempotent report jobs).

    Conventions.  A Python float is held as the exact rational value
    [Q] of a finite binary64 number; comparisons, negation and [abs] are
    exact on these, and every arithmetic operation rounds its exact
    result to the nearest binary64 value, ties to even, as the machine
    does (section Numbers).  The relational store is a record of tables;
    a call that can fail for reasons outside the program (unreachable
    store, rejected write) consults a [Faults] oracle, which also says
    what the rule cache holds, so that every statement below can
    quantify over all failure patterns.  A Python exception is a value
    of [exn] carried by [result]. *)

From Stdlib Require Import QArith Qabs Qround ZArith String Ascii List.
From Stdlib Require Import Sorting.Sorted Sorting.Permutation.
From stdpp Require Import gmap strings list pretty.

Open Scope string_scope.
Open Scope list_scope.

(** ** Exceptions and results *)

Inductive exn :=
| KeyError (key : string)
| TypeError
| StoreError
| AttributeError (type_name attribute : string)
| OverflowError (text : string)
| OtherError (text : string).

Inductive result (A : Type) :=
| Ok (a : A)
| Raise (e : exn).
Arguments Ok {A} a.
Arguments Raise {A} e.

(** [str(exc)] *)
Definition str_exn (e : exn) : string :=
  match e with
  | KeyError k => "'" +:+ k +:+ "'"
  | TypeError => "unsupported operand type(s)"
  | StoreError => "store unavailable"
  | AttributeError type_name attribute =>
      "'" +:+ type_name +:+ "' object has no attribute '" +:+ attribute +:+ "'"
  | OverflowError t => t
  | OtherError t => t
  end.

(** Truthiness of an optional string: [None] and [""] are falsy. *)
Definition truthy (s : option string) : bool :=
  match s with
  | Some (String _ _) => true
  | _ => false
  end.

(** ** Numbers *)

(** [a >= b], [a < b], [a == 0] on numbers *)
Definition Qge_bool (a b : Q) : bool := Qle_bool b a.
Definition Qlt_bool (a b : Q) : bool := negb (Qle_bool b a).
Definition Qis_zero (a : Q) : bool := Qeq_bool a 0.

(** Round an exact value to an integer, half to even. *)
Definition round_half_even (q : Q) : Z :=
  let n := Qnum q in
  let d := Zpos (Qden q) in
  let f := (n / d)%Z in
  let r2 := (2 * (n mod d))%Z in
  if (r2 <? d)%Z then f
  else if (d <? r2)%Z then (f + 1)%Z
  else if Z.even f then f else (f + 1)%Z.

(** *** Binary64 arithmetic

    Every finite binary64 number is a rational, and a float is held as
    that rational.  An operation computes the exact result and rounds
    it to the nearest binary64 value, ties to even: 53 significant bits
    down to [2 ** -1022], multiples of [2 ** -1074] below.  A result
    whose rounding reaches [2 ** 1024] is infinite; [float_inf], the
    first value past the largest float, stands for [inf] and
    [- float_inf] for [-inf], which compare with every finite float as
    the infinities do.  The sign of a zero is not kept: no comparison
    depends on it. *)

(** [2 ** e] *)
Definition Qpow2 (e : Z) : Q :=
  if (0 <=? e)%Z then inject_Z (2 ^ e) else 1 # Z.to_pos (2 ^ (- e)).

(** The binary exponent of a non-zero number: [2 ** e <= |x| < 2 ** (e + 1)]. *)
Definition Qexponent (x : Q) : Z :=
  let e := (Z.log2 (Z.abs (Qnum x)) - Z.log2 (Zpos (Qden x)))%Z in
  if Qle_bool (Qpow2 e) (Qabs x) then e else (e - 1)%Z.

(** The gap between the binary64 values around [x]. *)
Definition ulp (x : Q) : Q := Qpow2 (Z.max (Qexponent x - 52) (-1074)).

(** Round to nearest, ties to even, the exponent unbounded above. *)
Definition round_nearest_even (x : Q) : Q :=
  if Qis_zero x then 0%Q
  else Qred (inject_Z (round_half_even (x / ulp x)) * ulp x).

Definition float_inf : Q := inject_Z (2 ^ 1024).
Definition is_inf (x : Q) : bool := Qle_bool float_inf (Qabs x).
Definition is_negative (x : Q) : bool := Qlt_bool x 0.
Definition signed_inf (negative : bool) : Q :=
  if negative then (- float_inf)%Q else float_inf.

(** The float nearest to an exact value. *)
Definition float_round (x : Q) : Q :=
  let r := round_nearest_even x in
  if is_inf r then signed_inf (is_negative x) else r.

(** [a - b] on finite floats. *)
Definition float_sub (a b : Q) : Q := float_round (a - b).

(** [a / b] and [a * b] on floats, [b] finite and not zero: an infinite
    [a] stays infinite. *)
Definition float_div (a b : Q) : Q :=
  if is_inf a then signed_inf (xorb (is_negative a) (is_negative b))
  else float_round (a / b).

Definition float_mul (a b : Q) : Q :=
  if is_inf a then signed_inf (xorb (is_negative a) (is_negative b))
  else float_round (a * b).

(** [a / b] on integers, [b] not zero: the float nearest to the exact
    quotient, [OverflowError] when there is none. *)
Definition int_true_divide (a b : Z) : result Q :=
  let r := round_nearest_even (inject_Z a / inject_Z b) in
  if is_inf r then Raise (OverflowError "integer division result too large for a float")
  else Ok r.

(** [round(x, 2)] on a float: the float nearest to the exact value of
    [x] rounded to two decimals, half to even. *)
Definition round2 (x : Q) : Q :=
  if is_inf x then x
  else float_round (inject_Z (round_half_even (x * 100)) / 100).

(** ** Data model ([database/model_types.py]) *)

Record BsrEntry := {
  rank : option Z;            (* [entry.get("rank")] *)
  category : string
}.

Record ProductSnapshotDict := {
  asin : option string;
  snapshot_date : Z;          (* calendar day, as a day number *)
  price : option Q;
  rating : option Q;
  review_count : option Z;
  bsr_data : list BsrEntry
}.

(** A row of [product_snapshots]: the snapshot and its [created_at]. *)
Record SnapshotRow := {
  snap : ProductSnapshotDict;
  snap_created_at : Z
}.

(** An alert rule as the evaluator reads it from its dictionary. *)
Record AlertRule := {
  rule_id : option string;            (* [rule["id"]], [KeyError] when absent *)
  rule_type : option string;          (* [rule.get("rule_type")] *)
  threshold : option (option Q);      (* absent | null | number *)
  change_direction : option string;   (* [rule.get("change_direction", "any")] *)
  threshold_type : option string;     (* [rule.get("threshold_type", "percentage")] *)
  is_active : bool
}.

(** The arguments of the f-string that builds an alert's message. *)
Inductive AlertMessage :=
| PriceMessage (previous current change : Q)
| BsrMessage (previous current : Z) (change : Q)
| RatingMessage (previous current change : Q).

(** [alert_data] *)
Record AlertData := {
  alert_asin : string;
  alert_rule_id : string;
  message : AlertMessage;
  previous_value : Q;
  current_value : Q;
  change_percent : Q;
  alert_snapshot_date : Z
}.

(** A row of [asin_status]. *)
Record AsinRow := {
  status : string;
  task_timestamp : option Z;
  retry_count : Z
}.

Record Product := {
  product_asin : string;
  title : option string;
  categories : list string
}.

(** A row of [report_jobs]; the stored copy of the parameters is left
    out, only their hash is ever read back. *)
Record ReportJob := {
  job_id : nat;
  job_type : string;
  parameters_hash : string;
  job_status : string;
  created_at : Z;
  started_at : option Z;
  completed_at : option Z;
  result_url : option string;
  error_message : option string
}.

(** A row of [report_results]. *)
Record ReportResult := {
  result_job_id : nat;
  report_type : string;
  content : string
}.

(** ** The store and its failures *)

Record Db := {
  asin_status_tbl : gmap string AsinRow;
  products_tbl : gmap string Product;
  product_snapshots_tbl : list SnapshotRow;
  alert_rules_tbl : list AlertRule;
  alerts_tbl : list AlertData;
  report_jobs_tbl : list ReportJob;
  report_results_tbl : list ReportResult
}.

Record Faults := {
  snapshots_unavailable : bool;
  rules_unavailable : bool;
  rules_cache : option (list AlertRule);  (* what the rule cache holds, if anything *)
  rules_cache_store_fails : bool;         (* storing the rules in the cache raises *)
  rules_cache_reread_fails : bool;        (* reading them back finds nothing *)
  alert_insert_fails : AlertData -> bool;
  products_client_missing : bool;
  products_upsert_fails : bool;
  snapshots_client_missing : bool;
  snapshots_insert_fails : bool;
  status_client_missing : bool;
  status_bulk_query_fails : bool;
  status_bulk_upsert_fails : bool;
  status_row_query_fails : string -> bool;
  status_row_update_fails : string -> bool
}.

Definition no_faults : Faults :=
  {| snapshots_unavailable := false;
     rules_unavailable := false;
     rules_cache := None;
     rules_cache_store_fails := false;
     rules_cache_reread_fails := false;
     alert_insert_fails := fun _ => false;
     products_client_missing := false;
     products_upsert_fails := false;
     snapshots_client_missing := false;
     snapshots_insert_fails := false;
     status_client_missing := false;
     status_bulk_query_fails := false;
     status_bulk_upsert_fails := false;
     status_row_query_fails := fun _ => false;
     status_row_update_fails := fun _ => false |}.

Definition set_alerts (db : Db) (l : list AlertData) : Db :=
  {| asin_status_tbl := asin_status_tbl db;
     products_tbl := products_tbl db;
     product_snapshots_tbl := product_snapshots_tbl db;
     alert_rules_tbl := alert_rules_tbl db;
     alerts_tbl := l;
     report_jobs_tbl := report_jobs_tbl db;
     report_results_tbl := report_results_tbl db |}.

Definition set_asin_status (db : Db) (t : gmap string AsinRow) : Db :=
  {| asin_status_tbl := t;
     products_tbl := products_tbl db;
     product_snapshots_tbl := product_snapshots_tbl db;
     alert_rules_tbl := alert_rules_tbl db;
     alerts_tbl := alerts_tbl db;
     report_jobs_tbl := report_jobs_tbl db;
     report_results_tbl := report_results_tbl db |}.


Definition set_snapshots (db : Db) (l : list SnapshotRow) : Db :=
  {| asin_status_tbl := asin_status_tbl db;
     products_tbl := products_tbl db;
     product_snapshots_tbl := l;
     alert_rules_tbl := alert_rules_tbl db;
     alerts_tbl := alerts_tbl db;
     report_jobs_tbl := report_jobs_tbl db;
     report_results_tbl := report_results_tbl db |}.

Definition set_report_jobs (db : Db) (l : list ReportJob) : Db :=
  {| asin_status_tbl := asin_status_tbl db;
     products_tbl := products_tbl db;
     product_snapshots_tbl := product_snapshots_tbl db;
     alert_rules_tbl := alert_rules_tbl db;
     alerts_tbl := alerts_tbl db;
     report_jobs_tbl := l;
     report_results_tbl := report_results_tbl db |}.

Definition set_report_results (db : Db) (l : list ReportResult) : Db :=
  {| asin_status_tbl := asin_status_tbl db;
     products_tbl := products_tbl db;
     product_snapshots_tbl := product_snapshots_tbl db;
     alert_rules_tbl := alert_rules_tbl db;
     alerts_tbl := alerts_tbl db;
     report_jobs_tbl := report_jobs_tbl db;
     report_results_tbl := l |}.

(** ** Alert rule evaluator ([services/alert_check_service.py]) *)

(** [float(rule.get("threshold", 0))]: an absent key defaults to 0, a
    null threshold makes [float] raise. *)
Definition float_threshold (rule : AlertRule) : result Q :=
  match threshold rule with
  | None => Ok 0%Q
  | Some None => Raise TypeError
  | Some (Some t) => Ok t
  end.

Definition direction_of (rule : AlertRule) : string :=
  default "any" (change_direction rule).

Definition threshold_type_of (rule : AlertRule) : string :=
  default "percentage" (threshold_type rule).

(** [_should_trigger_alert]; the two unused arguments [current_value]
    and [previous_value] are dropped.  The outer [try] turns any
    exception into [False]. *)
Definition _should_trigger_alert (rule : AlertRule) (change_value : Q) : bool :=
  match float_threshold rule with
  | Raise _ => false
  | Ok threshold =>
      let change_direction := direction_of rule in
      if (threshold_type_of rule =? "percentage")%string then
        if (change_direction =? "increase")%string then
          Qge_bool change_value threshold
        else if (change_direction =? "decrease")%string then
          Qle_bool change_value (- threshold)
        else if (change_direction =? "any")%string then
          Qge_bool (Qabs change_value) threshold
        else false
      else
        if (change_direction =? "increase")%string then
          Qge_bool change_value threshold
        else if (change_direction =? "decrease")%string then
          Qle_bool change_value (- threshold)
        else if (change_direction =? "any")%string then
          Qge_bool (Qabs change_value) threshold
        else false
  end.

Definition is_rule_type (t : string) (rule : AlertRule) : bool :=
  match rule_type rule with
  | Some s => (s =? t)%string
  | None => false
  end.

(** [database/snapshots_queries.py]: the two reads the evaluator uses.
    [first_by after rows] is [ORDER BY ... LIMIT 1]: the row that comes
    first in the requested order, the earliest stored one among equals. *)
Definition first_by (after : SnapshotRow -> SnapshotRow -> bool)
    (rows : list SnapshotRow) : option SnapshotRow :=
  fold_left (fun best r =>
               match best with
               | None => Some r
               | Some b => if after r b then Some r else Some b
               end) rows None.

Definition has_asin (a : string) (r : SnapshotRow) : bool :=
  match asin (snap r) with
  | Some s => (s =? a)%string
  | None => false
  end.

Section Evaluator.
Context (faults : Faults).

(** [.order("snapshot_date", desc=True).order("created_at", desc=True).limit(1)] *)
Definition get_latest_snapshot (a : string) (db : Db) : option ProductSnapshotDict :=
  if snapshots_unavailable faults then None
  else
    snap <$> first_by
      (fun r b =>
         (snapshot_date (snap b) <? snapshot_date (snap r))%Z
         || ((snapshot_date (snap b) =? snapshot_date (snap r))%Z
             && (snap_created_at b <? snap_created_at r)%Z))
      (List.filter (has_asin a) (product_snapshots_tbl db)).

(** [.lt("snapshot_date", current_date).order("snapshot_date", desc=True).limit(1)] *)
Definition get_previous_snapshot (a : string) (current_date : Z) (db : Db)
  : option ProductSnapshotDict :=
  if snapshots_unavailable faults then None
  else
    snap <$> first_by
      (fun r b => (snapshot_date (snap b) <? snapshot_date (snap r))%Z)
      (List.filter
         (fun r => has_asin a r && (snapshot_date (snap r) <? current_date)%Z)
         (product_snapshots_tbl db)).

(** [database/alert_queries.py]: [get_active_alert_rules], the empty
    list when the rules cannot be read. *)
Definition get_active_alert_rules (db : Db) : list AlertRule :=
  if rules_unavailable faults then []
  else List.filter is_active (alert_rules_tbl db).

(** [services/alert_cache_service.py]: [load_rules_to_cache], whether
    the active rules were stored in the cache (for an hour). *)
Definition load_rules_to_cache (db : Db) : bool :=
  match get_active_alert_rules db with
  | [] => false
  | _ => negb (rules_cache_store_fails faults)
  end.

(** [alert_cache.get_active_rules()]: the cached rules when the cache
    holds some, whatever the table holds by now; otherwise the rules of
    the table, read back from the cache once they are stored there
    ([get_cached_rules() or []]), or read again when they are not. *)
Definition get_active_rules (db : Db) : list AlertRule :=
  match rules_cache faults with
  | Some rules => rules
  | None =>
      if load_rules_to_cache db then
        if rules_cache_reread_fails faults then []
        else get_active_alert_rules db
      else get_active_alert_rules db
  end.

(** [database/alert_queries.py]: [create_alert_record] *)
Definition create_alert_record (alert_data : AlertData) (db : Db) : bool * Db :=
  if alert_insert_fails faults alert_data then (false, db)
  else (true, set_alerts db (alerts_tbl db ++ [alert_data])).

(** The loop [for rule in ..._rules] shared by the three checks:
    [build] makes [alert_data] from [rule["id"]]. *)
Fixpoint check_each_rule (build : string -> AlertData) (change_value : Q)
    (rules : list AlertRule) (triggered_alerts : list AlertData) (db : Db)
  : result (list AlertData) * Db :=
  match rules with
  | [] => (Ok triggered_alerts, db)
  | rule :: rest =>
      if _should_trigger_alert rule change_value then
        match rule_id rule with
        | None => (Raise (KeyError "id"), db)
        | Some id =>
            let alert_data := build id in
            let '(created, db') := create_alert_record alert_data db in
            check_each_rule build change_value rest
              (if created then triggered_alerts ++ [alert_data]
               else triggered_alerts) db'
        end
      else check_each_rule build change_value rest triggered_alerts db
  end.

(** [((current_price - previous_price) / previous_price) * 100] *)
Definition price_change_percent (current_price previous_price : Q) : Q :=
  float_mul (float_div (float_sub current_price previous_price) previous_price) 100.

Definition price_alert_data (a : string) (date : Z)
    (current_price previous_price change_percent : Q) (id : string) : AlertData :=
  {| alert_asin := a;
     alert_rule_id := id;
     message := PriceMessage previous_price current_price change_percent;
     previous_value := previous_price;
     current_value := current_price;
     change_percent := round2 change_percent;
     alert_snapshot_date := date |}.

Definition _check_price_alerts (a : string)
    (latest previous : ProductSnapshotDict) (rules : list AlertRule) (db : Db)
  : result (list AlertData) * Db :=
  let price_rules := List.filter (is_rule_type "price_change") rules in
  match price_rules with
  | [] => (Ok [], db)
  | _ =>
      match price latest, price previous with
      | Some current_price, Some previous_price =>
          if Qis_zero previous_price then (Ok [], db)
          else
            let change_percent :=
              price_change_percent current_price previous_price in
            check_each_rule
              (price_alert_data a (snapshot_date latest)
                 current_price previous_price change_percent)
              change_percent price_rules [] db
      | _, _ => (Ok [], db)
      end
  end.

(** [((previous_rank - current_rank) / previous_rank) * 100], the
    ranks being integers. *)
Definition bsr_change_percent (current_rank previous_rank : Z) : result Q :=
  match int_true_divide (previous_rank - current_rank) previous_rank with
  | Raise e => Raise e
  | Ok quotient => Ok (float_mul quotient 100)
  end.

Definition bsr_alert_data (a : string) (date : Z)
    (current_rank previous_rank : Z) (change_percent : Q) (id : string) : AlertData :=
  {| alert_asin := a;
     alert_rule_id := id;
     message := BsrMessage previous_rank current_rank change_percent;
     previous_value := inject_Z previous_rank;
     current_value := inject_Z current_rank;
     change_percent := round2 change_percent;
     alert_snapshot_date := date |}.

Definition _check_bsr_alerts (a : string)
    (latest previous : ProductSnapshotDict) (rules : list AlertRule) (db : Db)
  : result (list AlertData) * Db :=
  let bsr_rules := List.filter (is_rule_type "bsr_change") rules in
  match bsr_rules with
  | [] => (Ok [], db)
  | _ =>
      match bsr_data latest, bsr_data previous with
      | current_main_bsr :: _, previous_main_bsr :: _ =>
          match rank current_main_bsr, rank previous_main_bsr with
          | Some current_rank, Some previous_rank =>
              if (previous_rank =? 0)%Z then (Ok [], db)
              else
                match bsr_change_percent current_rank previous_rank with
                | Raise e => (Raise e, db)
                | Ok change_percent =>
                    check_each_rule
                      (bsr_alert_data a (snapshot_date latest)
                         current_rank previous_rank change_percent)
                      change_percent bsr_rules [] db
                end
          | _, _ => (Ok [], db)
          end
      | _, _ => (Ok [], db)
      end
  end.

Definition rating_alert_data (a : string) (date : Z)
    (current_rating previous_rating change_amount : Q) (id : string) : AlertData :=
  {| alert_asin := a;
     alert_rule_id := id;
     message := RatingMessage previous_rating current_rating change_amount;
     previous_value := previous_rating;
     current_value := current_rating;
     change_percent := round2 change_amount;
     alert_snapshot_date := date |}.

Definition _check_rating_alerts (a : string)
    (latest previous : ProductSnapshotDict) (rules : list AlertRule) (db : Db)
  : result (list AlertData) * Db :=
  let rating_rules := List.filter (is_rule_type "rating_change") rules in
  match rating_rules with
  | [] => (Ok [], db)
  | _ =>
      match rating latest, rating previous with
      | Some current_rating, Some previous_rating =>
          let change_amount := float_sub current_rating previous_rating in
          check_each_rule
            (rating_alert_data a (snapshot_date latest)
               current_rating previous_rating change_amount)
            change_amount rating_rules [] db
      | _, _ => (Ok [], db)
      end
  end.

(** The body of the [try] in [check_alerts_for_asin]. *)
Definition check_alerts_body (a : string) (db : Db)
  : result (list AlertData) * Db :=
  match get_latest_snapshot a db with
  | None => (Ok [], db)
  | Some latest_snapshot =>
      match get_previous_snapshot a (snapshot_date latest_snapshot) db with
      | None => (Ok [], db)
      | Some previous_snapshot =>
          match get_active_rules db with
          | [] => (Ok [], db)
          | rules =>
              match _check_price_alerts a latest_snapshot previous_snapshot rules db with
              | (Raise e, db1) => (Raise e, db1)
              | (Ok price_alerts, db1) =>
                  match _check_bsr_alerts a latest_snapshot previous_snapshot rules db1 with
                  | (Raise e, db2) => (Raise e, db2)
                  | (Ok bsr_alerts, db2) =>
                      match _check_rating_alerts a latest_snapshot previous_snapshot rules db2 with
                      | (Raise e, db3) => (Raise e, db3)
                      | (Ok rating_alerts, db3) =>
                          (Ok (price_alerts ++ bsr_alerts ++ rating_alerts), db3)
                      end
                  end
              end
          end
      end
  end.

(** [check_alerts_for_asin]: [except Exception: return []] *)
Definition check_alerts_for_asin (a : string) (db : Db) : list AlertData * Db :=
  match check_alerts_body a db with
  | (Ok triggered_alerts, db') => (triggered_alerts, db')
  | (Raise _, db') => ([], db')
  end.


End Evaluator.

(** ** Identifier status store ([database/asin_status_queries.py]) *)

(** Naive local timestamps ([datetime.now()]) count microseconds. *)
Definition microseconds_per_minute : Z := 60000000.
Definition microseconds_per_day : Z := 86400000000.

(** [t.replace(hour=23, minute=59, second=59, microsecond=999999)] *)
Definition end_of_day (t : Z) : Z :=
  (t / microseconds_per_day * microseconds_per_day + microseconds_per_day - 1)%Z.

(** [one_day_ago]: the last microsecond of the calendar day before [now]. *)
Definition one_day_ago (now : Z) : Z := end_of_day (now - microseconds_per_day).
Definition five_minutes_ago (now : Z) : Z := (now - 5 * microseconds_per_minute)%Z.

(** Column comparisons against a value; a null column satisfies none. *)
Definition ts_lte (ts : option Z) (bound : Z) : bool :=
  match ts with Some t => (t <=? bound)%Z | None => false end.
Definition ts_lt (ts : option Z) (bound : Z) : bool :=
  match ts with Some t => (t <? bound)%Z | None => false end.

(** The [or_(...)] filter of [get_asins_to_scrape]. *)
Definition to_scrape_filter (now : Z) (row : AsinRow) : bool :=
  (status row =? "pending")%string
  || ((status row =? "completed")%string && ts_lte (task_timestamp row) (one_day_ago now))
  || ((status row =? "running")%string && ts_lt (task_timestamp row) (five_minutes_ago now))
  || ((status row =? "failed")%string && (retry_count row <? 3)%Z).

(** [.order("task_timestamp", desc=False)]: ascending, nulls last. *)
Definition ts_leb (a b : option Z) : bool :=
  match a, b with
  | Some x, Some y => (x <=? y)%Z
  | Some _, None => true
  | None, Some _ => false
  | None, None => true
  end.

Fixpoint insert_by_timestamp (r : string * AsinRow) (l : list (string * AsinRow))
  : list (string * AsinRow) :=
  match l with
  | [] => [r]
  | h :: t =>
      if ts_leb (task_timestamp r.2) (task_timestamp h.2) then r :: l
      else h :: insert_by_timestamp r t
  end.

Definition order_by_task_timestamp (l : list (string * AsinRow))
  : list (string * AsinRow) :=
  fold_right insert_by_timestamp [] l.

(** The fields an update sends for one row. *)
Record AsinUpdate := {
  upd_asin : string;
  upd_status : string;
  upd_task_timestamp : option Z;
  upd_retry_count : option Z
}.

(** [asin_update_data] as both paths build it. *)
Definition asin_update_data (a : string) (new_status : string)
    (timestamp : option Z) (current_retry_count : Z) : AsinUpdate :=
  {| upd_asin := a;
     upd_status := new_status;
     upd_task_timestamp :=
       if (new_status =? "running")%string then timestamp else None;
     upd_retry_count :=
       if (new_status =? "failed")%string then Some (current_retry_count + 1)%Z
       else None |}.

(** [UPDATE ... SET] the fields that are sent. *)
Definition apply_update (u : AsinUpdate) (row : AsinRow) : AsinRow :=
  {| status := upd_status u;
     task_timestamp :=
       match upd_task_timestamp u with
       | Some t => Some t
       | None => task_timestamp row
       end;
     retry_count := default (retry_count row) (upd_retry_count u) |}.

(** [.upsert(..., on_conflict="asin")]: update the row with that key,
    insert one with column defaults when there is none. *)
Definition upsert_row (tbl : gmap string AsinRow) (u : AsinUpdate)
  : gmap string AsinRow :=
  match tbl !! upd_asin u with
  | Some row => <[upd_asin u := apply_update u row]> tbl
  | None =>
      <[upd_asin u := {| status := upd_status u;
                         task_timestamp := upd_task_timestamp u;
                         retry_count := default 0%Z (upd_retry_count u) |}]> tbl
  end.

Definition upsert (tbl : gmap string AsinRow) (data : list AsinUpdate)
  : gmap string AsinRow :=
  fold_left upsert_row data tbl.

Definition mem (a : string) (l : list string) : bool :=
  existsb (String.eqb a) l.

(** [list.remove(a)]: drops the first occurrence. *)
Fixpoint remove_first (a : string) (l : list string) : list string :=
  match l with
  | [] => []
  | h :: t => if (a =? h)%string then t else h :: remove_first a t
  end.

Record StatusUpdateResult := {
  success : bool;
  successful_asins : list string;
  failed_asins : list string
}.

Definition success_count (r : StatusUpdateResult) : nat := length (successful_asins r).
Definition failure_count (r : StatusUpdateResult) : nat := length (failed_asins r).

Definition valid_statuses : list string :=
  ["pending"; "running"; "completed"; "failed"].

(** The log lines the callers write after a status update:
    [status_update_result['success_count']] is read when [success] is
    true, and the answer given for an empty list has no such key;
    [status_update_result['message']], read otherwise, is always
    there. *)
Definition log_status_update (asins : list string) (res : StatusUpdateResult)
  : result unit :=
  if success res then
    match asins with
    | [] => Raise (KeyError "success_count")
    | _ => Ok tt
    end
  else Ok tt.

Section StatusStore.
Context (faults : Faults).

(** [get_asins_to_scrape(limit)] at local time [now]. *)
Definition get_asins_to_scrape (limit : nat) (now : Z) (db : Db) : list string :=
  if status_client_missing faults then []
  else if status_bulk_query_fails faults then []
  else
    map fst
      (firstn limit
         (order_by_task_timestamp
            (List.filter (fun r => to_scrape_filter now r.2)
               (map_to_list (asin_status_tbl db))))).

(** The first loop of [bulk_update_asin_status]: [existing] answers
    the [in_("asin", asins)] query. *)
Fixpoint prepare_bulk_update (existing : gmap string AsinRow)
    (new_status : string) (timestamp : option Z) (asins : list string)
    (bulk_update_data : list AsinUpdate) (successful failed : list string)
  : list AsinUpdate * list string * list string :=
  match asins with
  | [] => (bulk_update_data, successful, failed)
  | a :: rest =>
      match existing !! a with
      | None =>
          prepare_bulk_update existing new_status timestamp rest
            bulk_update_data successful (failed ++ [a])
      | Some row =>
          prepare_bulk_update existing new_status timestamp rest
            (bulk_update_data
               ++ [asin_update_data a new_status timestamp (retry_count row)])
            (successful ++ [a]) failed
      end
  end.

(** The fallback loop, one row at a time.  The update of a row that
    was just read returns it, so [result.data] is not empty there. *)
Fixpoint update_one_by_one (new_status : string) (timestamp : option Z)
    (asins : list string) (successful failed : list string)
    (tbl : gmap string AsinRow)
  : list string * list string * gmap string AsinRow :=
  match asins with
  | [] => (successful, failed, tbl)
  | a :: rest =>
      if status_row_query_fails faults a then
        update_one_by_one new_status timestamp rest
          (if mem a successful then remove_first a successful else successful)
          (failed ++ [a]) tbl
      else
        match tbl !! a with
        | None =>
            update_one_by_one new_status timestamp rest
              successful (failed ++ [a]) tbl
        | Some row =>
            if status_row_update_fails faults a then
              update_one_by_one new_status timestamp rest
                (if mem a successful then remove_first a successful
                 else successful)
                (failed ++ [a]) tbl
            else
              update_one_by_one new_status timestamp rest
                (if mem a successful then successful else successful ++ [a])
                failed
                (<[a := apply_update
                          (asin_update_data a new_status timestamp
                             (retry_count row)) row]> tbl)
        end
  end.

Definition update_result (successful failed : list string) : StatusUpdateResult :=
  {| success := match failed with [] => true | _ => false end;
     successful_asins := successful;
     failed_asins := failed |}.

(** [bulk_update_asin_status(asins, status, task_timestamp)] *)
Definition bulk_update_asin_status (asins : list string) (new_status : string)
    (timestamp : option Z) (db : Db) : StatusUpdateResult * Db :=
  match asins with
  | [] => ({| success := true; successful_asins := []; failed_asins := [] |}, db)
  | _ =>
      if negb (mem new_status valid_statuses) then
        ({| success := false; successful_asins := []; failed_asins := asins |}, db)
      else if status_client_missing faults then
        ({| success := false; successful_asins := []; failed_asins := asins |}, db)
      else if status_bulk_query_fails faults then
        let '(successful, failed, tbl) :=
          update_one_by_one new_status timestamp asins [] [] (asin_status_tbl db) in
        (update_result successful failed, set_asin_status db tbl)
      else
        let '(bulk_update_data, successful, failed) :=
          prepare_bulk_update (asin_status_tbl db) new_status timestamp asins
            [] [] [] in
        match bulk_update_data with
        | [] => (update_result successful failed, db)
        | _ =>
            if status_bulk_upsert_fails faults then
              let '(successful', failed', tbl) :=
                update_one_by_one new_status timestamp asins successful failed
                  (asin_status_tbl db) in
              (update_result successful' failed', set_asin_status db tbl)
            else
              (update_result successful failed,
               set_asin_status db (upsert (asin_status_tbl db) bulk_update_data))
        end
  end.

End StatusStore.

(** ** Webhook ingestor ([services/webhook_service.py]) *)

(** A parsed dataset item, read with [item.get(...)]. *)
Record DatasetItem := {
  item_asin : option string;
  item_title : option string;
  item_categories : list string;
  item_price : option Q;
  item_rating : option Q;
  item_review_count : option Z;
  item_bsr : list BsrEntry
}.

Record ProductData := {
  pd_asin : option string;
  pd_title : option string;
  pd_categories : list string
}.

Definition product_data (item : DatasetItem) : ProductData :=
  {| pd_asin := item_asin item;
     pd_title := item_title item;
     pd_categories := item_categories item |}.




Section Webhook.
Context (faults : Faults).


(** [database/snapshots_queries.py]: [bulk_create_snapshots] *)
Definition bulk_create_snapshots (snapshots : list ProductSnapshotDict)
    (now : Z) (db : Db) : bool * Db :=
  match snapshots with
  | [] => (true, db)
  | _ =>
      if snapshots_client_missing faults then (false, db)
      else
        let prepared_snapshots :=
          List.filter (fun s => truthy (asin s)) snapshots in
        match prepared_snapshots with
        | [] => (true, db)
        | _ =>
            if snapshots_insert_fails faults then (false, db)
            else
              (true,
               set_snapshots db
                 (product_snapshots_tbl db
                    ++ map (fun s => {| snap := s; snap_created_at := now |})
                         prepared_snapshots))
        end
  end.


End Webhook.

(** ** SHA-256 ([hashlib.sha256]), on 32-bit words held in [Z] *)

Module Sha256.

Definition w32 (x : Z) : Z := (x mod 2 ^ 32)%Z.
Definition add32 (x y : Z) : Z := w32 (x + y).
Definition rotr (n x : Z) : Z :=
  w32 (Z.lor (Z.shiftr x n) (Z.shiftl x (32 - n))).
Definition not32 (x : Z) : Z := (2 ^ 32 - 1 - x)%Z.

Definition ch (x y z : Z) : Z := Z.lxor (Z.land x y) (Z.land (not32 x) z).
Definition maj (x y z : Z) : Z :=
  Z.lxor (Z.lxor (Z.land x y) (Z.land x z)) (Z.land y z).
Definition big_sigma0 (x : Z) : Z := Z.lxor (Z.lxor (rotr 2 x) (rotr 13 x)) (rotr 22 x).
Definition big_sigma1 (x : Z) : Z := Z.lxor (Z.lxor (rotr 6 x) (rotr 11 x)) (rotr 25 x).
Definition small_sigma0 (x : Z) : Z :=
  Z.lxor (Z.lxor (rotr 7 x) (rotr 18 x)) (Z.shiftr x 3).
Definition small_sigma1 (x : Z) : Z :=
  Z.lxor (Z.lxor (rotr 17 x) (rotr 19 x)) (Z.shiftr x 10).

Definition round_constants : list Z :=
  [1116352408; 1899447441; 3049323471; 3921009573; 961987163; 1508970993;
   2453635748; 2870763221; 3624381080; 310598401; 607225278; 1426881987;
   1925078388; 2162078206; 2614888103; 3248222580; 3835390401; 4022224774;
   264347078; 604807628; 770255983; 1249150122; 1555081692; 1996064986;
   2554220882; 2821834349; 2952996808; 3210313671; 3336571891; 3584528711;
   113926993; 338241895; 666307205; 773529912; 1294757372; 1396182291;
   1695183700; 1986661051; 2177026350; 2456956037; 2730485921; 2820302411;
   3259730800; 3345764771; 3516065817; 3600352804; 4094571909; 275423344;
   430227734; 506948616; 659060556; 883997877; 958139571; 1322822218;
   1537002063; 1747873779; 1955562222; 2024104815; 2227730452; 2361852424;
   2428436474; 2756734187; 3204031479; 3329325298]%Z.

Definition initial_state : list Z :=
  [1779033703; 3144134277; 1013904242; 2773480762;
   1359893119; 2600822924; 528734635; 1541459225]%Z.

Definition at_ (l : list Z) (i : nat) : Z := nth i l 0%Z.

(** The message with its padding: 0x80, zeros, the bit length on 8 bytes. *)
Definition big_endian (width : nat) (x : Z) : list Z :=
  map (fun i => (Z.shiftr x (8 * Z.of_nat i) mod 256)%Z) (rev (seq 0 width)).

Definition pad (msg : list Z) : list Z :=
  let len := Z.of_nat (length msg) in
  let zeros := Z.to_nat ((55 - len) mod 64) in
  msg ++ [128%Z] ++ repeat 0%Z zeros ++ big_endian 8 (8 * len).

Fixpoint words (n : nat) (bytes : list Z) : list Z :=
  match n with
  | O => []
  | S n' =>
      match bytes with
      | a :: b :: c :: d :: rest =>
          (a * 2 ^ 24 + b * 2 ^ 16 + c * 2 ^ 8 + d)%Z :: words n' rest
      | _ => []
      end
  end.

Fixpoint schedule (n : nat) (w : list Z) : list Z :=
  match n with
  | O => w
  | S n' =>
      let i := length w in
      schedule n'
        (w ++ [add32 (add32 (small_sigma1 (at_ w (i - 2))) (at_ w (i - 7)))
                 (add32 (small_sigma0 (at_ w (i - 15))) (at_ w (i - 16)))])
  end.

Definition step (s : list Z) (kw : Z * Z) : list Z :=
  let '(k, w) := kw in
  let a := at_ s 0 in let b := at_ s 1 in let c := at_ s 2 in let d := at_ s 3 in
  let e := at_ s 4 in let f := at_ s 5 in let g := at_ s 6 in let h := at_ s 7 in
  let t1 := add32 (add32 (add32 h (big_sigma1 e)) (add32 (ch e f g) k)) w in
  let t2 := add32 (big_sigma0 a) (maj a b c) in
  [add32 t1 t2; a; b; c; add32 d t1; e; f; g].

Definition compress (s : list Z) (block : list Z) : list Z :=
  let w := schedule 48 (words 16 block) in
  let s' := fold_left step (combine round_constants w) s in
  map (fun p => add32 p.1 p.2) (combine s s').

Fixpoint blocks (n : nat) (s : list Z) (bytes : list Z) : list Z :=
  match n with
  | O => s
  | S n' =>
      match bytes with
      | [] => s
      | _ => blocks n' (compress s (firstn 64 bytes)) (skipn 64 bytes)
      end
  end.

Definition digest (msg : list Z) : list Z :=
  let padded := pad msg in
  flat_map (big_endian 4) (blocks (length padded) initial_state padded).

Definition hex_digit (n : Z) : ascii :=
  if (n <? 10)%Z then ascii_of_N (Z.to_N (48 + n))
  else ascii_of_N (Z.to_N (87 + n)).

Fixpoint hex (bytes : list Z) : string :=
  match bytes with
  | [] => ""
  | b :: rest => String (hex_digit (b / 16)) (String (hex_digit (b mod 16)) (hex rest))
  end.

Definition bytes_of_string (s : string) : list Z :=
  map (fun c => Z.of_N (N_of_ascii c)) (list_ascii_of_string s).

(** [hashlib.sha256(s.encode("utf-8")).hexdigest()]; a [string] here
    is already the sequence of its UTF-8 bytes. *)
Definition hexdigest (s : string) : string := hex (digest (bytes_of_string s)).

End Sha256.

Local Set Warnings "-register-all".

(** ** Report parameters and their hash ([database/report_queries.py]) *)

(** JSON-serialisable values; a dictionary lists its items in insertion
    order.  Numbers in report parameters are integers. *)
Inductive json :=
| JNull
| JBool (b : bool)
| JInt (n : Z)
| JStr (s : string)
| JArr (elements : list json)
| JObj (items : list (string * json)).

(** Python truthiness. *)
Definition json_truthy (j : json) : bool :=
  match j with
  | JNull => false
  | JBool b => b
  | JInt n => negb (n =? 0)%Z
  | JStr s => truthy (Some s)
  | JArr l => match l with [] => false | _ => true end
  | JObj l => match l with [] => false | _ => true end
  end.

(** [d.get(key, default)] *)
Fixpoint dict_get (key : string) (items : list (string * json)) (dflt : json) : json :=
  match items with
  | [] => dflt
  | (k, v) :: rest => if (k =? key)%string then v else dict_get key rest dflt
  end.

Definition double_quote : string := String "034"%char "".
Definition backslash : string := String "092"%char "".

(** The escapes of [json.dumps(..., ensure_ascii=False)]. *)
Definition escape_char (c : ascii) : string :=
  let n := N_of_ascii c in
  if (n =? 34)%N then backslash +:+ double_quote
  else if (n =? 92)%N then backslash +:+ backslash
  else if (n =? 10)%N then backslash +:+ "n"
  else if (n =? 13)%N then backslash +:+ "r"
  else if (n =? 9)%N then backslash +:+ "t"
  else if (n =? 8)%N then backslash +:+ "b"
  else if (n =? 12)%N then backslash +:+ "f"
  else if (n <? 32)%N then
    backslash +:+ "u00"
    +:+ String (Sha256.hex_digit (Z.of_N n / 16))
          (String (Sha256.hex_digit (Z.of_N n mod 16)) "")
  else String c "".

Fixpoint escape (s : string) : string :=
  match s with
  | EmptyString => ""
  | String c rest => escape_char c +:+ escape rest
  end.

Definition encode_str (s : string) : string :=
  double_quote +:+ escape s +:+ double_quote.

(** [sort_keys=True]: items ordered by key, keys compared as strings. *)
Fixpoint insert_by_key (item : string * string) (l : list (string * string))
  : list (string * string) :=
  match l with
  | [] => [item]
  | h :: t =>
      if String.leb item.1 h.1 then item :: l else h :: insert_by_key item t
  end.

Definition sort_by_key (l : list (string * string)) : list (string * string) :=
  fold_right insert_by_key [] l.

Definition render_item (item : string * string) : string :=
  encode_str item.1 +:+ ": " +:+ item.2.

(** [json.dumps(value, sort_keys=True, ensure_ascii=False)].  Every
    value of a dictionary is rendered, then the rendered items are put
    in key order. *)
Fixpoint dumps (j : json) : string :=
  match j with
  | JNull => "null"
  | JBool true => "true"
  | JBool false => "false"
  | JInt n => pretty n
  | JStr s => encode_str s
  | JArr elements => "[" +:+ String.concat ", " (map dumps elements) +:+ "]"
  | JObj items =>
      "{" +:+ String.concat ", "
                (map render_item
                   (sort_by_key (map (fun kv => (kv.1, dumps kv.2)) items)))
      +:+ "}"
  end.

(** [generate_parameters_hash] *)
Definition generate_parameters_hash (parameters : json) : string :=
  let sorted_params := dumps parameters in
  Sha256.hexdigest sorted_params.


(** ** Report jobs ([database/report_queries.py]) *)

(** [datetime.now().date()] and the two bounds of the same-day query,
    ["{date} 00:00:00"] and ["{date} 23:59:59"]. *)
Definition date_of (now : Z) : Z := (now / microseconds_per_day)%Z.
Definition day_start (date : Z) : Z := (date * microseconds_per_day)%Z.
Definition day_last_second (date : Z) : Z :=
  (date * microseconds_per_day + 86399 * 1000000)%Z.

(** The store generates the identifier of a new row. *)
Definition next_job_id (jobs : list ReportJob) : nat :=
  S (fold_right Nat.max 0 (map job_id jobs)).

(** [create_report_job(job_type, parameters, parameters_hash)]; [raises]
    tells whether the store rejects the insert. *)
Definition create_report_job (type : string) (hash : string) (now : Z)
    (raises : bool) (db : Db) : result nat * Db :=
  if raises then (Raise StoreError, db)
  else
    let id := next_job_id (report_jobs_tbl db) in
    (Ok id,
     set_report_jobs db
       (report_jobs_tbl db
          ++ [{| job_id := id;
                 job_type := type;
                 parameters_hash := hash;
                 job_status := "pending";
                 created_at := now;
                 started_at := None;
                 completed_at := None;
                 result_url := None;
                 error_message := None |}])).

Definition or_keep (new old : option string) : option string :=
  if truthy new then new else old.

Definition update_job (new_status : string) (url message : option string)
    (now : Z) (j : ReportJob) : ReportJob :=
  {| job_id := job_id j;
     job_type := job_type j;
     parameters_hash := parameters_hash j;
     job_status := new_status;
     created_at := created_at j;
     started_at :=
       if (new_status =? "running")%string then Some now else started_at j;
     completed_at :=
       if (new_status =? "running")%string then completed_at j
       else if mem new_status ["completed"; "failed"] then Some now
       else completed_at j;
     result_url := or_keep url (result_url j);
     error_message := or_keep message (error_message j) |}.

(** [update_report_job_status(job_id, status, result_url, error_message)]:
    [True] when a row was updated. *)
Definition update_report_job_status (id : nat) (new_status : string)
    (url message : option string) (now : Z) (raises : bool) (db : Db)
  : result bool * Db :=
  if raises then (Raise StoreError, db)
  else
    (Ok (existsb (fun j => (job_id j =? id)%nat) (report_jobs_tbl db)),
     set_report_jobs db
       (map (fun j => if (job_id j =? id)%nat
                      then update_job new_status url message now j else j)
          (report_jobs_tbl db))).

(** [save_report_result] *)
Definition save_report_result (id : nat) (type text : string)
    (raises : bool) (db : Db) : result unit * Db :=
  if raises then (Raise StoreError, db)
  else
    (Ok tt,
     set_report_results db
       (report_results_tbl db
          ++ [{| result_job_id := id; report_type := type; content := text |}])).

(** [check_existing_report(parameters_hash, date)]: the first completed
    job with that hash created on that day, [now] giving today when no
    date is passed. *)
Definition check_existing_report (hash : string) (date : option Z) (now : Z)
    (raises : bool) (db : Db) : result (option ReportJob) :=
  if raises then Raise StoreError
  else
    let day := match date with Some d => d | None => date_of now end in
    Ok (head
          (List.filter
             (fun j =>
                (parameters_hash j =? hash)%string
                && (job_status j =? "completed")%string
                && (day_start day <=? created_at j)%Z
                && (created_at j <? day_last_second day)%Z)
             (report_jobs_tbl db))).

(** ** Report submission ([services/report_service.py]) *)

Record SubmitFaults := {
  check_raises : bool;
  insert_raises : bool;
  enqueue_raises : bool
}.

Inductive SubmitResult :=
| Rejected (error : string)
| Accepted (id : nat) (job_state : string) (existing : bool) (warning : bool).

(** [_check_idempotency]: a failed lookup counts as no existing job. *)
Definition _check_idempotency (hash : string) (now : Z) (raises : bool) (db : Db)
  : option ReportJob :=
  let today := date_of now in
  match check_existing_report hash (Some today) now raises db with
  | Ok existing_job => existing_job
  | Raise _ => None
  end.

(** The dictionary [parameters] the service builds from the request. *)
Definition request_parameter_items (request : list (string * json))
  : list (string * json) :=
  [("main_asin", dict_get "main_asin" request JNull);
   ("competitor_asins", dict_get "competitor_asins" request (JArr []));
   ("window_size", dict_get "window_size" request (JInt 7));
   ("report_type", dict_get "report_type" request (JStr "competitor_analysis"))].

Definition request_parameters (request : list (string * json)) : json :=
  JObj (request_parameter_items request).

(** [create_competitor_report(request)] at local time [now].  The
    identifier the store generates is never empty. *)
Definition create_competitor_report (request : list (string * json)) (now : Z)
    (faults : SubmitFaults) (db : Db) : SubmitResult * Db :=
  let main_asin := dict_get "main_asin" request JNull in
  let competitor_asins := dict_get "competitor_asins" request (JArr []) in
  if negb (json_truthy main_asin) then
    (Rejected "缺少必要參數: main_asin", db)
  else if negb (json_truthy competitor_asins) then
    (Rejected "缺少必要參數: competitor_asins", db)
  else
    let parameters := request_parameters request in
    let hash := generate_parameters_hash parameters in
    match _check_idempotency hash now (check_raises faults) db with
    | Some existing_job =>
        (Accepted (job_id existing_job) (job_status existing_job) true false, db)
    | None =>
        match create_report_job "competitor_analysis" hash now
                (insert_raises faults) db with
        | (Raise e, db') => (Rejected ("創建報告失敗: " +:+ str_exn e), db')
        | (Ok id, db') => (Accepted id "pending" false (enqueue_raises faults), db')
        end
    end.

(** ** Report generation worker ([tasks/report_tasks.py]) *)

Definition max_retries : nat := 3.

(** What the collaborators and the store do during one execution of the
    task. *)
Record Attempt := {
  attempt_time : Z;
  running_update_raises : bool;        (* the update to ["running"] *)
  analysis : result bool;              (* [analyze_competitors]: raises, or a falsy / truthy result *)
  generation : result string;          (* [generate_report]: raises, or the content *)
  save_raises : bool;                  (* [save_report_result] *)
  completed_update_raises : bool;      (* the update to ["completed"] *)
  failed_update_raises : bool;         (* the update after an unsuccessful result *)
  handler_update_raises : bool         (* the update made by the [except] handler *)
}.

(** [parameters[key]] *)
Fixpoint dict_index (key : string) (items : list (string * json)) : result json :=
  match items with
  | [] => Raise (KeyError key)
  | (k, v) :: rest => if (k =? key)%string then Ok v else dict_index key rest
  end.

Definition report_type_text (j : json) : string :=
  match j with JStr s => s | _ => dumps j end.

(** The dictionary [_execute_report_generation] returns. *)
Record ExecutionResult := {
  exec_success : bool;
  exec_error : option string
}.

Definition execution_failed (text : string) : ExecutionResult :=
  {| exec_success := false; exec_error := Some text |}.

(** [_execute_report_generation]: every exception raised inside is
    caught and reported in the returned dictionary. *)
Definition _execute_report_generation (id : nat) (type : json)
    (att : Attempt) (db : Db) : ExecutionResult * Db :=
  let caught e := execution_failed ("報告生成邏輯執行失敗: " +:+ str_exn e) in
  match analysis att with
  | Raise e => (caught e, db)
  | Ok false => (execution_failed "競品分析失敗，沒有返回結果", db)
  | Ok true =>
      match generation att with
      | Raise e => (caught e, db)
      | Ok report_content =>
          if negb (truthy (Some report_content)) then
            (execution_failed "LLM 報告生成失敗，沒有返回內容", db)
          else
            match save_report_result id (report_type_text type) report_content
                    (save_raises att) db with
            | (Raise e, db1) => (caught e, db1)
            | (Ok _, db1) =>
                match update_report_job_status id "completed" None None
                        (attempt_time att) (completed_update_raises att) db1 with
                | (Raise e, db2) => (caught e, db2)
                | (Ok _, db2) =>
                    ({| exec_success := true; exec_error := None |}, db2)
                end
            end
      end
  end.

(** How one execution of a task ends: it returns its dictionary, asks
    the queue for a retry ([raise self.retry(...)]), or lets an
    exception escape. *)
Inductive TaskOutcome :=
| Returned (ok : bool) (error : option string)
| Retry (exc : exn)
| Crashed (exc : exn).

(** The [try] body of [generate_competitor_report]. *)
Definition report_task_body (id : nat) (parameters : list (string * json))
    (att : Attempt) (db : Db) : result ExecutionResult * Db :=
  match update_report_job_status id "running" None None
          (attempt_time att) (running_update_raises att) db with
  | (Raise e, db1) => (Raise e, db1)
  | (Ok _, db1) =>
      match dict_index "main_asin" parameters,
            dict_index "competitor_asins" parameters,
            dict_index "window_size" parameters,
            dict_index "report_type" parameters with
      | Raise e, _, _, _ => (Raise e, db1)
      | Ok _, Raise e, _, _ => (Raise e, db1)
      | Ok _, Ok _, Raise e, _ => (Raise e, db1)
      | Ok _, Ok _, Ok _, Raise e => (Raise e, db1)
      | Ok _, Ok _, Ok _, Ok type =>
          let '(execution, db2) := _execute_report_generation id type att db1 in
          if exec_success execution then (Ok execution, db2)
          else
            match update_report_job_status id "failed" None
                    (Some (default "報告生成失敗" (exec_error execution)))
                    (attempt_time att) (failed_update_raises att) db2 with
            | (Raise e, db3) => (Raise e, db3)
            | (Ok _, db3) => (Ok execution, db3)
            end
      end
  end.

(** [generate_competitor_report(self, job_id, parameters)] with
    [self.request.retries = retries].  In [raise self.retry(exc=exc,
    countdown=self.get_retry_delay(), ...)] the arguments are evaluated
    before the call: the task has no attribute [get_retry_delay], so the
    expression raises [AttributeError] and [self.retry] is never
    called. *)
Definition generate_competitor_report (retries : nat) (id : nat)
    (parameters : list (string * json)) (att : Attempt) (db : Db)
  : TaskOutcome * Db :=
  match report_task_body id parameters att db with
  | (Ok execution, db1) =>
      (Returned (exec_success execution) (exec_error execution), db1)
  | (Raise exc, db1) =>
      if (retries <? max_retries)%nat then
        match update_report_job_status id "running" None
                (Some ("任務重試中 (第 " +:+ pretty (retries + 1)%nat +:+ " 次): "
                       +:+ str_exn exc))
                (attempt_time att) (handler_update_raises att) db1 with
        | (Raise e, db2) => (Crashed e, db2)
        | (Ok _, db2) =>
            (Crashed (AttributeError "generate_competitor_report" "get_retry_delay"),
             db2)
        end
      else
        match update_report_job_status id "failed" None
                (Some ("任務重試次數已達上限: " +:+ str_exn exc))
                (attempt_time att) (handler_update_raises att) db1 with
        | (Raise e, db2) => (Crashed e, db2)
        | (Ok _, db2) => (Returned false (Some (str_exn exc)), db2)
        end
  end.

(** [ReportTask.on_failure(exc, task_id, ...)]: the queue's own task
    identifier is used as the key; a failing update is only printed. *)
Definition on_failure (exc : exn) (task_id : nat) (now : Z) (raises : bool)
    (db : Db) : Db :=
  (update_report_job_status task_id "failed" None (Some (str_exn exc))
     now raises db).2.

(** The queue runs the task, and would run it again with [retries + 1]
    each time it asked for a retry; [attempts] lists what happens in
    each execution.  An exception that escapes ends the task and calls
    [on_failure].  The outcome is [None] while a retry is still
    pending. *)
Fixpoint run_report_task (task_id : nat) (retries : nat) (id : nat)
    (parameters : list (string * json)) (attempts : list Attempt) (db : Db)
  : option TaskOutcome * Db :=
  match attempts with
  | [] => (None, db)
  | att :: rest =>
      match generate_competitor_report retries id parameters att db with
      | (Retry _, db1) =>
          run_report_task task_id (S retries) id parameters rest db1
      | (Crashed e, db1) =>
          (Some (Crashed e),
           on_failure e task_id (attempt_time att) (handler_update_raises att) db1)
      | (outcome, db1) => (Some outcome, db1)
      end
  end.

(** ** Values the statements below refer to *)

(** The same rule with another [threshold_type] entry. *)
Definition with_threshold_type (rule : AlertRule) (kind : option string) : AlertRule :=
  {| rule_id := rule_id rule;
     rule_type := rule_type rule;
     threshold := threshold rule;
     change_direction := change_direction rule;
     threshold_type := kind;
     is_active := is_active rule |}.

Definition empty_db : Db :=
  {| asin_status_tbl := ∅;
     products_tbl := ∅;
     product_snapshots_tbl := [];
     alert_rules_tbl := [];
     alerts_tbl := [];
     report_jobs_tbl := [];
     report_results_tbl := [] |}.

(** An observation holding only a price, and one holding only rankings. *)
Definition price_snapshot (a : string) (date : Z) (p : Q) : SnapshotRow :=
  {| snap := {| asin := Some a; snapshot_date := date; price := Some p;
                rating := None; review_count := None; bsr_data := [] |};
     snap_created_at := 0 |}.

Definition rank_snapshot (a : string) (date : Z) (ranks : list BsrEntry) : SnapshotRow :=
  {| snap := {| asin := Some a; snapshot_date := date; price := None;
                rating := None; review_count := None; bsr_data := ranks |};
     snap_created_at := 0 |}.

Definition simple_rule (id type direction : string) (t : Q) : AlertRule :=
  {| rule_id := Some id;
     rule_type := Some type;
     threshold := Some (Some t);
     change_direction := Some direction;
     threshold_type := Some "percentage";
     is_active := true |}.

Definition db_with (snapshots : list SnapshotRow) (rules : list AlertRule) : Db :=
  {| asin_status_tbl := ∅;
     products_tbl := ∅;
     product_snapshots_tbl := snapshots;
     alert_rules_tbl := rules;
     alerts_tbl := [];
     report_jobs_tbl := [];
     report_results_tbl := [] |}.

(** The alerts a run of the rule loop stores and returns: one per
    triggering rule, in rule order, kept when the store accepts it. *)
Definition stored_alerts (faults : Faults) (build : string -> AlertData)
    (change_value : Q) (rules : list AlertRule) : list AlertData :=
  List.filter (fun x => negb (alert_insert_fails faults x))
    (map (fun r => build (default "" (rule_id r)))
       (List.filter (fun r => _should_trigger_alert r change_value) rules)).

(** The rank of the first (primary) ranking of an observation. *)
Definition primary_rank (s : ProductSnapshotDict) : option Z :=
  match bsr_data s with
  | main :: _ => rank main
  | [] => None
  end.

Definition ranked (r : Z) : list BsrEntry :=
  [{| rank := Some r; category := "Sports & Outdoors" |};
   {| rank := Some 8%Z; category := "Yoga Mats" |}].

(** Eligibility as the specification words it, with the completed case
    measured from [now - 1 day]. *)
Definition spec_eligible (now : Z) (row : AsinRow) : Prop :=
  status row = "pending"
  \/ (status row = "completed"
      /\ exists t, task_timestamp row = Some t /\ (t <= now - microseconds_per_day)%Z)
  \/ (status row = "running"
      /\ exists t, task_timestamp row = Some t
                   /\ (t < now - 5 * microseconds_per_minute)%Z)
  \/ (status row = "failed" /\ (retry_count row < 3)%Z).

(** Eligibility as the query states it, with the completed case
    measured from the end of the previous calendar day. *)
Definition query_eligible (now : Z) (row : AsinRow) : Prop :=
  status row = "pending"
  \/ (status row = "completed"
      /\ exists t, task_timestamp row = Some t
                   /\ (t <= end_of_day (now - microseconds_per_day))%Z)
  \/ (status row = "running"
      /\ exists t, task_timestamp row = Some t
                   /\ (t < now - 5 * microseconds_per_minute)%Z)
  \/ (status row = "failed" /\ (retry_count row < 3)%Z).

(** Ascending timestamps, rows without one last. *)
Definition not_after (x y : string * AsinRow) : Prop :=
  match task_timestamp x.2, task_timestamp y.2 with
  | Some s, Some t => (s <= t)%Z
  | None, Some _ => False
  | _, None => True
  end.

(** An identifier completed at 23:00 on day 1, looked at on day 2 at
    01:00. *)
Definition completed_last_evening : AsinRow :=
  {| status := "completed";
     task_timestamp := Some 169200000000%Z;
     retry_count := 0 |}.

Definition day2_one_o_clock : Z := 176400000000.

(** The rule cache holding [rules], nothing failing. *)
Definition with_rules_cache (rules : list AlertRule) : Faults :=
  {| snapshots_unavailable := false;
     rules_unavailable := false;
     rules_cache := Some rules;
     rules_cache_store_fails := false;
     rules_cache_reread_fails := false;
     alert_insert_fails := fun _ => false;
     products_client_missing := false;
     products_upsert_fails := false;
     snapshots_client_missing := false;
     snapshots_insert_fails := false;
     status_client_missing := false;
     status_bulk_query_fails := false;
     status_bulk_upsert_fails := false;
     status_row_query_fails := fun _ => false;
     status_row_update_fails := fun _ => false |}.

(** A store tracking one identifier, retried once already. *)
Definition one_tracked_db : Db :=
  set_asin_status empty_db
    {["B0DG3X1D7B" := {| status := "running";
                         task_timestamp := Some 1000%Z;
                         retry_count := 1 |}]}.




(** A status store that refuses the batch upsert, and then the update
    of the row of [a]. *)
Definition upsert_refused (a : string) : Faults :=
  {| snapshots_unavailable := false;
     rules_unavailable := false;
     rules_cache := None;
     rules_cache_store_fails := false;
     rules_cache_reread_fails := false;
     alert_insert_fails := fun _ => false;
     products_client_missing := false;
     products_upsert_fails := false;
     snapshots_client_missing := false;
     snapshots_insert_fails := false;
     status_client_missing := false;
     status_bulk_query_fails := false;
     status_bulk_upsert_fails := true;
     status_row_query_fails := fun _ => false;
     status_row_update_fails := fun x => (x =? a)%string |}.






(** The stored row of a report job. *)
Definition job_of (id : nat) (db : Db) : option ReportJob :=
  List.find (fun j => (job_id j =? id)%nat) (report_jobs_tbl db).

(** The [try] body of the task raises [exc] in this execution, whatever
    the store holds. *)
Definition body_raises (id : nat) (parameters : list (string * json))
    (att : Attempt) (exc : exn) : Prop :=
  forall db, (report_task_body id parameters att db).1 = Raise exc.

(** An execution in which the store refuses the update to running. *)
Definition store_down (now : Z) : Attempt :=
  {| attempt_time := now;
     running_update_raises := true;
     analysis := Ok true;
     generation := Ok "# report";
     save_raises := false;
     completed_update_raises := false;
     failed_update_raises := false;
     handler_update_raises := false |}.

Definition one_job_db : Db :=
  set_report_jobs empty_db
    [{| job_id := 1; job_type := "competitor_analysis"; parameters_hash := "h";
        job_status := "pending"; created_at := 0; started_at := None;
        completed_at := None; result_url := None; error_message := None |}].

(** An execution of the report task in which everything works. *)
Definition attempt_succeeds (att : Attempt) : Prop :=
  running_update_raises att = false
  /\ analysis att = Ok true
  /\ (exists text, generation att = Ok text /\ truthy (Some text) = true)
  /\ save_raises att = false
  /\ completed_update_raises att = false.

Definition no_submit_faults : SubmitFaults :=
  {| check_raises := false; insert_raises := false; enqueue_raises := false |}.





Definition report_request : list (string * json) :=
  [("main_asin", JStr "B0DG3X1D7B");
   ("competitor_asins", JArr [JStr "B08XYZ1234"; JStr "B09ABC5678"]);
   ("window_size", JInt 7);
   ("report_type", JStr "competitor_analysis")].


Definition working_attempt (now : Z) : Attempt :=
  {| attempt_time := now;
     running_update_raises := false;
     analysis := Ok true;
     generation := Ok "# report";
     save_raises := false;
     completed_update_raises := false;
     failed_update_raises := false;
     handler_update_raises := false |}.


(** What a successful execution at time [t] does to the row of its job. *)
Definition completed_row (t : Z) (j : ReportJob) : ReportJob :=
  update_job "completed" None None t (update_job "running" None None t j).



(** Notions used in the proofs. *)

(** Every update of the list addresses a stored row. *)
Definition addresses_rows (tbl : gmap string AsinRow) (data : list AsinUpdate) : Prop :=
  forall u, In u data -> is_Some (tbl !! upd_asin u).

(** What the first loop produces, in closed form. *)
Definition stored (tbl : gmap string AsinRow) (a : string) : bool :=
  match tbl !! a with Some _ => true | None => false end.

Definition stored_retry_count (tbl : gmap string AsinRow) (a : string) : Z :=
  match tbl !! a with Some row => retry_count row | None => 0%Z end.

Definition bulk_data (tbl : gmap string AsinRow) (st : string) (ts : option Z)
    (asins : list string) : list AsinUpdate :=
  map (fun a => asin_update_data a st ts (stored_retry_count tbl a))
    (List.filter (stored tbl) asins).

Definition job_ids (db : Db) : list nat := map job_id (report_jobs_tbl db).

(** No row becomes pending: a row that is pending afterwards was there,
    unchanged, before. *)
Definition no_new_pending (db db' : Db) : Prop :=
  forall j, In j (report_jobs_tbl db') -> job_status j = "pending" ->
            In j (report_jobs_tbl db).


(** ** Scraping schedule and dispatch ([tasks/amazon_tasks.py]) *)

(** [get_pending_asins(limit)] ([database/asin_status_queries.py]) *)
Definition get_pending_asins (faults : Faults) (limit : nat) (now : Z) (db : Db)
  : list string :=
  get_asins_to_scrape faults limit now db.

(** How [schedule_amazon_scraping] ends: nothing to do, one batch handed
    to [fetch_amazon_products.delay], or a retry when that raises. *)
Inductive ScheduleResult :=
| NoAsins
| Scheduled (asins_to_scrape : list string)
| ScheduleRetry (exc : exn).

(** [schedule_amazon_scraping] at local time [now]; [delay_raises] is
    what sending the task raises, if anything. *)
Definition schedule_amazon_scraping (faults : Faults) (delay_raises : option exn)
    (now : Z) (db : Db) : ScheduleResult :=
  match get_pending_asins faults 100 now db with
  | [] => NoAsins
  | asins_to_scrape =>
      match delay_raises with
      | Some exc => ScheduleRetry exc
      | None => Scheduled asins_to_scrape
      end
  end.

(** [AmazonDataCollector.get_product_details]: the [status] of its
    answer; [start_raises] tells whether starting the actor raises. *)
Definition get_product_details (asins : list string) (start_raises : bool) : string :=
  match asins with
  | [] => "error"
  | _ => if start_raises then "error" else "started"
  end.

(** How one execution of [fetch_amazon_products] ends: it returns its
    dictionary, or asks the queue for a retry. *)
Inductive FetchOutcome :=
| FetchReturned (task_status : string) (asin_status_update : StatusUpdateResult)
| FetchRetry (exc : exn).

(** [fetch_amazon_products(asins)] at local time [now];
    [collector_raises] is what building the collector raises, if
    anything.  The handler's own status update is wrapped in a [try]
    that only prints. *)
Definition fetch_amazon_products (faults : Faults) (asins : list string)
    (collector_raises : option exn) (start_raises : bool) (now : Z) (db : Db)
  : FetchOutcome * Db :=
  let handler exc db1 :=
    (FetchRetry exc, (bulk_update_asin_status faults asins "failed" None db1).2) in
  match collector_raises with
  | Some exc => handler exc db
  | None =>
      if (get_product_details asins start_raises =? "started")%string then
        let '(status_update_result, db1) :=
          bulk_update_asin_status faults asins "running" (Some now) db in
        match log_status_update asins status_update_result with
        | Raise exc => handler exc db1
        | Ok _ => (FetchReturned "task_started" status_update_result, db1)
        end
      else
        let '(status_update_result, db1) :=
          bulk_update_asin_status faults asins "failed" None db in
        match log_status_update asins status_update_result with
        | Raise exc => handler exc db1
        | Ok _ => (FetchReturned "error" status_update_result, db1)
        end
  end.

(** ** Further values and notions the statements refer to *)

(** An observation holding only a rating. *)
Definition rating_snapshot (a : string) (date : Z) (r : Q) : SnapshotRow :=
  {| snap := {| asin := Some a; snapshot_date := date; price := None;
                rating := Some r; review_count := None; bsr_data := [] |};
     snap_created_at := 0 |}.

(** An alert raised for identifier [a] on the observation of day [date]
    by one of [rules]. *)
Definition from_rule (a : string) (date : Z) (rules : list AlertRule)
    (x : AlertData) : Prop :=
  alert_asin x = a
  /\ alert_snapshot_date x = date
  /\ exists r, In r rules /\ rule_id r = Some (alert_rule_id x)
               /\ (rule_type r = Some "price_change"
                   \/ rule_type r = Some "bsr_change"
                   \/ rule_type r = Some "rating_change").

(** The rows the selection query keeps at [now]. *)
Definition eligible_rows (now : Z) (db : Db) : list (string * AsinRow) :=
  List.filter (fun r => to_scrape_filter now r.2) (map_to_list (asin_status_tbl db)).

(** ** Reading and deleting report jobs ([database/report_queries.py]) *)

(** [get_report_job_status(job_id)]: the first row with that id. *)
Definition get_report_job_status (id : nat) (raises : bool) (db : Db)
  : result (option ReportJob) :=
  if raises then Raise StoreError
  else Ok (head (List.filter (fun j => (job_id j =? id)%nat) (report_jobs_tbl db))).

(** [get_report_result(job_id)]: the first result stored for that job. *)
Definition get_report_result (id : nat) (raises : bool) (db : Db)
  : result (option ReportResult) :=
  if raises then Raise StoreError
  else
    Ok (head (List.filter (fun r => (result_job_id r =? id)%nat)
                (report_results_tbl db))).

(** [delete_report_job(job_id)]: the results first, then the job;
    [True] when a job row was deleted. *)
Definition delete_report_job (id : nat) (results_raises jobs_raises : bool) (db : Db)
  : result bool * Db :=
  if results_raises then (Raise StoreError, db)
  else
    let db1 :=
      set_report_results db
        (List.filter (fun r => negb (result_job_id r =? id)%nat)
           (report_results_tbl db)) in
    if jobs_raises then (Raise StoreError, db1)
    else
      (Ok (existsb (fun j => (job_id j =? id)%nat) (report_jobs_tbl db1)),
       set_report_jobs db1
         (List.filter (fun j => negb (job_id j =? id)%nat) (report_jobs_tbl db1))).

(** ** Status and download ([services/report_service.py]) *)

(** The dictionary [get_report_status] returns: the job row, or an
    [error] with a [status]. *)
Inductive StatusAnswer :=
| JobStatus (job : ReportJob)
| StatusError (state : string).

Definition get_report_status (id : nat) (raises : bool) (db : Db) : StatusAnswer :=
  match get_report_job_status id raises db with
  | Raise _ => StatusError "error"
  | Ok None => StatusError "not_found"
  | Ok (Some job_status) => JobStatus job_status
  end.

(** The dictionary [download_report] returns: the result row, or an
    [error] with a [status]. *)
Inductive DownloadAnswer :=
| Report (report_result : ReportResult)
| DownloadError (state : string).

Definition download_report (id : nat) (status_raises result_raises : bool) (db : Db)
  : DownloadAnswer :=
  match get_report_job_status id status_raises db with
  | Raise _ => DownloadError "error"
  | Ok None => DownloadError "not_found"
  | Ok (Some job) =>
      if negb (job_status job =? "completed")%string then
        DownloadError (job_status job)
      else
        match get_report_result id result_raises db with
        | Raise _ => DownloadError "error"
        | Ok None => DownloadError "not_found"
        | Ok (Some report_result) => Report report_result
        end
  end.

(** ** The report endpoints ([routers/reports.py]) *)

(** Each endpoint answers with an HTTP status code and, when it
    succeeds, a body. *)
Module ReportsRouter.

(** [GET /api/v1/reports/jobs/{job_id}] *)
Definition get_report_status (id : nat) (raises : bool) (db : Db)
  : nat * option ReportJob :=
  match get_report_status id raises db with
  | StatusError state =>
      if (state =? "not_found")%string then (404, None) else (500, None)
  | JobStatus job => (200, Some job)
  end.

(** [GET /api/v1/reports/{job_id}/download]; the body is the report's
    content. *)
Definition download_report (id : nat) (status_raises result_raises : bool) (db : Db)
  : nat * option string :=
  match download_report id status_raises result_raises db with
  | DownloadError state =>
      if (state =? "not_found")%string then (404, None)
      else if mem state ["pending"; "running"] then (202, None)
      else (500, None)
  | Report report_result => (200, Some (content report_result))
  end.

End ReportsRouter.

(** The row [save_report_result] stores for a job. *)
Definition stored_report (id : nat) (type : json) (text : string) : ReportResult :=
  {| result_job_id := id; report_type := report_type_text type; content := text |}.

(** ** Snapshot history ([database/snapshots_queries.py]) *)

(** [.order("snapshot_date", desc=True).order("created_at", desc=True)]:
    [r] does not come after [h]. *)
Definition newest_first_leb (r h : SnapshotRow) : bool :=
  (snapshot_date (snap h) <? snapshot_date (snap r))%Z
  || ((snapshot_date (snap h) =? snapshot_date (snap r))%Z
      && (snap_created_at h <=? snap_created_at r)%Z).

Fixpoint insert_newest_first (r : SnapshotRow) (l : list SnapshotRow)
  : list SnapshotRow :=
  match l with
  | [] => [r]
  | h :: t =>
      if newest_first_leb r h then r :: l else h :: insert_newest_first r t
  end.

Definition order_newest_first (l : list SnapshotRow) : list SnapshotRow :=
  fold_right insert_newest_first [] l.

(** The rows [get_snapshots_by_date_range(asin, start_date, end_date)]
    reads, in the order it reads them. *)
Definition snapshots_in_range (a : string) (start_date end_date : Z) (db : Db)
  : list SnapshotRow :=
  order_newest_first
    (List.filter
       (fun r => has_asin a r
                 && (start_date <=? snapshot_date (snap r))%Z
                 && (snapshot_date (snap r) <=? end_date)%Z)
       (product_snapshots_tbl db)).

(** [get_snapshots_by_date_range(asin, start_date, end_date)] *)
Definition get_snapshots_by_date_range (faults : Faults) (a : string)
    (start_date end_date : Z) (db : Db) : list ProductSnapshotDict :=
  if snapshots_unavailable faults then []
  else map snap (snapshots_in_range a start_date end_date db).

(** ** Competitor analysis ([analyzers/analyzer_types.py],
    [analyzers/competitor_analyzer.py]) *)

Record ProductAnalysisData := {
  analysis_asin : string;
  analysis_info : Product;
  latest_snapshot : option ProductSnapshotDict;
  historical_snapshots : list ProductSnapshotDict
}.

Record CompetitorAnalysisMetadata := {
  window_size : Z;
  total_products : nat;
  competitor_count : nat
}.

Record CompetitorAnalysisData := {
  main_product : ProductAnalysisData;
  competitors : list ProductAnalysisData;
  analysis_metadata : CompetitorAnalysisMetadata
}.

Record ProductBasicInfo := {
  info_asin : string;
  info_title : option string;
  info_categories : list string
}.

Record ProductCurrentData := {
  current_price : option Q;
  current_rating : option Q;
  current_review_count : option Z;
  bsr : option Z;
  bsr_details : list BsrEntry;
  current_snapshot_date : option Z
}.

(** [ProductCurrentData()] *)
Definition no_current_data : ProductCurrentData :=
  {| current_price := None; current_rating := None; current_review_count := None;
     bsr := None; bsr_details := []; current_snapshot_date := None |}.

Record ExtractedProductData := {
  basic_info : ProductBasicInfo;
  current_data : ProductCurrentData
}.

(** The three comparisons.  Their averages ([sum(...) / len(...)], a
    float sum whose rounding depends on the interpreter's summation)
    are not part of the model. *)
Record PriceComparison := {
  main_price : option Q;
  competitor_prices : list Q;
  min_competitor_price : option Q;
  max_competitor_price : option Q
}.

Record RatingComparison := {
  main_rating : option Q;
  competitor_ratings : list Q;
  min_competitor_rating : option Q;
  max_competitor_rating : option Q
}.

Record ReviewComparison := {
  main_review_count : option Z;
  competitor_review_counts : list Z;
  min_competitor_reviews : option Z;
  max_competitor_reviews : option Z
}.

Record DataAvailability := {
  main_has_data : bool;
  competitors_with_data : nat
}.

Record BasicComparison := {
  price_comparison : PriceComparison;
  rating_comparison : RatingComparison;
  review_comparison : ReviewComparison;
  total_competitors : nat;
  data_availability : DataAvailability
}.

Record CompetitorAnalysisResult := {
  main_product_data : ExtractedProductData;
  competitor_data : list ExtractedProductData;
  basic_comparison : BasicComparison
}.

(** The dictionary [_extract_bsr_info] returns. *)
Record BsrInfo := {
  overall_rank : option Z;
  details : list BsrEntry
}.

(** [_extract_bsr_info]: the overall rank is the first rank that is not
    null. *)
Definition _extract_bsr_info (bsr_data : list BsrEntry) : BsrInfo :=
  match bsr_data with
  | [] => {| overall_rank := None; details := [] |}
  | _ =>
      fold_left
        (fun info bsr_item =>
           {| overall_rank :=
                match overall_rank info, rank bsr_item with
                | None, Some r => Some r
                | overall, _ => overall
                end;
              details :=
                details info
                  ++ [{| rank := rank bsr_item; category := category bsr_item |}] |})
        bsr_data {| overall_rank := None; details := [] |}
  end.

(** [_extract_product_data]; a snapshot object is always truthy. *)
Definition _extract_product_data (product_data : ProductAnalysisData)
  : ExtractedProductData :=
  let info := analysis_info product_data in
  {| basic_info :=
       {| info_asin := analysis_asin product_data;
          info_title := title info;
          info_categories := categories info |};
     current_data :=
       match latest_snapshot product_data with
       | Some latest =>
           let bsr_info := _extract_bsr_info (bsr_data latest) in
           {| current_price := price latest;
              current_rating := rating latest;
              current_review_count := review_count latest;
              bsr := overall_rank bsr_info;
              bsr_details := details bsr_info;
              current_snapshot_date := Some (snapshot_date latest) |}
       | None => no_current_data
       end |}.

(** [min] and [max] on a list of numbers; they keep the first of equal
    elements. *)
Definition min_Q (l : list Q) : option Q :=
  match l with
  | [] => None
  | x :: rest => Some (fold_left (fun m y => if Qlt_bool y m then y else m) rest x)
  end.

Definition max_Q (l : list Q) : option Q :=
  match l with
  | [] => None
  | x :: rest => Some (fold_left (fun m y => if Qlt_bool m y then y else m) rest x)
  end.

Definition min_Z (l : list Z) : option Z :=
  match l with
  | [] => None
  | x :: rest => Some (fold_left (fun m y => if (y <? m)%Z then y else m) rest x)
  end.

Definition max_Z (l : list Z) : option Z :=
  match l with
  | [] => None
  | x :: rest => Some (fold_left (fun m y => if (m <? y)%Z then y else m) rest x)
  end.

(** [PriceComparison()], [RatingComparison()], [ReviewComparison()] *)
Definition no_price_comparison : PriceComparison :=
  {| main_price := None; competitor_prices := []; min_competitor_price := None;
     max_competitor_price := None |}.

Definition no_rating_comparison : RatingComparison :=
  {| main_rating := None; competitor_ratings := []; min_competitor_rating := None;
     max_competitor_rating := None |}.

Definition no_review_comparison : ReviewComparison :=
  {| main_review_count := None; competitor_review_counts := [];
     min_competitor_reviews := None; max_competitor_reviews := None |}.

(** The condition of [valid_competitors]; [c.current_data] is an object
    and always truthy. *)
Definition has_values (c : ExtractedProductData) : bool :=
  match current_price (current_data c), current_rating (current_data c),
        current_review_count (current_data c) with
  | None, None, None => false
  | _, _, _ => true
  end.

(** [_perform_basic_comparison]; [bool(main_current)] is [True], the
    main product's current data being an object. *)
Definition _perform_basic_comparison (main_data : ExtractedProductData)
    (competitor_data : list ExtractedProductData) : BasicComparison :=
  match competitor_data with
  | [] =>
      {| price_comparison := no_price_comparison;
         rating_comparison := no_rating_comparison;
         review_comparison := no_review_comparison;
         total_competitors := 0;
         data_availability :=
           {| main_has_data := false; competitors_with_data := 0 |} |}
  | _ =>
      let main_current := current_data main_data in
      let valid_competitors := List.filter has_values competitor_data in
      match valid_competitors with
      | [] =>
          {| price_comparison := no_price_comparison;
             rating_comparison := no_rating_comparison;
             review_comparison := no_review_comparison;
             total_competitors := 0;
             data_availability :=
               {| main_has_data := true; competitors_with_data := 0 |} |}
      | _ =>
          let competitor_prices :=
            omap (fun c => current_price (current_data c)) valid_competitors in
          let competitor_ratings :=
            omap (fun c => current_rating (current_data c)) valid_competitors in
          let competitor_reviews :=
            omap (fun c => current_review_count (current_data c)) valid_competitors in
          {| price_comparison :=
               {| main_price := current_price main_current;
                  competitor_prices := competitor_prices;
                  min_competitor_price := min_Q competitor_prices;
                  max_competitor_price := max_Q competitor_prices |};
             rating_comparison :=
               {| main_rating := current_rating main_current;
                  competitor_ratings := competitor_ratings;
                  min_competitor_rating := min_Q competitor_ratings;
                  max_competitor_rating := max_Q competitor_ratings |};
             review_comparison :=
               {| main_review_count := current_review_count main_current;
                  competitor_review_counts := competitor_reviews;
                  min_competitor_reviews := min_Z competitor_reviews;
                  max_competitor_reviews := max_Z competitor_reviews |};
             total_competitors := length valid_competitors;
             data_availability :=
               {| main_has_data := true;
                  competitors_with_data := length valid_competitors |} |}
      end
  end.

(** [database/products_queries.py]: [get_products_by_asins], the stored
    products whose key is in [asins]; [query_raises] tells whether the
    query raises. *)
Definition get_products_by_asins (faults : Faults) (query_raises : bool)
    (asins : list string) (db : Db) : list Product :=
  if products_client_missing faults then []
  else if query_raises then []
  else
    map snd
      (List.filter (fun kv => mem kv.1 asins) (map_to_list (products_tbl db))).

(** [_get_products_info]: [{product.asin: product for product in products}] *)
Definition _get_products_info (faults : Faults) (query_raises : bool)
    (asins : list string) (db : Db) : gmap string Product :=
  fold_left (fun m product => <[product_asin product := product]> m)
    (get_products_by_asins faults query_raises asins db) ∅.

(** [_get_latest_snapshots]: the latest snapshot of each identifier that
    has one. *)
Definition _get_latest_snapshots (faults : Faults) (asins : list string) (db : Db)
  : gmap string ProductSnapshotDict :=
  fold_left
    (fun snapshots a =>
       match get_latest_snapshot faults a db with
       | Some snapshot => <[a := snapshot]> snapshots
       | None => snapshots
       end)
    asins ∅.

(** [_get_historical_snapshots] on the day [today]: the snapshots from
    [today - window_size] to [today], for each identifier that has
    some. *)
Definition _get_historical_snapshots (faults : Faults) (asins : list string)
    (window : Z) (today : Z) (db : Db) : gmap string (list ProductSnapshotDict) :=
  let end_date := today in
  let start_date := (end_date - window)%Z in
  fold_left
    (fun grouped_snapshots a =>
       match get_snapshots_by_date_range faults a start_date end_date db with
       | [] => grouped_snapshots
       | snapshots => <[a := snapshots]> grouped_snapshots
       end)
    asins ∅.

(** [Product(asin=asin)] *)
Definition product_of_asin (a : string) : Product :=
  {| product_asin := a; title := None; categories := [] |}.

(** [collect_competitors_data] on the day [today] *)
Definition collect_competitors_data (faults : Faults) (query_raises : bool)
    (main_asin : string) (competitor_asins : list string) (window : Z)
    (today : Z) (db : Db) : CompetitorAnalysisData :=
  let all_asins := main_asin :: competitor_asins in
  let products_info := _get_products_info faults query_raises all_asins db in
  let latest_snapshots := _get_latest_snapshots faults all_asins db in
  let historical := _get_historical_snapshots faults all_asins window today db in
  let collected a :=
    {| analysis_asin := a;
       analysis_info := default (product_of_asin a) (products_info !! a);
       latest_snapshot := latest_snapshots !! a;
       historical_snapshots := default [] (historical !! a) |} in
  {| main_product := collected main_asin;
     competitors := map collected competitor_asins;
     analysis_metadata :=
       {| window_size := window;
          total_products := length all_asins;
          competitor_count := length competitor_asins |} |}.

(** [analyze_competitors] on the day [today] *)
Definition analyze_competitors (faults : Faults) (query_raises : bool)
    (main_asin : string) (competitor_asins : list string) (window : Z)
    (today : Z) (db : Db) : CompetitorAnalysisResult :=
  let product_data :=
    collect_competitors_data faults query_raises main_asin competitor_asins
      window today db in
  let main_product_data := _extract_product_data (main_product product_data) in
  let competitor_data := map _extract_product_data (competitors product_data) in
  {| main_product_data := main_product_data;
     competitor_data := competitor_data;
     basic_comparison := _perform_basic_comparison main_product_data competitor_data |}.

(** Newest first, the later stored first among snapshots of one day. *)
Definition newest_first (x y : SnapshotRow) : Prop :=
  (snapshot_date (snap y) < snapshot_date (snap x))%Z
  \/ (snapshot_date (snap y) = snapshot_date (snap x)
      /\ (snap_created_at y <= snap_created_at x)%Z).

(** * Properties *)

(** ** The trigger predicate *)

Lemma Qge_bool_iff (a b : Q) : Qge_bool a b = true <-> (b <= a)%Q.
Proof. unfold Qge_bool. apply Qle_bool_iff. Qed.

(** ** Binary64 rounding *)

Lemma Qpow2_pos (e : Z) : (0 < Qpow2 e)%Q.
Proof.
  unfold Qpow2. destruct (0 <=? e)%Z eqn:E.
  - apply Z.leb_le in E. change 0%Q with (inject_Z 0). rewrite <- Zlt_Qlt.
    apply Z.pow_pos_nonneg; lia.
  - reflexivity.
Qed.

Lemma Qpow2_le (e1 e2 : Z) : (e1 <= e2)%Z -> (Qpow2 e1 <= Qpow2 e2)%Q.
Proof.
  intros H. unfold Qpow2.
  destruct (Z.leb_spec 0 e1) as [H1|H1], (Z.leb_spec 0 e2) as [H2|H2]; try lia.
  - rewrite <- Zle_Qle. apply Z.pow_le_mono_r; lia.
  - unfold Qle. cbn [Qnum Qden inject_Z].
    assert (0 < 2 ^ e2)%Z by (apply Z.pow_pos_nonneg; lia). lia.
  - unfold Qle. cbn [Qnum Qden].
    assert (0 < 2 ^ (- e1))%Z by (apply Z.pow_pos_nonneg; lia).
    assert (0 < 2 ^ (- e2))%Z by (apply Z.pow_pos_nonneg; lia).
    rewrite !Z2Pos.id by assumption.
    assert (2 ^ (- e2) <= 2 ^ (- e1))%Z by (apply Z.pow_le_mono_r; lia). lia.
Qed.

Lemma Qexponent_le (x : Q) : (0 < x)%Q -> (Qpow2 (Qexponent x) <= x)%Q.
Proof.
  intros Hx. unfold Qexponent.
  assert (Habs : (Qabs x == x)%Q) by (apply Qabs_pos, Qlt_le_weak, Hx).
  destruct (Qle_bool _ (Qabs x)) eqn:E.
  - apply Qle_bool_iff in E. rewrite Habs in E. exact E.
  - clear E Habs. destruct x as [n d]. unfold Qlt in Hx. cbn in Hx.
    cbn [Qnum Qden]. rewrite Z.abs_eq by lia.
    assert (Hn : (0 < n)%Z) by lia.
    destruct (Z.log2_spec n Hn) as [Ha _].
    destruct (Z.log2_spec (Zpos d) (Pos2Z.is_pos d)) as [_ Hb].
    pose proof (Z.log2_nonneg n) as Ha0.
    pose proof (Z.log2_nonneg (Zpos d)) as Hb0.
    set (a := Z.log2 n) in *. set (b := Z.log2 (Zpos d)) in *.
    unfold Qpow2, Qle. destruct (Z.leb_spec 0 (a - b - 1)) as [Hk|Hk].
    + cbn [Qnum Qden inject_Z].
      assert (E : (2 ^ a = 2 ^ (a - b - 1) * 2 ^ Z.succ b)%Z).
      { rewrite <- Z.pow_add_r by lia. f_equal. lia. }
      assert (0 < 2 ^ (a - b - 1))%Z by (apply Z.pow_pos_nonneg; lia). nia.
    + cbn [Qnum Qden].
      assert (H0 : (0 < 2 ^ (- (a - b - 1)))%Z) by (apply Z.pow_pos_nonneg; lia).
      rewrite Z2Pos.id by assumption.
      assert (E : (2 ^ Z.succ b = 2 ^ a * 2 ^ (- (a - b - 1)))%Z).
      { rewrite <- Z.pow_add_r by lia. f_equal. lia. }
      nia.
Qed.

Lemma ulp_pos (x : Q) : (0 < ulp x)%Q.
Proof. apply Qpow2_pos. Qed.

Lemma ulp_min (x : Q) : (Qpow2 (-1074) <= ulp x)%Q.
Proof. apply Qpow2_le. lia. Qed.

Lemma ulp_le (x : Q) : (0 < x)%Q -> (Qpow2 (-1074) <= x)%Q -> (ulp x <= x)%Q.
Proof.
  intros Hx Hmin. unfold ulp.
  destruct (Z.max_spec (Qexponent x - 52) (-1074)) as [[_ ->]|[_ ->]]; [exact Hmin|].
  eapply Qle_trans; [|apply Qexponent_le, Hx]. apply Qpow2_le. lia.
Qed.

Lemma round_half_even_floor (y : Q) :
  (Qfloor y <= round_half_even y <= Qfloor y + 1)%Z.
Proof.
  unfold round_half_even. destruct y as [n d]. cbn [Qfloor Qnum Qden].
  destruct (_ <? _)%Z; [lia|]. destruct (_ <? _)%Z; [lia|].
  destruct (Z.even _); lia.
Qed.

Lemma round_nearest_even_bounds (x : Q) :
  (0 < x)%Q -> (Qpow2 (-1074) <= x)%Q ->
  (Qpow2 (-1074) <= round_nearest_even x)%Q
  /\ (round_nearest_even x <= x + ulp x)%Q.
Proof.
  intros Hx Hmin. unfold round_nearest_even.
  assert (Hz : Qis_zero x = false).
  { unfold Qis_zero. destruct (Qeq_bool x 0) eqn:E; [|reflexivity].
    apply Qeq_bool_iff in E. rewrite E in Hx. discriminate Hx. }
  rewrite Hz, Qred_correct.
  pose proof (ulp_pos x) as Hu. pose proof (ulp_le x Hx Hmin) as Hle.
  pose proof (round_half_even_floor (x / ulp x)) as [Hlo Hhi].
  assert (H1 : (1 <= x / ulp x)%Q).
  { apply Qle_shift_div_l; [exact Hu|]. rewrite Qmult_1_l. exact Hle. }
  assert (Hf : (1 <= Qfloor (x / ulp x))%Z).
  { change 1%Z with (Qfloor 1). apply Qfloor_resp_le, H1. }
  split.
  - eapply Qle_trans; [apply ulp_min|].
    rewrite <- (Qmult_1_l (ulp x)) at 1.
    apply Qmult_le_compat_r; [|apply Qlt_le_weak, Hu].
    change 1%Q with (inject_Z 1). rewrite <- Zle_Qle. lia.
  - assert (Hm : (inject_Z (round_half_even (x / ulp x)) <= x / ulp x + 1)%Q).
    { eapply Qle_trans; [rewrite <- Zle_Qle; exact Hhi|].
      rewrite inject_Z_plus. apply Qplus_le_l. apply Qfloor_le. }
    eapply Qle_trans; [apply Qmult_le_compat_r; [exact Hm | apply Qlt_le_weak, Hu]|].
    assert (E : ((x / ulp x + 1) * ulp x == x + ulp x)%Q).
    { field. intros E0. rewrite E0 in Hu. discriminate Hu. }
    rewrite E. apply Qle_refl.
Qed.

Lemma is_inf_false (r : Q) : (0 <= r)%Q -> (r <= 2)%Q -> is_inf r = false.
Proof.
  intros H0 H2. unfold is_inf. destruct (Qle_bool float_inf (Qabs r)) eqn:E; [|reflexivity].
  apply Qle_bool_iff in E. rewrite (Qabs_pos r H0) in E.
  assert (H : (float_inf <= 2)%Q) by (eapply Qle_trans; eassumption).
  vm_compute in H. exfalso. apply H. reflexivity.
Qed.

Lemma float_round_pos (x : Q) :
  (0 < x)%Q -> (Qpow2 (-1074) <= x)%Q -> (0 < float_round x)%Q.
Proof.
  intros Hx Hmin. unfold float_round.
  destruct (is_inf (round_nearest_even x)).
  - unfold is_negative, Qlt_bool.
    assert (E : Qle_bool 0 x = true) by (apply Qle_bool_iff, Qlt_le_weak, Hx).
    rewrite E. reflexivity.
  - eapply Qlt_le_trans; [apply (Qpow2_pos (-1074))|].
    apply round_nearest_even_bounds; assumption.
Qed.

Lemma Qpow2_least (n : Z) :
  (0 < n)%Z -> (n <= 2 ^ 1074)%Z -> (Qpow2 (-1074) * inject_Z n <= 1)%Q.
Proof.
  intros H0 H. unfold Qpow2. change (0 <=? -1074)%Z with false. cbv iota.
  change (- -1074)%Z with 1074%Z.
  unfold Qle, Qmult, inject_Z. cbn [Qnum Qden].
  rewrite Pos.mul_1_r, Z2Pos.id by (apply Z.pow_pos_nonneg; lia). lia.
Qed.

(** ** The trigger predicate, as stated *)

(** C1: for a rule whose threshold reads as the number [t], the decision
    is [change_value >= t] for direction increase, [change_value <= -t]
    for decrease and [|change_value| >= t] for any. *)
Theorem should_trigger_alert_decision (rule : AlertRule) (change_value t : Q) :
  float_threshold rule = Ok t ->
  (direction_of rule = "increase" ->
   (_should_trigger_alert rule change_value = true <-> (t <= change_value)%Q))
  /\ (direction_of rule = "decrease" ->
      (_should_trigger_alert rule change_value = true <-> (change_value <= - t)%Q))
  /\ (direction_of rule = "any" ->
      (_should_trigger_alert rule change_value = true <-> (t <= Qabs change_value)%Q)).
Proof.
  intros Ht. unfold _should_trigger_alert. rewrite Ht.
  split; [|split]; intros Hd; rewrite Hd; cbn [String.eqb Ascii.eqb Bool.eqb];
    destruct (threshold_type_of rule =? "percentage")%string;
    first [ apply Qge_bool_iff | apply Qle_bool_iff ].
Qed.

Lemma should_trigger_alert_decision_witness :
  let rule := simple_rule "r1" "price_change" "increase" 15 in
  float_threshold rule = Ok 15%Q
  /\ (direction_of rule = "increase" ->
      (_should_trigger_alert rule 20 = true <-> (15 <= 20)%Q))
  /\ (direction_of rule = "decrease" ->
      (_should_trigger_alert rule 20 = true <-> (20 <= - 15)%Q))
  /\ (direction_of rule = "any" ->
      (_should_trigger_alert rule 20 = true <-> (15 <= Qabs 20)%Q)).
Proof.
  intros rule. split; [reflexivity |].
  apply (should_trigger_alert_decision rule 20 15). reflexivity.
Defined.

(** C10: the decision does not depend on the rule's [threshold_type]. *)
Theorem should_trigger_alert_ignores_threshold_type
    (rule : AlertRule) (change_value : Q) (kind1 kind2 : option string) :
  _should_trigger_alert (with_threshold_type rule kind1) change_value
  = _should_trigger_alert (with_threshold_type rule kind2) change_value.
Proof.
  unfold _should_trigger_alert, float_threshold, direction_of, threshold_type_of.
  cbn [threshold change_direction threshold_type with_threshold_type].
  destruct (threshold rule) as [[t|]|]; try reflexivity;
    destruct (default "percentage" kind1 =? "percentage")%string,
             (default "percentage" kind2 =? "percentage")%string; reflexivity.
Qed.

(** ** The rule loop *)

Lemma set_alerts_same (db : Db) : set_alerts db (alerts_tbl db) = db.
Proof. destruct db; reflexivity. Qed.

Lemma check_each_rule_stored (faults : Faults) (build : string -> AlertData)
    (change_value : Q) (rules : list AlertRule) :
  Forall (fun r => is_Some (rule_id r)) rules ->
  forall (acc : list AlertData) (db : Db),
    check_each_rule faults build change_value rules acc db
    = (Ok (acc ++ stored_alerts faults build change_value rules),
       set_alerts db (alerts_tbl db ++ stored_alerts faults build change_value rules)).
Proof.
  induction 1 as [|rule rest [id Hid] _ IH]; intros acc db.
  - cbn. rewrite !app_nil_r, set_alerts_same. reflexivity.
  - cbn [check_each_rule]. unfold stored_alerts. cbn [List.filter].
    destruct (_should_trigger_alert rule change_value) eqn:Htrig.
    + cbn [map List.filter]. rewrite Hid. change (default "" (Some id)) with id.
      unfold create_alert_record.
      destruct (alert_insert_fails faults (build id)) eqn:Hins; cbn [negb].
      * apply IH.
      * rewrite IH. cbn [alerts_tbl set_alerts]. unfold stored_alerts.
        rewrite <- !app_assoc. reflexivity.
    + apply IH.
Qed.

Lemma is_rule_type_iff (t : string) (rule : AlertRule) :
  is_rule_type t rule = true <-> rule_type rule = Some t.
Proof.
  unfold is_rule_type. destruct (rule_type rule) as [s|].
  - rewrite String.eqb_eq. split; congruence.
  - split; discriminate.
Qed.

Lemma in_stored_alerts (faults : Faults) (build : string -> AlertData)
    (change_value : Q) (type : string) (rules : list AlertRule) (x : AlertData) :
  Forall (fun r => is_Some (rule_id r)) rules ->
  In x (stored_alerts faults build change_value
          (List.filter (is_rule_type type) rules))
  <-> exists r id,
        In r rules /\ rule_type r = Some type /\ rule_id r = Some id
        /\ _should_trigger_alert r change_value = true
        /\ x = build id /\ alert_insert_fails faults x = false.
Proof.
  intros Hids. unfold stored_alerts.
  rewrite filter_In, in_map_iff. split.
  - intros [[r [Hx Hr]] Hins].
    apply filter_In in Hr as [Hr Htrig]. apply filter_In in Hr as [Hr Hty].
    rewrite Forall_forall in Hids. destruct (Hids r) as [id Hid].
    { apply list_elem_of_In, Hr. }
    exists r, id. rewrite Hid in Hx. change (default "" (Some id)) with id in Hx.
    repeat split; try assumption.
    + apply is_rule_type_iff, Hty.
    + symmetry; exact Hx.
    + apply negb_true_iff, Hins.
  - intros (r & id & Hr & Hty & Hid & Htrig & Hx & Hins). split.
    + exists r. rewrite Hid. split; [symmetry; exact Hx|].
      apply filter_In. split; [|exact Htrig].
      apply filter_In. split; [exact Hr|]. apply is_rule_type_iff, Hty.
    + apply negb_true_iff, Hins.
Qed.

Lemma Forall_filter_ids (f : AlertRule -> bool) (rules : list AlertRule) :
  Forall (fun r => is_Some (rule_id r)) rules ->
  Forall (fun r => is_Some (rule_id r)) (List.filter f rules).
Proof.
  intros H. rewrite Forall_forall in *. intros r Hr.
  apply H. apply list_elem_of_In. apply list_elem_of_In in Hr.
  apply filter_In in Hr. tauto.
Qed.

(** ** Price and rank evaluation *)

Lemma Qis_zero_false (p : Q) : ~ (p == 0)%Q -> Qis_zero p = false.
Proof.
  intros H. unfold Qis_zero. destruct (Qeq_bool p 0) eqn:E; [|reflexivity].
  apply Qeq_bool_iff in E. contradiction.
Qed.

Lemma Qis_zero_true (p : Q) : (p == 0)%Q -> Qis_zero p = true.
Proof. intros H. apply Qeq_bool_iff, H. Qed.

(** The arithmetic is the machine's: from 100 to 129 the computed
    change is just below 29, and 2.675 is stored as 2.67. *)
Lemma price_change_percent_is_rounded :
  (price_change_percent 129 100 < 29)%Q
  /\ round2 (float_round (2675 # 1000)) = float_round (267 # 100).
Proof. split; vm_compute; reflexivity. Qed.

Lemma price_change_percent_100_80 : price_change_percent 80 100 = (-20 # 1)%Q.
Proof. vm_compute. reflexivity. Qed.

Lemma round2_minus_20 : round2 (-20 # 1) = (-20 # 1)%Q.
Proof. vm_compute. reflexivity. Qed.

Lemma should_trigger_decrease_15 (id : string) :
  _should_trigger_alert (simple_rule id "price_change" "decrease" 15) (-20 # 1) = true.
Proof. reflexivity. Qed.

(** C2: with both prices present and a non-zero previous price, the
    price alerts are exactly those of the price rules that trigger at
    [(latest - previous) / previous * 100], evaluated in binary64, and
    that the store accepts, each carrying that percentage rounded to two
    decimals; there is no price alert when a price is missing or the
    previous price is 0; and prices 100 then 80 under one decrease rule
    of threshold 15 give exactly one alert, with change percent -20. *)
Theorem check_price_alerts_change_percent :
  (forall faults a latest previous rules db c p,
      price latest = Some c -> price previous = Some p -> ~ (p == 0)%Q ->
      Forall (fun r => is_Some (rule_id r)) rules ->
      let change := float_mul (float_div (float_sub c p) p) 100 in
      exists alerts db',
        _check_price_alerts faults a latest previous rules db = (Ok alerts, db')
        /\ forall x,
            In x alerts <->
            exists r id,
              In r rules /\ rule_type r = Some "price_change"
              /\ rule_id r = Some id
              /\ _should_trigger_alert r change = true
              /\ x = price_alert_data a (snapshot_date latest) c p change id
              /\ change_percent x = round2 change
              /\ alert_insert_fails faults x = false)
  /\ (forall faults a latest previous rules db,
         price latest = None \/ price previous = None
         \/ (exists p, price previous = Some p /\ (p == 0)%Q) ->
         _check_price_alerts faults a latest previous rules db = (Ok [], db))
  /\ (forall X id,
         exists alert db',
           check_alerts_for_asin no_faults X
             (db_with [price_snapshot X 1 100; price_snapshot X 2 80]
                [simple_rule id "price_change" "decrease" 15])
           = ([alert], db')
           /\ alert_rule_id alert = id
           /\ change_percent alert = Qmake (-20) 1).
Proof.
  split; [|split].
  - intros faults a latest previous rules db c p Hc Hp Hnz Hids cp.
    set (build := price_alert_data a (snapshot_date latest) c p cp).
    set (price_rules := List.filter (is_rule_type "price_change") rules).
    exists (stored_alerts faults build cp price_rules),
      (set_alerts db (alerts_tbl db ++ stored_alerts faults build cp price_rules)).
    split.
    + unfold _check_price_alerts. fold price_rules.
      rewrite Hc, Hp, (Qis_zero_false p Hnz).
      assert (Hf : Forall (fun r => is_Some (rule_id r)) price_rules)
        by (apply Forall_filter_ids, Hids).
      destruct price_rules as [|r0 rest].
      * cbn. rewrite app_nil_r, set_alerts_same. reflexivity.
      * apply check_each_rule_stored, Hf.
    + intros x. unfold price_rules. rewrite (in_stored_alerts _ _ _ _ _ _ Hids).
      split; intros (r & id & Hr & Hty & Hid & Htrig & Hx & Hrest);
        exists r, id; repeat split; try assumption; try tauto.
      subst x. reflexivity.
  - intros faults a latest previous rules db H. unfold _check_price_alerts.
    destruct (List.filter (is_rule_type "price_change") rules); [reflexivity|].
    destruct H as [H | [H | (p & H & Hz)]].
    + rewrite H. reflexivity.
    + rewrite H. destruct (price latest); reflexivity.
    + rewrite H, (Qis_zero_true p Hz). destruct (price latest); reflexivity.
  - intros X id.
    set (db := db_with [price_snapshot X 1 100; price_snapshot X 2 80]
                 [simple_rule id "price_change" "decrease" 15]).
    exists (price_alert_data X 2 80 100 (-20 # 1) id),
      (set_alerts db [price_alert_data X 2 80 100 (-20 # 1) id]).
    split; [|split; [reflexivity | apply round2_minus_20]].
    unfold check_alerts_for_asin, check_alerts_body,
      get_latest_snapshot, get_previous_snapshot, get_active_rules,
      load_rules_to_cache, get_active_alert_rules, db.
    cbn -[price_change_percent round2 _should_trigger_alert].
    unfold has_asin. cbn -[price_change_percent round2 _should_trigger_alert].
    rewrite !String.eqb_refl.
    cbn -[price_change_percent round2 _should_trigger_alert].
    rewrite price_change_percent_100_80, should_trigger_decrease_15.
    reflexivity.
Qed.

Lemma check_price_alerts_change_percent_witness :
  exists alerts db',
    _check_price_alerts no_faults "X"
      (snap (price_snapshot "X" 2 80)) (snap (price_snapshot "X" 1 100))
      [simple_rule "r1" "price_change" "decrease" 15] empty_db
    = (Ok alerts, db')
    /\ In (price_alert_data "X" 2 80 100 (-20 # 1) "r1") alerts.
Proof.
  destruct check_price_alerts_change_percent as [H _].
  destruct (H no_faults "X" (snap (price_snapshot "X" 2 80))
              (snap (price_snapshot "X" 1 100))
              [simple_rule "r1" "price_change" "decrease" 15] empty_db 80%Q 100%Q)
    as (alerts & db' & Heq & Hin).
  - reflexivity.
  - reflexivity.
  - intros E. discriminate E.
  - repeat constructor. eexists; reflexivity.
  - exists alerts, db'. split; [exact Heq|].
    apply Hin. exists (simple_rule "r1" "price_change" "decrease" 15), "r1".
    change (float_mul (float_div (float_sub 80 100) 100) 100)
      with (price_change_percent 80 100).
    rewrite price_change_percent_100_80.
    repeat split; try reflexivity. left; reflexivity.
Defined.

Lemma bsr_change_percent_positive (current_rank previous_rank : Z) :
  (0 < current_rank)%Z -> (current_rank < previous_rank)%Z ->
  (previous_rank < 2 ^ 1074)%Z ->
  exists change,
    bsr_change_percent current_rank previous_rank = Ok change /\ (0 < change)%Q.
Proof.
  intros Hc Hlt Hbound.
  set (x := (inject_Z (previous_rank - current_rank) / inject_Z previous_rank)%Q).
  assert (Hp : (0 < inject_Z previous_rank)%Q)
    by (change 0%Q with (inject_Z 0); rewrite <- Zlt_Qlt; lia).
  assert (Hx : (0 < x)%Q).
  { apply Qlt_shift_div_l; [exact Hp|]. rewrite Qmult_0_l.
    change 0%Q with (inject_Z 0). rewrite <- Zlt_Qlt. lia. }
  assert (Hx1 : (x <= 1)%Q).
  { apply Qle_shift_div_r; [exact Hp|]. rewrite Qmult_1_l, <- Zle_Qle. lia. }
  assert (Hmin : (Qpow2 (-1074) <= x)%Q).
  { apply Qle_shift_div_l; [exact Hp|].
    apply Qle_trans with 1%Q.
    - apply Qpow2_least; lia.
    - change 1%Q with (inject_Z 1). rewrite <- Zle_Qle. lia. }
  destruct (round_nearest_even_bounds x Hx Hmin) as [Hlo Hhi].
  set (r := round_nearest_even x) in *.
  assert (Hr : (0 < r)%Q) by (eapply Qlt_le_trans; [apply (Qpow2_pos (-1074)) | exact Hlo]).
  assert (Hu : (ulp x <= 1)%Q)
    by (eapply Qle_trans; [apply ulp_le; assumption | exact Hx1]).
  assert (Hfin : is_inf r = false).
  { apply is_inf_false; [apply Qlt_le_weak, Hr|].
    eapply Qle_trans; [exact Hhi|].
    change 2%Q with (1 + 1)%Q. apply Qplus_le_compat; assumption. }
  exists (float_mul r 100). split.
  - unfold bsr_change_percent, int_true_divide. fold x. fold r. rewrite Hfin. reflexivity.
  - unfold float_mul. rewrite Hfin. apply float_round_pos.
    + apply Qmult_lt_0_compat; [exact Hr | reflexivity].
    + eapply Qle_trans; [exact Hlo|].
      rewrite <- (Qmult_1_r r) at 1.
      apply Qmult_le_l; [exact Hr | discriminate].
Qed.

Lemma bsr_change_percent_1500_1000 :
  bsr_change_percent 1000 1500 = Ok (float_mul (float_round (1 # 3)) 100)
  /\ round2 (float_mul (float_round (1 # 3)) 100) = float_round (3333 # 100)%Q
  /\ _should_trigger_alert (simple_rule "" "bsr_change" "increase" 20)
       (float_mul (float_round (1 # 3)) 100) = true.
Proof. repeat split; vm_compute; reflexivity. Qed.

Lemma should_trigger_same_id (id1 id2 type direction : string) (t change : Q) :
  _should_trigger_alert (simple_rule id1 type direction t) change
  = _should_trigger_alert (simple_rule id2 type direction t) change.
Proof. reflexivity. Qed.

(** C3: rank evaluation reads the first ranking of each observation; the
    rank alerts are those of the rank rules that trigger at
    [(previous - latest) / previous * 100], the quotient of the two
    integers and its product being binary64 values; an improved (lower)
    rank gives a positive percentage; there is no rank alert when a
    primary rank is missing or the previous one is 0; ranks 1500 then
    1000 store the float 33.33 and trigger an increase rule of threshold
    20. *)
Theorem check_bsr_alerts_change_percent :
  (forall faults a latest previous rules db cr pr quotient,
      primary_rank latest = Some cr -> primary_rank previous = Some pr ->
      pr <> 0%Z ->
      int_true_divide (pr - cr) pr = Ok quotient ->
      Forall (fun r => is_Some (rule_id r)) rules ->
      let change := float_mul quotient 100 in
      exists alerts db',
        _check_bsr_alerts faults a latest previous rules db = (Ok alerts, db')
        /\ forall x,
            In x alerts <->
            exists r id,
              In r rules /\ rule_type r = Some "bsr_change"
              /\ rule_id r = Some id
              /\ _should_trigger_alert r change = true
              /\ x = bsr_alert_data a (snapshot_date latest) cr pr change id
              /\ change_percent x = round2 change
              /\ alert_insert_fails faults x = false)
  /\ (forall cr pr : Z,
         (0 < cr)%Z -> (cr < pr)%Z -> (pr < 2 ^ 1074)%Z ->
         exists quotient,
           int_true_divide (pr - cr) pr = Ok quotient
           /\ (0 < float_mul quotient 100)%Q)
  /\ (forall faults a latest previous rules db,
         primary_rank latest = None \/ primary_rank previous = None
         \/ primary_rank previous = Some 0%Z ->
         _check_bsr_alerts faults a latest previous rules db = (Ok [], db))
  /\ (forall X id,
         exists alert db',
           check_alerts_for_asin no_faults X
             (db_with [rank_snapshot X 1 (ranked 1500);
                       rank_snapshot X 2 (ranked 1000)]
                [simple_rule id "bsr_change" "increase" 20])
           = ([alert], db')
           /\ alert_rule_id alert = id
           /\ change_percent alert = float_round (3333 # 100)
           /\ (Qabs (change_percent alert - (3333 # 100)) < 1 # 100000000000000)%Q).
Proof.
  split; [|split; [|split]].
  - intros faults a latest previous rules db cr pr quotient Hc Hp Hnz Hq Hids cp.
    set (build := bsr_alert_data a (snapshot_date latest) cr pr cp).
    set (bsr_rules := List.filter (is_rule_type "bsr_change") rules).
    exists (stored_alerts faults build cp bsr_rules),
      (set_alerts db (alerts_tbl db ++ stored_alerts faults build cp bsr_rules)).
    split.
    + unfold _check_bsr_alerts. fold bsr_rules.
      assert (Hf : Forall (fun r => is_Some (rule_id r)) bsr_rules)
        by (apply Forall_filter_ids, Hids).
      unfold primary_rank in Hc, Hp.
      destruct (bsr_data latest) as [|cm cl]; [discriminate|].
      destruct (bsr_data previous) as [|pm pl]; [discriminate|].
      rewrite Hc, Hp. apply Z.eqb_neq in Hnz. rewrite Hnz.
      unfold bsr_change_percent. rewrite Hq. fold cp.
      destruct bsr_rules as [|r0 rest].
      * cbn. rewrite app_nil_r, set_alerts_same. reflexivity.
      * apply check_each_rule_stored, Hf.
    + intros x. unfold bsr_rules. rewrite (in_stored_alerts _ _ _ _ _ _ Hids).
      split; intros (r & id & Hr & Hty & Hid & Htrig & Hx & Hrest);
        exists r, id; repeat split; try assumption; try tauto.
      subst x. reflexivity.
  - intros cr pr H0 Hlt Hb.
    destruct (bsr_change_percent_positive cr pr H0 Hlt Hb) as (change & Hc & Hpos).
    unfold bsr_change_percent in Hc.
    destruct (int_true_divide (pr - cr) pr) as [quotient|e]; [|discriminate].
    exists quotient. split; [reflexivity|]. inversion Hc; subst. exact Hpos.
  - intros faults a latest previous rules db H. unfold _check_bsr_alerts.
    destruct (List.filter (is_rule_type "bsr_change") rules); [reflexivity|].
    unfold primary_rank in H.
    destruct (bsr_data latest) as [|cm cl]; [reflexivity|].
    destruct (bsr_data previous) as [|pm pl]; [reflexivity|].
    destruct H as [H | [H | H]]; rewrite H; try reflexivity.
    + destruct (rank cm); reflexivity.
    + destruct (rank cm); reflexivity.
  - intros X id.
    destruct bsr_change_percent_1500_1000 as (Hb & Hr & Ht).
    rewrite (should_trigger_same_id "" id) in Ht.
    set (db := db_with [rank_snapshot X 1 (ranked 1500);
                        rank_snapshot X 2 (ranked 1000)]
                 [simple_rule id "bsr_change" "increase" 20]).
    set (alert := bsr_alert_data X 2 1000 1500 (float_mul (float_round (1 # 3)) 100) id).
    exists alert, (set_alerts db [alert]).
    split; [|split; [reflexivity | split; [exact Hr|]]].
    + unfold check_alerts_for_asin, check_alerts_body,
        get_latest_snapshot, get_previous_snapshot, get_active_rules,
        load_rules_to_cache, get_active_alert_rules, db.
      cbn -[bsr_change_percent round2 _should_trigger_alert float_round float_mul].
      unfold has_asin.
      cbn -[bsr_change_percent round2 _should_trigger_alert float_round float_mul].
      rewrite !String.eqb_refl.
      cbn -[bsr_change_percent round2 _should_trigger_alert float_round float_mul].
      rewrite Hb. cbn -[round2 _should_trigger_alert float_round float_mul].
      rewrite Ht. reflexivity.
    + unfold alert. cbn [change_percent bsr_alert_data]. rewrite Hr.
      vm_compute. reflexivity.
Qed.

Lemma check_bsr_alerts_change_percent_witness :
  exists quotient,
    int_true_divide (1500 - 1000) 1500 = Ok quotient
    /\ (0 < float_mul quotient 100)%Q.
Proof.
  destruct check_bsr_alerts_change_percent as (_ & H & _).
  apply (H 1000%Z 1500%Z); [lia | lia | reflexivity].
Defined.

(** ** Eligible-identifier selection *)

Lemma ts_leb_not_after (x y : string * AsinRow) :
  ts_leb (task_timestamp x.2) (task_timestamp y.2) = true <-> not_after x y.
Proof.
  unfold not_after, ts_leb.
  destruct (task_timestamp x.2), (task_timestamp y.2); try tauto.
  - apply Z.leb_le.
  - split; [discriminate | tauto].
Qed.

Lemma not_after_total (x y : string * AsinRow) : not_after x y \/ not_after y x.
Proof.
  unfold not_after.
  destruct (task_timestamp x.2), (task_timestamp y.2); try tauto. lia.
Qed.

Lemma not_after_trans (x y z : string * AsinRow) :
  not_after x y -> not_after y z -> not_after x z.
Proof.
  unfold not_after.
  destruct (task_timestamp x.2), (task_timestamp y.2), (task_timestamp z.2);
    try tauto. lia.
Qed.

Lemma in_insert_by_timestamp (r x : string * AsinRow) (l : list (string * AsinRow)) :
  In x (insert_by_timestamp r l) <-> x = r \/ In x l.
Proof.
  induction l as [|h t IH]; cbn.
  - intuition.
  - destruct (ts_leb _ _); cbn; [intuition|]. rewrite IH. intuition.
Qed.

Lemma in_order_by_task_timestamp (x : string * AsinRow) (l : list (string * AsinRow)) :
  In x (order_by_task_timestamp l) <-> In x l.
Proof.
  induction l as [|h t IH]; cbn; [tauto|].
  rewrite in_insert_by_timestamp, IH. intuition.
Qed.

Lemma insert_by_timestamp_sorted (r : string * AsinRow) (l : list (string * AsinRow)) :
  StronglySorted not_after l -> StronglySorted not_after (insert_by_timestamp r l).
Proof.
  induction 1 as [|h t Hs IH Hh]; cbn.
  - repeat constructor.
  - destruct (ts_leb _ _) eqn:E.
    + apply ts_leb_not_after in E. constructor.
      * constructor; assumption.
      * constructor; [exact E|].
        rewrite List.Forall_forall in *. intros y Hy.
        apply (not_after_trans _ h); [exact E | apply Hh, Hy].
    + assert (Hhr : not_after h r).
      { destruct (not_after_total r h) as [H|H]; [|exact H].
        apply ts_leb_not_after in H. congruence. }
      constructor; [exact IH|].
      rewrite List.Forall_forall in *. intros y Hy.
      apply in_insert_by_timestamp in Hy as [->|Hy]; [exact Hhr | apply Hh, Hy].
Qed.

Lemma order_by_task_timestamp_sorted (l : list (string * AsinRow)) :
  StronglySorted not_after (order_by_task_timestamp l).
Proof.
  induction l as [|h t IH]; cbn; [constructor|].
  apply insert_by_timestamp_sorted, IH.
Qed.

Lemma in_firstn {A : Type} (n : nat) (l : list A) (x : A) :
  In x (firstn n l) -> In x l.
Proof.
  revert n. induction l as [|h t IH]; intros [|n]; cbn; try tauto.
  intros [->|H]; [left; reflexivity | right; apply (IH n), H].
Qed.

Lemma firstn_sorted (n : nat) (l : list (string * AsinRow)) :
  StronglySorted not_after l -> StronglySorted not_after (firstn n l).
Proof.
  intros H. revert n. induction H as [|h t Hs IH Hh]; intros [|n]; cbn;
    try constructor.
  - apply IH.
  - rewrite List.Forall_forall in *. intros y Hy.
    apply Hh. eapply in_firstn, Hy.
Qed.

Lemma ts_lte_iff (ts : option Z) (bound : Z) :
  ts_lte ts bound = true <-> exists t, ts = Some t /\ (t <= bound)%Z.
Proof.
  unfold ts_lte. destruct ts as [t|].
  - rewrite Z.leb_le. split; [eauto|].
    intros (t' & E & H). inversion E; subst. exact H.
  - split; [discriminate|]. intros (t' & E & _). discriminate.
Qed.

Lemma ts_lt_iff (ts : option Z) (bound : Z) :
  ts_lt ts bound = true <-> exists t, ts = Some t /\ (t < bound)%Z.
Proof.
  unfold ts_lt. destruct ts as [t|].
  - rewrite Z.ltb_lt. split; [eauto|].
    intros (t' & E & H). inversion E; subst. exact H.
  - split; [discriminate|]. intros (t' & E & _). discriminate.
Qed.

Lemma to_scrape_filter_eligible (now : Z) (row : AsinRow) :
  to_scrape_filter now row = true <-> query_eligible now row.
Proof.
  unfold to_scrape_filter, query_eligible, one_day_ago, five_minutes_ago.
  rewrite !orb_true_iff, !andb_true_iff, !String.eqb_eq, Z.ltb_lt.
  rewrite ts_lte_iff, ts_lt_iff. tauto.
Qed.

(** C5 (as amended): the selection returns only identifiers whose row
    is pending, or completed with a timestamp no later than the last
    microsecond of the calendar day before [now], or running with a
    timestamp more than five minutes old, or failed with fewer than 3
    retries; in ascending timestamp order, at most [limit] of them; and
    never one that is running with a timestamp within the last five
    minutes. *)
Theorem get_asins_to_scrape_eligible (faults : Faults) (limit : nat) (now : Z) (db : Db) :
  exists rows,
    get_asins_to_scrape faults limit now db = map fst rows
    /\ length rows <= limit
    /\ StronglySorted not_after rows
    /\ forall a row,
        In (a, row) rows ->
        asin_status_tbl db !! a = Some row
        /\ query_eligible now row
        /\ ~ (status row = "running"
              /\ exists t, task_timestamp row = Some t
                           /\ (now - 5 * microseconds_per_minute <= t)%Z).
Proof.
  unfold get_asins_to_scrape.
  destruct (status_client_missing faults);
    [exists []; cbn; repeat split; try constructor; try lia; contradiction|].
  destruct (status_bulk_query_fails faults);
    [exists []; cbn; repeat split; try constructor; try lia; contradiction|].
  eexists. split; [reflexivity|]. split; [apply firstn_le_length|].
  split; [apply firstn_sorted, order_by_task_timestamp_sorted|].
  intros a row Hin.
  apply in_firstn, in_order_by_task_timestamp, filter_In in Hin as [Hin Hf].
  apply list_elem_of_In, elem_of_map_to_list in Hin.
  apply to_scrape_filter_eligible in Hf. cbn in Hf.
  split; [exact Hin|]. split; [exact Hf|].
  intros (Hrun & t & Ht & Hrecent).
  destruct Hf as [H|[(H & _)|[(_ & t' & Ht' & Hold)|(H & _)]]];
    try (rewrite Hrun in H; discriminate).
  rewrite Ht in Ht'. inversion Ht'; subst. lia.
Qed.

(** C5 as stated fails: an identifier completed at 23:00 is selected
    two hours later, although less than a day has passed. *)
Lemma get_asins_to_scrape_one_day_counterexample :
  ~ (forall faults limit now db a,
        In a (get_asins_to_scrape faults limit now db) ->
        exists row, asin_status_tbl db !! a = Some row /\ spec_eligible now row).
Proof.
  intros H.
  destruct (H no_faults 100%nat day2_one_o_clock
              (set_asin_status empty_db {["B0DG3X1D7B" := completed_last_evening]})
              "B0DG3X1D7B")
    as (row & Hrow & Hel).
  - vm_compute. left; reflexivity.
  - cbn in Hrow. rewrite lookup_singleton_eq in Hrow. inversion Hrow; subst row.
    destruct Hel as [H1|[(_ & t & Ht & Hle)|[(H1 & _)|(H1 & _)]]];
      try discriminate.
    inversion Ht; subst t. vm_compute in Hle. apply Hle. reflexivity.
Qed.

(** ** Batch status transitions *)

Lemma mem_In (a : string) (l : list string) : mem a l = true <-> In a l.
Proof.
  unfold mem. rewrite existsb_exists. split.
  - intros (x & Hx & E). apply String.eqb_eq in E. subst. exact Hx.
  - intros H. exists a. split; [exact H | apply String.eqb_refl].
Qed.

Lemma in_remove_first (a x : string) (l : list string) :
  In x (remove_first a l) -> In x l.
Proof.
  induction l as [|h t IH]; cbn; [tauto|].
  destruct (a =? h)%string; cbn; intuition.
Qed.

Lemma remove_first_NoDup (a : string) (l : list string) :
  NoDup l -> NoDup (remove_first a l) /\ ~ In a (remove_first a l).
Proof.
  induction l as [|h t IH]; cbn; intros Hnd.
  - split; [constructor | tauto].
  - apply NoDup_cons in Hnd as [Hh Ht].
    destruct (String.eqb_spec a h) as [->|Hne].
    + split; [exact Ht|]. intros Hin; apply Hh, list_elem_of_In, Hin.
    + destruct (IH Ht) as [IH1 IH2]. split.
      * apply NoDup_cons. split; [|exact IH1].
        intros Hin. apply Hh. apply list_elem_of_In.
        apply list_elem_of_In in Hin. eapply in_remove_first, Hin.
      * cbn. intros [E|Hin]; [congruence | apply IH2, Hin].
Qed.

Lemma upsert_row_existing (tbl : gmap string AsinRow) (u : AsinUpdate) (row : AsinRow) :
  tbl !! upd_asin u = Some row ->
  upsert_row tbl u = <[upd_asin u := apply_update u row]> tbl.
Proof. intros H. unfold upsert_row. rewrite H. reflexivity. Qed.

Lemma addresses_rows_step (tbl : gmap string AsinRow) (u : AsinUpdate)
    (data : list AsinUpdate) :
  addresses_rows tbl (u :: data) -> addresses_rows (upsert_row tbl u) data.
Proof.
  intros H v Hv. destruct (H u (or_introl eq_refl)) as [row Hrow].
  rewrite (upsert_row_existing _ _ _ Hrow).
  destruct (decide (upd_asin u = upd_asin v)) as [E|E].
  - rewrite E, lookup_insert_eq. eauto.
  - rewrite lookup_insert_ne by exact E. apply H. right; exact Hv.
Qed.

Lemma upsert_cons (tbl : gmap string AsinRow) (u : AsinUpdate) (data : list AsinUpdate) :
  upsert tbl (u :: data) = upsert (upsert_row tbl u) data.
Proof. reflexivity. Qed.

Lemma upsert_keeps_missing (data : list AsinUpdate) :
  forall tbl a, addresses_rows tbl data ->
    tbl !! a = None -> upsert tbl data !! a = None.
Proof.
  induction data as [|u rest IH]; intros tbl a Hadr Hnone; [exact Hnone|].
  rewrite upsert_cons. apply IH; [apply addresses_rows_step, Hadr|].
  destruct (Hadr u (or_introl eq_refl)) as [row Hrow].
  rewrite (upsert_row_existing _ _ _ Hrow).
  rewrite lookup_insert_ne; [exact Hnone|]. intros E. rewrite E in Hrow. congruence.
Qed.

Lemma upsert_keeps_retry_count (data : list AsinUpdate) :
  forall tbl a, addresses_rows tbl data ->
    (forall u, In u data -> upd_retry_count u = None) ->
    retry_count <$> upsert tbl data !! a = retry_count <$> tbl !! a.
Proof.
  induction data as [|u rest IH]; intros tbl a Hadr Hnone; [reflexivity|].
  rewrite upsert_cons. rewrite IH.
  - destruct (Hadr u (or_introl eq_refl)) as [row Hrow].
    rewrite (upsert_row_existing _ _ _ Hrow).
    destruct (decide (upd_asin u = a)) as [E|E].
    + subst a. rewrite lookup_insert_eq, Hrow. cbn.
      rewrite (Hnone u (or_introl eq_refl)). reflexivity.
    + rewrite lookup_insert_ne by exact E. reflexivity.
  - apply addresses_rows_step, Hadr.
  - intros v Hv. apply Hnone. right; exact Hv.
Qed.

Lemma upsert_untouched (data : list AsinUpdate) :
  forall tbl a, addresses_rows tbl data ->
    (forall u, In u data -> upd_asin u <> a) ->
    upsert tbl data !! a = tbl !! a.
Proof.
  induction data as [|u rest IH]; intros tbl a Hadr Hne; [reflexivity|].
  rewrite upsert_cons. rewrite IH.
  - destruct (Hadr u (or_introl eq_refl)) as [row Hrow].
    rewrite (upsert_row_existing _ _ _ Hrow).
    apply lookup_insert_ne. apply Hne. left; reflexivity.
  - apply addresses_rows_step, Hadr.
  - intros v Hv. apply Hne. right; exact Hv.
Qed.

Lemma upsert_written (data : list AsinUpdate) :
  forall tbl u row,
    addresses_rows tbl data ->
    NoDup (map upd_asin data) ->
    In u data -> tbl !! upd_asin u = Some row ->
    upsert tbl data !! upd_asin u = Some (apply_update u row).
Proof.
  induction data as [|v rest IH]; intros tbl u row Hadr Hnd Hin Hrow; [contradiction|].
  cbn in Hnd. apply NoDup_cons in Hnd as [Hv Hnd].
  rewrite upsert_cons. destruct Hin as [->|Hin].
  - rewrite upsert_untouched.
    + rewrite (upsert_row_existing _ _ _ Hrow). apply lookup_insert_eq.
    + apply addresses_rows_step, Hadr.
    + intros w Hw E. apply Hv. rewrite <- E.
      apply list_elem_of_In, in_map, Hw.
  - apply IH; [apply addresses_rows_step, Hadr | exact Hnd | exact Hin |].
    destruct (Hadr v (or_introl eq_refl)) as [rv Hrv].
    rewrite (upsert_row_existing _ _ _ Hrv).
    rewrite lookup_insert_ne; [exact Hrow|].
    intros E. apply Hv. rewrite E. apply list_elem_of_In, in_map, Hin.
Qed.

Lemma prepare_bulk_update_closed (tbl : gmap string AsinRow) (st : string)
    (ts : option Z) (asins : list string) :
  forall data succ failed,
    prepare_bulk_update tbl st ts asins data succ failed
    = (data ++ bulk_data tbl st ts asins,
       succ ++ List.filter (stored tbl) asins,
       failed ++ List.filter (fun a => negb (stored tbl a)) asins).
Proof.
  induction asins as [|h rest IH]; intros data succ failed.
  - cbn. rewrite !app_nil_r. reflexivity.
  - cbn [prepare_bulk_update]. unfold bulk_data. cbn [List.filter].
    destruct (tbl !! h) as [row|] eqn:Hh.
    + assert (Hs : stored tbl h = true) by (unfold stored; rewrite Hh; reflexivity).
      assert (Hr : stored_retry_count tbl h = retry_count row)
        by (unfold stored_retry_count; rewrite Hh; reflexivity).
      rewrite IH, Hs. cbn [negb map]. rewrite Hr. unfold bulk_data.
      rewrite <- !app_assoc. reflexivity.
    + assert (Hs : stored tbl h = false) by (unfold stored; rewrite Hh; reflexivity).
      rewrite IH, Hs. cbn [negb]. unfold bulk_data.
      rewrite <- !app_assoc. reflexivity.
Qed.

Lemma filter_NoDup (f : string -> bool) (l : list string) :
  NoDup l -> NoDup (List.filter f l).
Proof.
  induction 1 as [|h t Hh Ht IH]; cbn; [constructor|].
  destruct (f h); [|exact IH].
  apply NoDup_cons. split; [|exact IH].
  intros Hin. apply Hh. apply list_elem_of_In.
  apply list_elem_of_In, filter_In in Hin. tauto.
Qed.

Lemma bulk_data_keys (tbl : gmap string AsinRow) (st : string) (ts : option Z)
    (asins : list string) :
  map upd_asin (bulk_data tbl st ts asins) = List.filter (stored tbl) asins.
Proof.
  unfold bulk_data. rewrite map_map. cbn. apply map_id.
Qed.

Lemma stored_true (tbl : gmap string AsinRow) (a : string) :
  stored tbl a = true <-> is_Some (tbl !! a).
Proof.
  unfold stored. destruct (tbl !! a); split; eauto; try discriminate.
  intros [x Hx]; discriminate.
Qed.

Lemma in_bulk_data (tbl : gmap string AsinRow) (st : string) (ts : option Z)
    (asins : list string) (u : AsinUpdate) :
  In u (bulk_data tbl st ts asins) <->
  exists a row, In a asins /\ tbl !! a = Some row
                /\ u = asin_update_data a st ts (retry_count row).
Proof.
  unfold bulk_data. rewrite in_map_iff. split.
  - intros (a & Hu & Ha). apply filter_In in Ha as [Ha Hs].
    unfold stored in Hs. unfold stored_retry_count in Hu.
    destruct (tbl !! a) as [row|] eqn:E; [|discriminate].
    exists a, row. auto.
  - intros (a & row & Ha & Hrow & Hu). exists a. split.
    + unfold stored_retry_count. rewrite Hrow. auto.
    + apply filter_In. split; [exact Ha|]. unfold stored. rewrite Hrow. reflexivity.
Qed.

Lemma bulk_data_addresses_rows (tbl : gmap string AsinRow) (st : string)
    (ts : option Z) (asins : list string) :
  addresses_rows tbl (bulk_data tbl st ts asins).
Proof.
  intros u Hu. apply in_bulk_data in Hu as (a & row & _ & Hrow & ->).
  cbn. eauto.
Qed.

(** What the fallback loop does to the table and to the two lists. *)
Lemma update_one_by_one_table (faults : Faults) (st : string) (ts : option Z)
    (asins : list string) :
  forall succ failed tbl succ' failed' tbl',
    update_one_by_one faults st ts asins succ failed tbl = (succ', failed', tbl') ->
    (forall a, tbl !! a = None -> tbl' !! a = None)
    /\ (forall a, is_Some (tbl !! a) -> is_Some (tbl' !! a))
    /\ (forall a, ~ In a asins -> tbl' !! a = tbl !! a)
    /\ (forall a, In a failed -> In a failed')
    /\ (forall a, In a asins -> tbl !! a = None -> In a failed')
    /\ (st <> "failed" ->
        forall a, retry_count <$> tbl' !! a = retry_count <$> tbl !! a).
Proof.
  induction asins as [|h rest IH]; intros succ failed tbl succ' failed' tbl' H.
  - cbn in H. inversion H; subst. repeat split; auto. intros a [].
  - cbn [update_one_by_one] in H.
    destruct (status_row_query_fails faults h).
    { apply IH in H as (H1 & H2 & H3 & H4 & H5 & H6).
      repeat split; auto.
      - intros a Ha. apply H3. cbn in Ha. tauto.
      - intros a Ha. apply H4, in_app_iff. tauto.
      - intros a [<-|Ha] Hn; [|apply H5; assumption].
        apply H4, in_app_iff. cbn. tauto. }
    destruct (tbl !! h) as [row|] eqn:Hh.
    2:{ apply IH in H as (H1 & H2 & H3 & H4 & H5 & H6).
        repeat split; auto.
        - intros a Ha. apply H3. cbn in Ha. tauto.
        - intros a Ha. apply H4, in_app_iff. tauto.
        - intros a [<-|Ha] Hn; [|apply H5; assumption].
          apply H4, in_app_iff. cbn. tauto. }
    destruct (status_row_update_fails faults h).
    { apply IH in H as (H1 & H2 & H3 & H4 & H5 & H6).
      repeat split; auto.
      - intros a Ha. apply H3. cbn in Ha. tauto.
      - intros a Ha. apply H4, in_app_iff. tauto.
      - intros a [<-|Ha] Hn; [congruence | apply H5; assumption]. }
    apply IH in H as (H1 & H2 & H3 & H4 & H5 & H6).
    repeat split.
    + intros a Ha. apply H1. rewrite lookup_insert_ne; [exact Ha | congruence].
    + intros a Ha. apply H2. destruct (decide (h = a)) as [->|E].
      * rewrite lookup_insert_eq. eauto.
      * rewrite lookup_insert_ne by exact E. exact Ha.
    + intros a Ha. rewrite H3 by (cbn in Ha; tauto).
      apply lookup_insert_ne. cbn in Ha. tauto.
    + exact H4.
    + intros a [<-|Ha] Hn; [congruence|].
      apply H5; [exact Ha|]. rewrite lookup_insert_ne; [exact Hn | congruence].
    + intros Hst a. rewrite (H6 Hst). destruct (decide (h = a)) as [->|E].
      * rewrite lookup_insert_eq, Hh. cbn.
        apply String.eqb_neq in Hst. rewrite Hst. reflexivity.
      * rewrite lookup_insert_ne by exact E. reflexivity.
Qed.

Lemma update_one_by_one_written (faults : Faults) (st : string) (ts : option Z)
    (asins : list string) :
  forall succ failed tbl succ' failed' tbl',
    update_one_by_one faults st ts asins succ failed tbl = (succ', failed', tbl') ->
    NoDup asins -> NoDup succ ->
    (forall a, In a succ -> is_Some (tbl !! a)) ->
    forall a, In a succ' ->
      (In a succ /\ ~ In a asins)
      \/ (In a asins
          /\ exists row, tbl !! a = Some row
               /\ tbl' !! a
                  = Some (apply_update (asin_update_data a st ts (retry_count row)) row)).
Proof.
  induction asins as [|h rest IH];
    intros succ failed tbl succ' failed' tbl' H Hnd Hsucc Hsome a Ha.
  - cbn in H. inversion H; subst. left. split; [exact Ha | intros []].
  - apply NoDup_cons in Hnd as [Hh Hnd].
    assert (Hh' : ~ In h rest) by (intros X; apply Hh, list_elem_of_In, X).
    cbn [update_one_by_one] in H.
    assert (Hfail :
      forall failed1,
        update_one_by_one faults st ts rest
          (if mem h succ then remove_first h succ else succ) failed1 tbl
        = (succ', failed', tbl') ->
        (In a succ /\ ~ In a (h :: rest))
        \/ (In a (h :: rest)
            /\ exists row, tbl !! a = Some row
                 /\ tbl' !! a
                    = Some (apply_update
                              (asin_update_data a st ts (retry_count row)) row))).
    { intros failed1 H1.
      destruct (remove_first_NoDup h succ Hsucc) as [Hnd1 Hnot].
      assert (Hsub : forall x,
                 In x (if mem h succ then remove_first h succ else succ) ->
                 In x succ /\ x <> h).
      { intros x Hx. destruct (mem h succ) eqn:Hm.
        - split; [eapply in_remove_first, Hx|]. intros ->. apply Hnot, Hx.
        - split; [exact Hx|]. intros ->. apply mem_In in Hx. congruence. }
      eapply IH in H1; [| exact Hnd | | | exact Ha].
      - destruct H1 as [[H1 H2]|[H1 H2]].
        + left. destruct (Hsub a H1) as [Hs Hne]. split; [exact Hs|].
          cbn. intros [E|E]; [congruence | tauto].
        + right. split; [right; exact H1 | exact H2].
      - destruct (mem h succ); assumption.
      - intros x Hx. apply Hsome, (Hsub x Hx). }
    destruct (status_row_query_fails faults h); [eapply Hfail, H|].
    destruct (tbl !! h) as [row|] eqn:Hrow.
    2:{ eapply IH in H; [| exact Hnd | exact Hsucc | exact Hsome | exact Ha].
        destruct H as [[H1 H2]|[H1 H2]].
        - left. split; [exact H1|]. cbn. intros [E|E]; [|tauto].
          subst a. destruct (Hsome h H1) as [x Hx]. congruence.
        - right. split; [right; exact H1 | exact H2]. }
    destruct (status_row_update_fails faults h); [eapply Hfail, H|].
    pose proof H as Htbl. apply update_one_by_one_table in Htbl as (_ & _ & Hun & _).
    eapply IH in H; [| exact Hnd | | | exact Ha].
    + destruct H as [[H1 H2]|[H1 (r & Hr & Hw)]].
      * destruct (decide (a = h)) as [->|Hne].
        -- right. split; [left; reflexivity|]. exists row. split; [exact Hrow|].
           rewrite (Hun h Hh'). apply lookup_insert_eq.
        -- left. split.
           ++ destruct (mem h succ); [exact H1|].
              apply in_app_iff in H1 as [H1|[E|[]]]; [exact H1 | congruence].
           ++ cbn. intros [E|E]; [congruence | tauto].
      * right. split; [right; exact H1|]. exists r. split; [|exact Hw].
        rewrite lookup_insert_ne in Hr; [exact Hr|]. intros ->. tauto.
    + destruct (mem h succ) eqn:Hm; [exact Hsucc|].
      apply NoDup_app. repeat split; [exact Hsucc | | apply NoDup_singleton].
      intros x Hx Hx'. apply list_elem_of_In in Hx'. destruct Hx' as [<-|[]].
      apply list_elem_of_In, mem_In in Hx. congruence.
    + intros x Hx. destruct (decide (h = x)) as [->|E].
      * rewrite lookup_insert_eq. eauto.
      * rewrite lookup_insert_ne by exact E. apply Hsome.
        destruct (mem h succ); [exact Hx|].
        apply in_app_iff in Hx as [Hx|[E'|[]]]; [exact Hx | congruence].
Qed.

Lemma bulk_data_nil (tbl : gmap string AsinRow) (st : string) (ts : option Z)
    (asins : list string) :
  bulk_data tbl st ts asins = [] -> List.filter (stored tbl) asins = [].
Proof. intros H. rewrite <- bulk_data_keys with (st := st) (ts := ts), H. reflexivity. Qed.

(** Every identifier reported successful had its row rewritten with the
    update built from the row as it was. *)
Lemma bulk_update_written (faults : Faults) (asins : list string) (st : string)
    (ts : option Z) (db : Db) (res : StatusUpdateResult) (db' : Db) :
  bulk_update_asin_status faults asins st ts db = (res, db') ->
  NoDup asins ->
  forall a, In a (successful_asins res) ->
    exists row,
      asin_status_tbl db !! a = Some row
      /\ asin_status_tbl db' !! a
         = Some (apply_update (asin_update_data a st ts (retry_count row)) row).
Proof.
  intros H Hnd a Ha. unfold bulk_update_asin_status in H.
  destruct asins as [|a0 rest0] eqn:Easins; [inversion H; subst; contradiction|].
  rewrite <- Easins in *. clear Easins a0 rest0.
  destruct (negb (mem st valid_statuses)); [inversion H; subst; contradiction|].
  destruct (status_client_missing faults); [inversion H; subst; contradiction|].
  destruct (status_bulk_query_fails faults).
  { destruct (update_one_by_one faults st ts asins [] [] (asin_status_tbl db))
      as [[s f] t] eqn:E.
    inversion H; subst. cbn in Ha |- *.
    eapply update_one_by_one_written in E; [| exact Hnd | constructor | | exact Ha].
    - destruct E as [[[] _]|[_ E]]. exact E.
    - intros x []. }
  rewrite prepare_bulk_update_closed in H. cbn [app] in H.
  destruct (bulk_data (asin_status_tbl db) st ts asins) as [|u0 data0] eqn:Edata.
  { apply bulk_data_nil in Edata. inversion H; subst. cbn in Ha.
    rewrite Edata in Ha. contradiction. }
  rewrite <- Edata in *. clear Edata u0 data0.
  destruct (status_bulk_upsert_fails faults).
  - destruct (update_one_by_one faults st ts asins _ _ (asin_status_tbl db))
      as [[s f] t] eqn:E.
    inversion H; subst. cbn in Ha |- *.
    eapply update_one_by_one_written in E;
      [| exact Hnd | apply filter_NoDup, Hnd | | exact Ha].
    + destruct E as [[E1 E2]|[_ E]]; [|exact E].
      apply filter_In in E1. tauto.
    + intros x Hx. apply filter_In in Hx as [_ Hx]. apply stored_true, Hx.
  - inversion H; subst. cbn in Ha |- *.
    apply filter_In in Ha as [Ha Hs]. apply stored_true in Hs as [row Hrow].
    exists row. split; [exact Hrow|].
    change a with (upd_asin (asin_update_data a st ts (retry_count row))) at 1.
    apply upsert_written.
    + apply bulk_data_addresses_rows.
    + rewrite bulk_data_keys. apply filter_NoDup, Hnd.
    + apply in_bulk_data. eauto.
    + exact Hrow.
Qed.

Lemma bulk_update_table (faults : Faults) (asins : list string) (st : string)
    (ts : option Z) (db : Db) (res : StatusUpdateResult) (db' : Db) :
  bulk_update_asin_status faults asins st ts db = (res, db') ->
  (forall a, asin_status_tbl db !! a = None ->
             asin_status_tbl db' !! a = None
             /\ (In a asins -> In a (failed_asins res)))
  /\ (st <> "failed" ->
      forall a, retry_count <$> asin_status_tbl db' !! a
                = retry_count <$> asin_status_tbl db !! a).
Proof.
  intros H. unfold bulk_update_asin_status in H.
  destruct asins as [|a0 rest0] eqn:Easins.
  { inversion H; subst. split; [|reflexivity]. intros a Hn. split; [exact Hn | intros []]. }
  rewrite <- Easins in *. clear Easins a0 rest0.
  destruct (negb (mem st valid_statuses)).
  { inversion H; subst. cbn. split; [|reflexivity]. intros a Hn. tauto. }
  destruct (status_client_missing faults).
  { inversion H; subst. cbn. split; [|reflexivity]. intros a Hn. tauto. }
  destruct (status_bulk_query_fails faults).
  { destruct (update_one_by_one faults st ts asins [] [] (asin_status_tbl db))
      as [[s f] t] eqn:E.
    inversion H; subst. cbn.
    apply update_one_by_one_table in E as (H1 & _ & _ & _ & H5 & H6).
    split; [|exact H6]. intros a Hn. split; [apply H1, Hn | intros Ha; apply H5; assumption]. }
  rewrite prepare_bulk_update_closed in H. cbn [app] in H.
  assert (Hmiss : forall a, asin_status_tbl db !! a = None -> In a asins ->
            In a (List.filter (fun a => negb (stored (asin_status_tbl db) a)) asins)).
  { intros a Hn Ha. apply filter_In. split; [exact Ha|].
    unfold stored. rewrite Hn. reflexivity. }
  destruct (bulk_data (asin_status_tbl db) st ts asins) as [|u0 data0] eqn:Edata.
  { inversion H; subst. cbn. split; [|reflexivity]. intros a Hn. split; [exact Hn | apply Hmiss, Hn]. }
  rewrite <- Edata in *. clear Edata u0 data0.
  destruct (status_bulk_upsert_fails faults).
  - destruct (update_one_by_one faults st ts asins _ _ (asin_status_tbl db))
      as [[s f] t] eqn:E.
    inversion H; subst. cbn.
    apply update_one_by_one_table in E as (H1 & _ & _ & H4 & _ & H6).
    split; [|exact H6]. intros a Hn. split; [apply H1, Hn|].
    intros Ha. apply H4, Hmiss; assumption.
  - inversion H; subst. cbn. split.
    + intros a Hn. split; [|apply Hmiss, Hn].
      apply upsert_keeps_missing; [apply bulk_data_addresses_rows | exact Hn].
    + intros Hst a. apply upsert_keeps_retry_count; [apply bulk_data_addresses_rows|].
      intros u Hu. apply in_bulk_data in Hu as (x & row & _ & _ & ->). cbn.
      apply String.eqb_neq in Hst. rewrite Hst. reflexivity.
Qed.

Lemma bulk_update_normal (faults : Faults) (asins : list string) (st : string)
    (ts : option Z) (db : Db) (res : StatusUpdateResult) (db' : Db) :
  status_client_missing faults = false ->
  status_bulk_query_fails faults = false ->
  status_bulk_upsert_fails faults = false ->
  mem st valid_statuses = true ->
  bulk_update_asin_status faults asins st ts db = (res, db') ->
  forall a, In a asins -> is_Some (asin_status_tbl db !! a) ->
            In a (successful_asins res).
Proof.
  intros F1 F2 F3 Hst H a Ha Hs. unfold bulk_update_asin_status in H.
  destruct asins as [|a0 rest0] eqn:Easins; [contradiction|].
  rewrite <- Easins in *. clear Easins a0 rest0.
  rewrite Hst, F1, F2, F3 in H. cbn [negb] in H.
  rewrite prepare_bulk_update_closed in H. cbn [app] in H.
  assert (Hin : In a (List.filter (stored (asin_status_tbl db)) asins)).
  { apply filter_In. split; [exact Ha | apply stored_true, Hs]. }
  destruct (bulk_data (asin_status_tbl db) st ts asins);
    inversion H; subst; exact Hin.
Qed.

(** C6: in a batch transition, an identifier missing from the store is
    reported failed and stays missing; for distinct identifiers, a
    transition to failed leaves every identifier reported successful
    with its retry count raised by exactly 1, and a transition to
    running with a timestamp leaves it with that timestamp; a
    transition to any other status changes no retry count; and when the
    store answers, every tracked identifier of the batch is reported
    successful. *)
Theorem bulk_update_asin_status_transitions (faults : Faults) (asins : list string)
    (new_status : string) (timestamp : option Z) (db : Db)
    (res : StatusUpdateResult) (db' : Db) :
  bulk_update_asin_status faults asins new_status timestamp db = (res, db') ->
  (forall a, asin_status_tbl db !! a = None ->
             asin_status_tbl db' !! a = None
             /\ (In a asins -> In a (failed_asins res)))
  /\ (new_status = "failed" -> NoDup asins ->
      forall a, In a (successful_asins res) ->
        exists row row',
          asin_status_tbl db !! a = Some row
          /\ asin_status_tbl db' !! a = Some row'
          /\ status row' = "failed"
          /\ retry_count row' = (retry_count row + 1)%Z)
  /\ (new_status <> "failed" ->
      forall a, retry_count <$> asin_status_tbl db' !! a
                = retry_count <$> asin_status_tbl db !! a)
  /\ (new_status = "running" -> NoDup asins ->
      forall t, timestamp = Some t ->
        forall a, In a (successful_asins res) ->
          exists row',
            asin_status_tbl db' !! a = Some row'
            /\ status row' = "running"
            /\ task_timestamp row' = Some t)
  /\ (status_client_missing faults = false ->
      status_bulk_query_fails faults = false ->
      status_bulk_upsert_fails faults = false ->
      mem new_status valid_statuses = true ->
      forall a, In a asins -> is_Some (asin_status_tbl db !! a) ->
                In a (successful_asins res)).
Proof.
  intros H. destruct (bulk_update_table _ _ _ _ _ _ _ H) as [Hmissing Hretry].
  split; [exact Hmissing|]. split; [|split; [exact Hretry|split]].
  - intros -> Hnd a Ha.
    destruct (bulk_update_written _ _ _ _ _ _ _ H Hnd a Ha) as (row & Hrow & Hrow').
    exists row, (apply_update (asin_update_data a "failed" timestamp (retry_count row)) row).
    repeat split; [exact Hrow | exact Hrow'].
  - intros -> Hnd t -> a Ha.
    destruct (bulk_update_written _ _ _ _ _ _ _ H Hnd a Ha) as (row & Hrow & Hrow').
    exists (apply_update (asin_update_data a "running" (Some t) (retry_count row)) row).
    repeat split. exact Hrow'.
  - intros F1 F2 F3 Hst. eapply bulk_update_normal; eassumption.
Qed.

Lemma bulk_update_asin_status_transitions_witness :
  let out :=
    bulk_update_asin_status no_faults ["B0DG3X1D7B"; "B08XYZ1234"] "failed" None
      one_tracked_db in
  In "B08XYZ1234" (failed_asins out.1)
  /\ asin_status_tbl out.2 !! "B08XYZ1234" = None
  /\ exists row',
       asin_status_tbl out.2 !! "B0DG3X1D7B" = Some row'
       /\ status row' = "failed" /\ retry_count row' = 2%Z.
Proof.
  intros out.
  destruct (bulk_update_asin_status_transitions no_faults
              ["B0DG3X1D7B"; "B08XYZ1234"] "failed" None one_tracked_db
              out.1 out.2) as (Hmissing & Hfailed & _ & _ & Hnormal).
  { apply surjective_pairing. }
  assert (Hnone : asin_status_tbl one_tracked_db !! "B08XYZ1234" = None)
    by (vm_compute; reflexivity).
  destruct (Hmissing "B08XYZ1234" Hnone) as [H1 H2].
  split; [apply H2; right; left; reflexivity|]. split; [exact H1|].
  destruct (Hfailed eq_refl) with (a := "B0DG3X1D7B") as (row & row' & Hr & Hr' & Hs & Hc).
  - apply NoDup_cons. split; [|apply NoDup_singleton].
    intros X. apply list_elem_of_In in X. destruct X as [X|[]]. discriminate X.
  - apply Hnormal; try reflexivity; [left; reflexivity|].
    eexists. vm_compute. reflexivity.
  - exists row'. split; [exact Hr'|]. split; [exact Hs|].
    rewrite Hc. vm_compute in Hr. inversion Hr; subst row. reflexivity.
Defined.

(** ** Webhook ingestion *)














Lemma log_status_update_nonempty (asins : list string) (res : StatusUpdateResult) :
  asins <> [] -> log_status_update asins res = Ok tt.
Proof.
  intros H. unfold log_status_update. destruct (success res); [|reflexivity].
  destruct asins; [contradiction | reflexivity].
Qed.





(** ** Alert evaluation inside an ingestion *)






(** ** Report generation retries *)

Lemma update_report_job_status_ids id st url msg now raises db :
  job_ids (update_report_job_status id st url msg now raises db).2 = job_ids db.
Proof.
  unfold update_report_job_status, job_ids. destruct raises; [reflexivity|].
  cbn. rewrite map_map. apply map_ext. intros j.
  destruct (job_id j =? id)%nat; reflexivity.
Qed.

Lemma execute_report_generation_ids id type att db :
  job_ids (_execute_report_generation id type att db).2 = job_ids db.
Proof.
  unfold _execute_report_generation.
  destruct (analysis att) as [[|]|]; try reflexivity.
  destruct (generation att) as [text|]; try reflexivity.
  destruct (negb _); [reflexivity|].
  unfold save_report_result. destruct (save_raises att); [reflexivity|].
  pose proof (update_report_job_status_ids id "completed" None None
                (attempt_time att) (completed_update_raises att)
                (set_report_results db
                   (report_results_tbl db
                      ++ [{| result_job_id := id;
                             report_type := report_type_text type;
                             content := text |}]))) as H.
  destruct (update_report_job_status _ _ _ _ _ _ _) as [[b|e] db2]; exact H.
Qed.

Lemma report_task_body_ids id parameters att db :
  job_ids (report_task_body id parameters att db).2 = job_ids db.
Proof.
  unfold report_task_body.
  pose proof (update_report_job_status_ids id "running" None None
                (attempt_time att) (running_update_raises att) db) as H1.
  destruct (update_report_job_status id "running" _ _ _ _ db) as [[b|e] db1];
    cbn in H1; [|exact H1].
  destruct (dict_index "main_asin" parameters); [|exact H1].
  destruct (dict_index "competitor_asins" parameters); [|exact H1].
  destruct (dict_index "window_size" parameters); [|exact H1].
  destruct (dict_index "report_type" parameters) as [type|]; [|exact H1].
  pose proof (execute_report_generation_ids id type att db1) as H2.
  destruct (_execute_report_generation id type att db1) as [execution db2].
  cbn in H2. destruct (exec_success execution); [cbn; congruence|].
  pose proof (update_report_job_status_ids id "failed" None
                (Some (default "報告生成失敗" (exec_error execution)))
                (attempt_time att) (failed_update_raises att) db2) as H3.
  destruct (update_report_job_status id "failed" _ _ _ _ db2) as [[b3|e3] db3];
    cbn in H3 |- *; congruence.
Qed.

Lemma job_of_updated id st url msg now db :
  job_of id (update_report_job_status id st url msg now false db).2
  = update_job st url msg now <$> job_of id db.
Proof.
  unfold job_of, update_report_job_status. cbn.
  induction (report_jobs_tbl db) as [|j rest IH]; [reflexivity|].
  cbn. destruct (job_id j =? id)%nat eqn:E.
  - cbn. rewrite E. reflexivity.
  - rewrite E. exact IH.
Qed.

Lemma job_of_is_Some id db : In id (job_ids db) -> is_Some (job_of id db).
Proof.
  unfold job_ids, job_of. induction (report_jobs_tbl db) as [|j rest IH]; cbn.
  - intros [].
  - intros [E|H].
    + subst id. rewrite Nat.eqb_refl. eauto.
    + destruct (job_id j =? id)%nat; [eauto | apply IH, H].
Qed.

Lemma job_of_updated_other (id id' : nat) st url msg now (db : Db) :
  id' <> id ->
  job_of id' (update_report_job_status id st url msg now false db).2 = job_of id' db.
Proof.
  intros Hne. unfold job_of, update_report_job_status. cbn.
  induction (report_jobs_tbl db) as [|j rest IH]; [reflexivity|].
  cbn. destruct (Nat.eqb_spec (job_id j) id) as [E|E].
  - cbn. destruct (Nat.eqb_spec (job_id j) id') as [E'|_]; [congruence | exact IH].
  - destruct (job_id j =? id')%nat; [reflexivity | exact IH].
Qed.

(** One execution whose body raises while retries remain: the job is
    marked as being retried, and the retry call raises. *)
Lemma generate_competitor_report_crashes retries id parameters att exc db :
  retries < max_retries ->
  body_raises id parameters att exc ->
  handler_update_raises att = false ->
  In id (job_ids db) ->
  exists db' job,
    generate_competitor_report retries id parameters att db
    = (Crashed (AttributeError "generate_competitor_report" "get_retry_delay"), db')
    /\ job_ids db' = job_ids db
    /\ job_of id db' = Some job
    /\ job_status job = "running"
    /\ error_message job
       = Some ("任務重試中 (第 " +:+ pretty (retries + 1)%nat +:+ " 次): "
               +:+ str_exn exc).
Proof.
  intros Hlt Hraises Hhandler Hin. unfold generate_competitor_report.
  pose proof (Hraises db) as Hr.
  pose proof (report_task_body_ids id parameters att db) as Hids.
  destruct (report_task_body id parameters att db) as [r db1]. cbn in Hr, Hids.
  subst r. apply Nat.ltb_lt in Hlt. rewrite Hlt, Hhandler.
  set (msg := Some ("任務重試中 (第 " +:+ pretty (retries + 1)%nat +:+ " 次): "
                    +:+ str_exn exc)).
  pose proof (job_of_updated id "running" None msg (attempt_time att) db1) as Hjob.
  pose proof (update_report_job_status_ids id "running" None msg
                (attempt_time att) false db1) as Hids2.
  destruct (update_report_job_status id "running" None msg (attempt_time att)
              false db1) as [[b|e] db2] eqn:E;
    [|unfold update_report_job_status in E; discriminate E].
  cbn in Hjob, Hids2.
  destruct (job_of_is_Some id db1) as [j Hj]; [rewrite Hids; exact Hin|].
  rewrite Hj in Hjob. cbn in Hjob.
  eexists _, _. split; [reflexivity|]. split; [congruence|].
  split; [exact Hjob|]. split; reflexivity.
Qed.

(** No execution ends by asking the queue for a retry. *)
Lemma generate_competitor_report_no_retry retries id parameters att db exc :
  (generate_competitor_report retries id parameters att db).1 <> Retry exc.
Proof.
  unfold generate_competitor_report.
  destruct (report_task_body id parameters att db) as [[execution|e] db1];
    [discriminate|].
  destruct (retries <? max_retries)%nat;
    destruct (update_report_job_status _ _ _ _ _ _ _) as [[b|e'] db2]; discriminate.
Qed.

(** One execution whose body raises when the retries are used up. *)
Lemma generate_competitor_report_exhausted retries id parameters att exc db :
  max_retries <= retries ->
  body_raises id parameters att exc ->
  handler_update_raises att = false ->
  In id (job_ids db) ->
  exists db' job,
    generate_competitor_report retries id parameters att db
    = (Returned false (Some (str_exn exc)), db')
    /\ job_ids db' = job_ids db
    /\ job_of id db' = Some job
    /\ job_status job = "failed"
    /\ error_message job = Some ("任務重試次數已達上限: " +:+ str_exn exc).
Proof.
  intros Hge Hraises Hhandler Hin. unfold generate_competitor_report.
  pose proof (Hraises db) as Hr.
  pose proof (report_task_body_ids id parameters att db) as Hids.
  destruct (report_task_body id parameters att db) as [r db1]. cbn in Hr, Hids.
  subst r. apply Nat.ltb_ge in Hge. rewrite Hge, Hhandler.
  set (msg := Some ("任務重試次數已達上限: " +:+ str_exn exc)).
  pose proof (job_of_updated id "failed" None msg (attempt_time att) db1) as Hjob.
  pose proof (update_report_job_status_ids id "failed" None msg
                (attempt_time att) false db1) as Hids2.
  destruct (update_report_job_status id "failed" None msg (attempt_time att)
              false db1) as [[b|e] db2] eqn:E;
    [|unfold update_report_job_status in E; discriminate E].
  cbn in Hjob, Hids2.
  destruct (job_of_is_Some id db1) as [j Hj]; [rewrite Hids; exact Hin|].
  rewrite Hj in Hjob. cbn in Hjob.
  eexists _, _. split; [reflexivity|]. split; [congruence|].
  split; [exact Hjob|]. split; reflexivity.
Qed.

Lemma no_new_pending_refl db : no_new_pending db db.
Proof. intros j H _. exact H. Qed.

Lemma no_new_pending_trans db1 db2 db3 :
  no_new_pending db1 db2 -> no_new_pending db2 db3 -> no_new_pending db1 db3.
Proof. intros H12 H23 j Hj Hp. apply H12; [apply H23; assumption | exact Hp]. Qed.

Lemma update_report_job_status_no_new_pending id st url msg now raises db :
  st <> "pending" ->
  no_new_pending db (update_report_job_status id st url msg now raises db).2.
Proof.
  intros Hst j Hj Hp. unfold update_report_job_status in Hj.
  destruct raises; [exact Hj|]. cbn in Hj.
  apply in_map_iff in Hj as (j0 & E & Hj0).
  destruct (job_id j0 =? id)%nat; subst j; [|exact Hj0].
  cbn in Hp. contradiction.
Qed.

Lemma execute_report_generation_no_new_pending id type att db :
  no_new_pending db (_execute_report_generation id type att db).2.
Proof.
  unfold _execute_report_generation.
  destruct (analysis att) as [[|]|]; try apply no_new_pending_refl.
  destruct (generation att) as [text|]; try apply no_new_pending_refl.
  destruct (negb _); [apply no_new_pending_refl|].
  unfold save_report_result. destruct (save_raises att); [apply no_new_pending_refl|].
  set (db1 := set_report_results db _).
  pose proof (update_report_job_status_no_new_pending id "completed" None None
                (attempt_time att) (completed_update_raises att) db1) as H.
  destruct (update_report_job_status _ _ _ _ _ _ _) as [[b|e] db2];
    apply H; discriminate.
Qed.

Lemma report_task_body_no_new_pending id parameters att db :
  no_new_pending db (report_task_body id parameters att db).2.
Proof.
  unfold report_task_body.
  pose proof (update_report_job_status_no_new_pending id "running" None None
                (attempt_time att) (running_update_raises att) db) as H1.
  destruct (update_report_job_status id "running" _ _ _ _ db) as [[b|e] db1];
    cbn in H1; [|apply H1; discriminate].
  assert (H1' : no_new_pending db db1) by (apply H1; discriminate).
  destruct (dict_index "main_asin" parameters); [|exact H1'].
  destruct (dict_index "competitor_asins" parameters); [|exact H1'].
  destruct (dict_index "window_size" parameters); [|exact H1'].
  destruct (dict_index "report_type" parameters) as [type|]; [|exact H1'].
  pose proof (execute_report_generation_no_new_pending id type att db1) as H2.
  destruct (_execute_report_generation id type att db1) as [execution db2].
  cbn in H2.
  assert (H2' : no_new_pending db db2) by (eapply no_new_pending_trans; eassumption).
  destruct (exec_success execution); [exact H2'|].
  pose proof (update_report_job_status_no_new_pending id "failed" None
                (Some (default "報告生成失敗" (exec_error execution)))
                (attempt_time att) (failed_update_raises att) db2) as H3.
  destruct (update_report_job_status id "failed" _ _ _ _ db2) as [[b3|e3] db3];
    cbn in H3 |- *; (eapply no_new_pending_trans; [exact H2' | apply H3; discriminate]).
Qed.

Lemma generate_competitor_report_no_new_pending retries id parameters att db :
  no_new_pending db (generate_competitor_report retries id parameters att db).2.
Proof.
  unfold generate_competitor_report.
  pose proof (report_task_body_no_new_pending id parameters att db) as H1.
  destruct (report_task_body id parameters att db) as [[execution|exc] db1];
    cbn in H1; [exact H1|].
  destruct (retries <? max_retries)%nat.
  - match goal with
    | |- context [update_report_job_status ?i ?s ?u ?m ?n ?r ?d] =>
        pose proof (update_report_job_status_no_new_pending i s u m n r d) as H2;
        destruct (update_report_job_status i s u m n r d) as [[b|e] db2]
    end; cbn in H2 |- *;
      (eapply no_new_pending_trans; [exact H1 | apply H2; discriminate]).
  - match goal with
    | |- context [update_report_job_status ?i ?s ?u ?m ?n ?r ?d] =>
        pose proof (update_report_job_status_no_new_pending i s u m n r d) as H2;
        destruct (update_report_job_status i s u m n r d) as [[b|e] db2]
    end; cbn in H2 |- *;
      (eapply no_new_pending_trans; [exact H1 | apply H2; discriminate]).
Qed.

Lemma run_report_task_no_new_pending task_id id parameters attempts :
  forall retries db,
    no_new_pending db (run_report_task task_id retries id parameters attempts db).2.
Proof.
  induction attempts as [|att rest IH]; intros retries db;
    [apply no_new_pending_refl|].
  cbn [run_report_task].
  pose proof (generate_competitor_report_no_new_pending retries id parameters att db)
    as H1.
  destruct (generate_competitor_report retries id parameters att db)
    as [[ok err|exc|exc] db1]; cbn in H1 |- *.
  - exact H1.
  - eapply no_new_pending_trans; [exact H1 | apply IH].
  - eapply no_new_pending_trans; [exact H1|].
    apply update_report_job_status_no_new_pending. discriminate.
Qed.

(** C8 (a defect of the code): an execution whose body raises is never
    retried.  Its handler marks the job as running with the number of
    the attempt and the exception text, and the retry call then raises
    [AttributeError] for the missing [get_retry_delay]: the task ends
    with its first execution, the failure callback addresses the row
    whose identifier is the task's own, and the job stays running with
    the message of a retry that never comes.  No execution asks for a
    retry, and none makes a job pending. *)
Theorem generate_competitor_report_never_retries
    (task_id id : nat) (parameters : list (string * json)) :
  (forall retries att db exc,
      (generate_competitor_report retries id parameters att db).1 <> Retry exc)
  /\ (forall att rest exc db,
         body_raises id parameters att exc ->
         handler_update_raises att = false ->
         In id (job_ids db) ->
         task_id <> id ->
         exists db' job,
           run_report_task task_id 0 id parameters (att :: rest) db
           = (Some (Crashed (AttributeError "generate_competitor_report"
                               "get_retry_delay")), db')
           /\ job_of id db' = Some job
           /\ job_status job = "running"
           /\ error_message job
              = Some ("任務重試中 (第 " +:+ pretty 1%nat +:+ " 次): " +:+ str_exn exc))
  /\ (forall retries attempts db j,
         In j (report_jobs_tbl
                 (run_report_task task_id retries id parameters attempts db).2) ->
         job_status j = "pending" ->
         In j (report_jobs_tbl db)).
Proof.
  split; [|split].
  - intros retries att db exc. apply generate_competitor_report_no_retry.
  - intros att rest exc db Hr Hh Hin Hne.
    destruct (generate_competitor_report_crashes 0 id parameters att exc db)
      as (db1 & job & Hstep & _ & Hjob & Hst & Hmsg);
      [unfold max_retries; lia | assumption..|].
    cbn [run_report_task]. rewrite Hstep. eexists _, job.
    split; [reflexivity|]. split; [|split; assumption].
    unfold on_failure. rewrite Hh.
    rewrite job_of_updated_other by (intros E; apply Hne; symmetry; exact E).
    exact Hjob.
  - intros retries attempts db j. apply run_report_task_no_new_pending.
Qed.

Lemma generate_competitor_report_never_retries_witness :
  exists db' job,
    run_report_task 77 0 1 []
      [store_down 10; store_down 70; store_down 190; store_down 430] one_job_db
    = (Some (Crashed (AttributeError "generate_competitor_report"
                        "get_retry_delay")), db')
    /\ job_of 1 db' = Some job
    /\ job_status job = "running"
    /\ error_message job
       = Some ("任務重試中 (第 " +:+ pretty 1%nat +:+ " 次): " +:+ str_exn StoreError).
Proof.
  destruct (generate_competitor_report_never_retries 77 1 []) as (_ & H & _).
  apply (H (store_down 10) [store_down 70; store_down 190; store_down 430]
           StoreError one_job_db).
  - intros db. reflexivity.
  - reflexivity.
  - left. reflexivity.
  - discriminate.
Defined.

(** ** Canonical JSON and the parameters hash *)


















(** ** Idempotent submission *)





Lemma job_id_below_next (jobs : list ReportJob) (j : ReportJob) :
  In j jobs -> job_id j < next_job_id jobs.
Proof.
  unfold next_job_id. induction jobs as [|h rest IH]; cbn; [intros []|].
  intros [->|H]; [lia|]. specialize (IH H). lia.
Qed.








Lemma working_attempt_succeeds (now : Z) : attempt_succeeds (working_attempt now).
Proof. unfold attempt_succeeds. cbn. repeat split. eexists. split; reflexivity. Qed.



(** ** Failures that are not retried *)

(** An exception raised by the analysis is caught inside
    [_execute_report_generation]: the task body does not raise, the job
    goes to failed at once and the task returns, whatever the number of
    retries left. *)
Lemma analysis_exception_is_not_retried (retries id : nat)
    (request : list (string * json)) (att : Attempt) (e : exn) (db : Db) :
  running_update_raises att = false ->
  analysis att = Raise e ->
  failed_update_raises att = false ->
  In id (job_ids db) ->
  exists db' job,
    generate_competitor_report retries id (request_parameter_items request) att db
    = (Returned false (Some ("報告生成邏輯執行失敗: " +:+ str_exn e)), db')
    /\ job_of id db' = Some job
    /\ job_status job = "failed".
Proof.
  intros H1 H2 H3 Hin.
  unfold generate_competitor_report, report_task_body.
  pose proof (job_of_updated id "running" None None (attempt_time att) db) as Hj1.
  pose proof (update_report_job_status_ids id "running" None None
                (attempt_time att) false db) as Hi1.
  rewrite H1.
  destruct (update_report_job_status id "running" None None (attempt_time att)
              false db) as [[b|x] db1] eqn:E1;
    [|unfold update_report_job_status in E1; discriminate E1].
  cbn in Hj1, Hi1.
  cbn [request_parameter_items dict_index String.eqb Ascii.eqb Bool.eqb].
  unfold _execute_report_generation. rewrite H2. cbn [exec_success execution_failed].
  rewrite H3. cbn [exec_error execution_failed default from_option Datatypes.id].
  set (msg := Some ("報告生成邏輯執行失敗: " +:+ str_exn e)).
  pose proof (job_of_updated id "failed" None msg (attempt_time att) db1) as Hj2.
  destruct (update_report_job_status id "failed" None msg (attempt_time att)
              false db1) as [[b2|x2] db2] eqn:E2;
    [|unfold update_report_job_status in E2; discriminate E2].
  cbn in Hj2.
  destruct (job_of_is_Some id db1) as [j Hj]; [rewrite Hi1; exact Hin|].
  rewrite Hj in Hj2. cbn in Hj2.
  eexists _, _. split; [reflexivity|]. split; [exact Hj2 | reflexivity].
Qed.

(** * Further properties of the code *)

(** ** Rating alerts *)

(** X1: with both ratings present, the rating alerts are exactly those
    of the rating rules that trigger at the plain difference
    [latest - previous], a binary64 subtraction (no percentage, no zero
    guard), and that the store accepts, each carrying that difference
    rounded to two decimals. *)
Theorem check_rating_alerts_change_amount (faults : Faults) (a : string)
    (latest previous : ProductSnapshotDict) (rules : list AlertRule) (db : Db)
    (c p : Q) :
  rating latest = Some c -> rating previous = Some p ->
  Forall (fun r => is_Some (rule_id r)) rules ->
  exists alerts db',
    _check_rating_alerts faults a latest previous rules db = (Ok alerts, db')
    /\ forall x,
        In x alerts <->
        exists r id,
          In r rules /\ rule_type r = Some "rating_change"
          /\ rule_id r = Some id
          /\ _should_trigger_alert r (float_sub c p) = true
          /\ x = rating_alert_data a (snapshot_date latest) c p (float_sub c p) id
          /\ change_percent x = round2 (float_sub c p)
          /\ alert_insert_fails faults x = false.
Proof.
  intros Hc Hp Hids.
  set (ca := float_sub c p).
  set (build := rating_alert_data a (snapshot_date latest) c p ca).
  set (rating_rules := List.filter (is_rule_type "rating_change") rules).
  exists (stored_alerts faults build ca rating_rules),
    (set_alerts db (alerts_tbl db ++ stored_alerts faults build ca rating_rules)).
  split.
  - unfold _check_rating_alerts. fold rating_rules. rewrite Hc, Hp. fold ca.
    assert (Hf : Forall (fun r => is_Some (rule_id r)) rating_rules)
      by (apply Forall_filter_ids, Hids).
    destruct rating_rules as [|r0 rest].
    + cbn. rewrite app_nil_r, set_alerts_same. reflexivity.
    + apply check_each_rule_stored, Hf.
  - intros x. unfold rating_rules. rewrite (in_stored_alerts _ _ _ _ _ _ Hids).
    split; intros (r & id & Hr & Hty & Hid & Htrig & Hx & Hrest);
      exists r, id; repeat split; try assumption; try tauto.
    subst x. reflexivity.
Qed.

(** Ratings 3.4 then 1.2 under a decrease rule of threshold 2.2: the
    difference of the two floats is the float -2.2 and the rule
    triggers, though the exact difference of the two values falls short
    of the threshold. *)
Lemma check_rating_alerts_change_amount_witness :
  let c := float_round (12 # 10) in
  let p := float_round (34 # 10) in
  let t := float_round (22 # 10) in
  (exists alerts db',
      _check_rating_alerts no_faults "X"
        (snap (rating_snapshot "X" 2 c)) (snap (rating_snapshot "X" 1 p))
        [simple_rule "r1" "rating_change" "decrease" t] empty_db
      = (Ok alerts, db')
      /\ In (rating_alert_data "X" 2 c p (float_sub c p) "r1") alerts)
  /\ float_sub c p = (- t)%Q
  /\ (- t < c - p)%Q.
Proof.
  intros c p t. split; [|split; vm_compute; reflexivity].
  destruct (check_rating_alerts_change_amount no_faults "X"
              (snap (rating_snapshot "X" 2 c)) (snap (rating_snapshot "X" 1 p))
              [simple_rule "r1" "rating_change" "decrease" t] empty_db c p)
    as (alerts & db' & Heq & Hin).
  - reflexivity.
  - reflexivity.
  - repeat constructor. eexists; reflexivity.
  - exists alerts, db'. split; [exact Heq|].
    apply Hin. exists (simple_rule "r1" "rating_change" "decrease" t), "r1".
    split; [left; reflexivity|]. split; [reflexivity|]. split; [reflexivity|].
    split; [vm_compute; reflexivity|]. repeat split; reflexivity.
Defined.

(** ** What an evaluation writes *)

Lemma check_each_rule_appends (faults : Faults) (build : string -> AlertData)
    (change_value : Q) (rules : list AlertRule) :
  forall acc db,
  exists new,
    (check_each_rule faults build change_value rules acc db).2
    = set_alerts db (alerts_tbl db ++ new)
    /\ (forall x, In x new ->
          exists r id, In r rules /\ rule_id r = Some id /\ x = build id)
    /\ (forall alerts,
          (check_each_rule faults build change_value rules acc db).1 = Ok alerts ->
          forall x, In x alerts -> In x acc \/ In x new).
Proof.
  induction rules as [|rule rest IH]; intros acc db.
  - exists []. cbn. rewrite app_nil_r, set_alerts_same.
    split; [reflexivity|]. split; [intros x []|].
    intros alerts E x Hx. inversion E; subst. left; exact Hx.
  - cbn [check_each_rule].
    assert (Hskip : forall acc,
      exists new,
        (check_each_rule faults build change_value rest acc db).2
        = set_alerts db (alerts_tbl db ++ new)
        /\ (forall x, In x new ->
              exists r id, In r (rule :: rest) /\ rule_id r = Some id /\ x = build id)
        /\ (forall alerts,
              (check_each_rule faults build change_value rest acc db).1 = Ok alerts ->
              forall x, In x alerts -> In x acc \/ In x new)).
    { intros acc0. destruct (IH acc0 db) as (new & H1 & H2 & H3).
      exists new. split; [exact H1|]. split; [|exact H3].
      intros x Hx. destruct (H2 x Hx) as (r & i & Hr & Hi & E).
      exists r, i. split; [right; exact Hr|]. split; assumption. }
    destruct (_should_trigger_alert rule change_value); [|apply Hskip].
    destruct (rule_id rule) as [id|] eqn:Hid.
    + unfold create_alert_record.
      destruct (alert_insert_fails faults (build id)); [apply Hskip|].
      destruct (IH (acc ++ [build id])
                  (set_alerts db (alerts_tbl db ++ [build id])))
        as (new & H1 & H2 & H3).
      exists (build id :: new). split.
      * rewrite H1. cbn [alerts_tbl set_alerts]. rewrite <- app_assoc. reflexivity.
      * split.
        -- intros x [<-|Hx].
           ++ exists rule, id. split; [left; reflexivity|]. split; [exact Hid | reflexivity].
           ++ destruct (H2 x Hx) as (r & i & Hr & Hi & E).
              exists r, i. split; [right; exact Hr|]. split; assumption.
        -- intros alerts Ha x Hx. destruct (H3 alerts Ha x Hx) as [Hacc|Hn].
           ++ apply in_app_iff in Hacc as [Hacc|[<-|[]]].
              ** left; exact Hacc.
              ** right; left; reflexivity.
           ++ right; right; exact Hn.
    + exists []. cbn. rewrite app_nil_r, set_alerts_same.
      split; [reflexivity|]. split; [intros x []|]. intros alerts E. discriminate E.
Qed.

(** What one of the three checks appends, [build] being the alert it
    makes for a rule id. *)
Lemma typed_check_appends (faults : Faults) (a : string) (date : Z)
    (type : string) (build : string -> AlertData) (change_value : Q)
    (rules : list AlertRule) (db : Db) :
  (forall id, alert_asin (build id) = a /\ alert_rule_id (build id) = id
              /\ alert_snapshot_date (build id) = date) ->
  type = "price_change" \/ type = "bsr_change" \/ type = "rating_change" ->
  exists new,
    (check_each_rule faults build change_value
       (List.filter (is_rule_type type) rules) [] db).2
    = set_alerts db (alerts_tbl db ++ new)
    /\ (forall x, In x new -> from_rule a date rules x)
    /\ (forall alerts,
          (check_each_rule faults build change_value
             (List.filter (is_rule_type type) rules) [] db).1 = Ok alerts ->
          forall x, In x alerts -> In x new).
Proof.
  intros Hbuild Htype.
  destruct (check_each_rule_appends faults build change_value
              (List.filter (is_rule_type type) rules) [] db) as (new & H1 & H2 & H3).
  exists new. split; [exact H1|]. split.
  - intros x Hx. destruct (H2 x Hx) as (r & id & Hr & Hid & ->).
    apply filter_In in Hr as [Hr Hty]. apply is_rule_type_iff in Hty.
    destruct (Hbuild id) as (Ha & Hi & Hd).
    split; [exact Ha|]. split; [exact Hd|].
    exists r. split; [exact Hr|]. split; [rewrite Hi; exact Hid|].
    rewrite Hty. destruct Htype as [->|[->| ->]]; tauto.
  - intros alerts Ha x Hx. destruct (H3 alerts Ha x Hx) as [[]|Hn]. exact Hn.
Qed.

Lemma nothing_appended (a : string) (date : Z) (rules : list AlertRule) (db : Db) :
  exists new : list AlertData,
    db = set_alerts db (alerts_tbl db ++ new)
    /\ (forall x, In x new -> from_rule a date rules x)
    /\ (forall alerts : list AlertData,
          Ok (A := list AlertData) [] = Ok alerts -> forall x, In x alerts -> In x new).
Proof.
  exists []. rewrite app_nil_r, set_alerts_same. split; [reflexivity|].
  split; [intros x []|]. intros alerts E x Hx. inversion E; subst. exact Hx.
Qed.

Lemma check_price_alerts_appends faults a latest previous rules db :
  exists new,
    (_check_price_alerts faults a latest previous rules db).2
    = set_alerts db (alerts_tbl db ++ new)
    /\ (forall x, In x new -> from_rule a (snapshot_date latest) rules x)
    /\ (forall alerts,
          (_check_price_alerts faults a latest previous rules db).1 = Ok alerts ->
          forall x, In x alerts -> In x new).
Proof.
  unfold _check_price_alerts.
  destruct (List.filter (is_rule_type "price_change") rules) as [|r0 rest] eqn:E;
    [apply nothing_appended|].
  destruct (price latest) as [c|]; [|apply nothing_appended].
  destruct (price previous) as [p|]; [|apply nothing_appended].
  destruct (Qis_zero p); [apply nothing_appended|].
  rewrite <- E. apply (typed_check_appends faults a (snapshot_date latest)).
  - intros id. cbn. auto.
  - auto.
Qed.

Lemma check_bsr_alerts_appends faults a latest previous rules db :
  exists new,
    (_check_bsr_alerts faults a latest previous rules db).2
    = set_alerts db (alerts_tbl db ++ new)
    /\ (forall x, In x new -> from_rule a (snapshot_date latest) rules x)
    /\ (forall alerts,
          (_check_bsr_alerts faults a latest previous rules db).1 = Ok alerts ->
          forall x, In x alerts -> In x new).
Proof.
  unfold _check_bsr_alerts.
  destruct (List.filter (is_rule_type "bsr_change") rules) as [|r0 rest] eqn:E;
    [apply nothing_appended|].
  destruct (bsr_data latest) as [|cm ?]; [apply nothing_appended|].
  destruct (bsr_data previous) as [|pm ?]; [apply nothing_appended|].
  destruct (rank cm) as [c|]; [|apply nothing_appended].
  destruct (rank pm) as [p|]; [|apply nothing_appended].
  destruct (p =? 0)%Z; [apply nothing_appended|].
  destruct (bsr_change_percent c p) as [change_percent|e].
  - rewrite <- E. apply (typed_check_appends faults a (snapshot_date latest)).
    + intros id. cbn. auto.
    + auto.
  - exists []. cbn [fst snd]. rewrite app_nil_r, set_alerts_same.
    split; [reflexivity|]. split; [intros x []|]. intros alerts H. discriminate H.
Qed.

Lemma check_rating_alerts_appends faults a latest previous rules db :
  exists new,
    (_check_rating_alerts faults a latest previous rules db).2
    = set_alerts db (alerts_tbl db ++ new)
    /\ (forall x, In x new -> from_rule a (snapshot_date latest) rules x)
    /\ (forall alerts,
          (_check_rating_alerts faults a latest previous rules db).1 = Ok alerts ->
          forall x, In x alerts -> In x new).
Proof.
  unfold _check_rating_alerts.
  destruct (List.filter (is_rule_type "rating_change") rules) as [|r0 rest] eqn:E;
    [apply nothing_appended|].
  destruct (rating latest) as [c|]; [|apply nothing_appended].
  destruct (rating previous) as [p|]; [|apply nothing_appended].
  rewrite <- E. apply (typed_check_appends faults a (snapshot_date latest)).
  - intros id. cbn. auto.
  - auto.
Qed.

Lemma check_alerts_body_appends faults a db :
  exists new,
    (check_alerts_body faults a db).2 = set_alerts db (alerts_tbl db ++ new)
    /\ (forall x, In x new ->
          exists latest,
            get_latest_snapshot faults a db = Some latest
            /\ from_rule a (snapshot_date latest) (get_active_rules faults db) x)
    /\ (forall alerts,
          (check_alerts_body faults a db).1 = Ok alerts ->
          forall x, In x alerts -> In x new).
Proof.
  assert (Hnone :
    exists new : list AlertData,
      db = set_alerts db (alerts_tbl db ++ new)
      /\ (forall x, In x new ->
            exists latest,
              get_latest_snapshot faults a db = Some latest
              /\ from_rule a (snapshot_date latest) (get_active_rules faults db) x)
      /\ (forall alerts : list AlertData,
            Ok (A := list AlertData) [] = Ok alerts ->
            forall x, In x alerts -> In x new)).
  { exists []. rewrite app_nil_r, set_alerts_same. split; [reflexivity|].
    split; [intros x []|]. intros alerts E x Hx. inversion E; subst. exact Hx. }
  unfold check_alerts_body.
  destruct (get_latest_snapshot faults a db) as [latest|] eqn:Hl; [|exact Hnone].
  destruct (get_previous_snapshot faults a (snapshot_date latest) db)
    as [previous|]; [|exact Hnone].
  destruct (get_active_rules faults db) as [|r0 rest] eqn:Hrules; [exact Hnone|].
  rewrite <- Hrules. set (rules := get_active_rules faults db). clearbody rules.
  clear Hnone Hrules r0 rest.
  destruct (check_price_alerts_appends faults a latest previous rules db)
    as (n1 & P1 & P2 & P3).
  destruct (_check_price_alerts faults a latest previous rules db)
    as [[price_alerts|e] db1]; cbn [fst snd] in *.
  2:{ exists n1. split; [exact P1|]. split.
      - intros x Hx. exists latest. split; [reflexivity | apply P2, Hx].
      - intros alerts E. discriminate E. }
  destruct (check_bsr_alerts_appends faults a latest previous rules db1)
    as (n2 & B1 & B2 & B3).
  destruct (_check_bsr_alerts faults a latest previous rules db1)
    as [[bsr_alerts|e] db2]; cbn [fst snd] in *.
  2:{ exists (n1 ++ n2). split.
      - rewrite B1, P1. cbn [alerts_tbl set_alerts]. rewrite app_assoc. reflexivity.
      - split.
        + intros x Hx. exists latest. split; [reflexivity|].
          apply in_app_iff in Hx as [Hx|Hx]; [apply P2, Hx | apply B2, Hx].
        + intros alerts E. discriminate E. }
  destruct (check_rating_alerts_appends faults a latest previous rules db2)
    as (n3 & R1 & R2 & R3).
  destruct (_check_rating_alerts faults a latest previous rules db2)
    as [[rating_alerts|e] db3]; cbn [fst snd] in *.
  2:{ exists (n1 ++ n2 ++ n3). split.
      - rewrite R1, B1, P1. cbn [alerts_tbl set_alerts].
        rewrite <- !app_assoc. reflexivity.
      - split.
        + intros x Hx. exists latest. split; [reflexivity|].
          apply in_app_iff in Hx as [Hx|Hx]; [apply P2, Hx|].
          apply in_app_iff in Hx as [Hx|Hx]; [apply B2, Hx | apply R2, Hx].
        + intros alerts E. discriminate E. }
  exists (n1 ++ n2 ++ n3). split.
  - rewrite R1, B1, P1. cbn [alerts_tbl set_alerts].
    rewrite <- !app_assoc. reflexivity.
  - split.
    + intros x Hx. exists latest. split; [reflexivity|].
      apply in_app_iff in Hx as [Hx|Hx]; [apply P2, Hx|].
      apply in_app_iff in Hx as [Hx|Hx]; [apply B2, Hx | apply R2, Hx].
    + intros alerts E x Hx. inversion E; subst.
      apply in_app_iff in Hx as [Hx|Hx];
        [apply in_app_iff; left; eapply P3; [reflexivity | exact Hx]|].
      apply in_app_iff in Hx as [Hx|Hx]; apply in_app_iff; right; apply in_app_iff;
        [left; eapply B3; [reflexivity | exact Hx]
        |right; eapply R3; [reflexivity | exact Hx]].
Qed.

(** X2: an evaluation only appends to the alerts table: every other
    table is left as it was, the alerts already stored keep their place,
    and every alert returned is among the appended ones. *)
Theorem check_alerts_for_asin_only_appends (faults : Faults) (a : string) (db : Db) :
  exists new,
    (check_alerts_for_asin faults a db).2 = set_alerts db (alerts_tbl db ++ new)
    /\ forall x, In x (check_alerts_for_asin faults a db).1 -> In x new.
Proof.
  destruct (check_alerts_body_appends faults a db) as (new & H1 & _ & H3).
  exists new. unfold check_alerts_for_asin.
  destruct (check_alerts_body faults a db) as [[alerts|e] db']; cbn [fst snd] in *.
  - split; [exact H1|]. intros x Hx. eapply H3; [reflexivity | exact Hx].
  - split; [exact H1|]. intros x [].
Qed.

(** X3: every alert an evaluation returns is for the identifier that was
    evaluated, is dated with its latest observation, and names a rule of
    one of the three types that the rule service returned: a rule of
    the cache when the cache holds rules, whatever the table holds by
    then, and otherwise a rule that is stored and active. *)
Theorem check_alerts_for_asin_alert_origin (faults : Faults) (a : string) (db : Db)
    (x : AlertData) :
  In x (check_alerts_for_asin faults a db).1 ->
  alert_asin x = a
  /\ (exists latest, get_latest_snapshot faults a db = Some latest
                     /\ alert_snapshot_date x = snapshot_date latest)
  /\ exists r, rule_id r = Some (alert_rule_id x)
               /\ (rule_type r = Some "price_change"
                   \/ rule_type r = Some "bsr_change"
                   \/ rule_type r = Some "rating_change")
               /\ match rules_cache faults with
                  | Some cached => In r cached
                  | None => In r (alert_rules_tbl db) /\ is_active r = true
                  end.
Proof.
  intros Hx.
  destruct (check_alerts_body_appends faults a db) as (new & _ & H2 & H3).
  unfold check_alerts_for_asin in Hx.
  destruct (check_alerts_body faults a db) as [[alerts|e] db']; cbn [fst snd] in *;
    [|contradiction].
  destruct (H2 x (H3 alerts eq_refl x Hx)) as (latest & Hl & Ha & Hd & r & Hr & Hid & Hty).
  split; [exact Ha|]. split; [exists latest; auto|].
  exists r. split; [exact Hid|]. split; [exact Hty|].
  unfold get_active_rules in Hr.
  destruct (rules_cache faults) as [cached|]; [exact Hr|].
  assert (Hstored : In r (get_active_alert_rules faults db) ->
                    In r (alert_rules_tbl db) /\ is_active r = true).
  { unfold get_active_alert_rules. destruct (rules_unavailable faults); [intros []|].
    intros H. apply filter_In in H. exact H. }
  destruct (load_rules_to_cache faults db); [|exact (Hstored Hr)].
  destruct (rules_cache_reread_fails faults); [destruct Hr | exact (Hstored Hr)].
Qed.

(** A cached rule triggers though the table holds no rule any more. *)
Lemma check_alerts_for_asin_alert_origin_witness :
  let db := db_with [price_snapshot "X" 1 100; price_snapshot "X" 2 80] [] in
  let cached := [simple_rule "r1" "price_change" "decrease" 15] in
  let x := price_alert_data "X" 2 80 100 (-20 # 1) "r1" in
  In x (check_alerts_for_asin (with_rules_cache cached) "X" db).1
  /\ alert_asin x = "X"
  /\ exists r, rule_id r = Some (alert_rule_id x) /\ In r cached.
Proof.
  intros db cached x.
  assert (Hx : In x (check_alerts_for_asin (with_rules_cache cached) "X" db).1).
  { assert (E : (check_alerts_for_asin (with_rules_cache cached) "X" db).1 = [x])
      by (vm_compute; reflexivity).
    rewrite E. left; reflexivity. }
  split; [exact Hx|].
  destruct (check_alerts_for_asin_alert_origin (with_rules_cache cached) "X" db x Hx)
    as (H1 & _ & r & Hid & _ & Hr).
  split; [exact H1|]. exists r. split; [exact Hid | exact Hr].
Defined.

(** ** Evaluation needs an earlier day *)

Lemma first_by_In (after : SnapshotRow -> SnapshotRow -> bool)
    (rows : list SnapshotRow) (r : SnapshotRow) :
  first_by after rows = Some r -> In r rows.
Proof.
  unfold first_by.
  assert (H : forall best,
            fold_left (fun best r =>
                         match best with
                         | None => Some r
                         | Some b => if after r b then Some r else Some b
                         end) rows best = Some r ->
            best = Some r \/ In r rows).
  { induction rows as [|h t IH]; intros best Hf; cbn in Hf; [left; exact Hf|].
    apply IH in Hf as [Hf|Hf]; [|right; right; exact Hf].
    destruct best as [b|].
    - destruct (after h b); inversion Hf; subst; [right; left; reflexivity | left; reflexivity].
    - inversion Hf; subst. right; left; reflexivity. }
  intros Hf. destruct (H None Hf) as [E|E]; [discriminate E | exact E].
Qed.

Lemma filter_nil {A : Type} (f : A -> bool) (l : list A) :
  (forall x, In x l -> f x = false) -> List.filter f l = [].
Proof.
  induction l as [|h t IH]; intros H; [reflexivity|].
  cbn. rewrite (H h (or_introl eq_refl)). apply IH. intros x Hx. apply H. right; exact Hx.
Qed.

Lemma get_latest_snapshot_stored (faults : Faults) (a : string) (db : Db)
    (latest : ProductSnapshotDict) :
  get_latest_snapshot faults a db = Some latest ->
  exists r, In r (product_snapshots_tbl db) /\ has_asin a r = true /\ snap r = latest.
Proof.
  unfold get_latest_snapshot. destruct (snapshots_unavailable faults); [discriminate|].
  destruct (first_by _ _) as [r|] eqn:E; [|discriminate].
  intros H. inversion H; subst. apply first_by_In, filter_In in E.
  exists r. tauto.
Qed.

(** X4: an identifier whose observations all carry the same day raises
    no alert and nothing is written: the comparison needs an
    observation of an earlier day. *)
Theorem check_alerts_for_asin_needs_earlier_day (faults : Faults) (a : string)
    (db : Db) (day : Z) :
  (forall r, In r (product_snapshots_tbl db) -> has_asin a r = true ->
             snapshot_date (snap r) = day) ->
  check_alerts_for_asin faults a db = ([], db).
Proof.
  intros Hday. unfold check_alerts_for_asin, check_alerts_body.
  destruct (get_latest_snapshot faults a db) as [latest|] eqn:Hl; [|reflexivity].
  apply get_latest_snapshot_stored in Hl as (r & Hr & Ha & <-).
  rewrite (Hday r Hr Ha).
  assert (Hp : get_previous_snapshot faults a day db = None).
  { unfold get_previous_snapshot. destruct (snapshots_unavailable faults); [reflexivity|].
    rewrite filter_nil; [reflexivity|].
    intros x Hx. destruct (has_asin a x) eqn:Hax; [|reflexivity].
    rewrite (Hday x Hx Hax). cbn. apply Z.ltb_irrefl. }
  rewrite Hp. reflexivity.
Qed.

Lemma check_alerts_for_asin_needs_earlier_day_witness :
  check_alerts_for_asin no_faults "X"
    (db_with [price_snapshot "X" 2 100; price_snapshot "X" 2 80]
       [simple_rule "r1" "price_change" "decrease" 15])
  = ([], db_with [price_snapshot "X" 2 100; price_snapshot "X" 2 80]
           [simple_rule "r1" "price_change" "decrease" 15]).
Proof.
  apply (check_alerts_for_asin_needs_earlier_day no_faults "X" _ 2).
  intros r [<-|[<-|[]]] _; reflexivity.
Defined.

(** ** Timestamps under batch transitions *)

Lemma asin_update_data_no_timestamp (a st : string) (ts : option Z) (r : Z) :
  st <> "running" \/ ts = None ->
  upd_task_timestamp (asin_update_data a st ts r) = None.
Proof.
  intros [H| ->]; cbn.
  - apply String.eqb_neq in H. rewrite H. reflexivity.
  - destruct (st =? "running")%string; reflexivity.
Qed.

Lemma upsert_keeps_timestamp (data : list AsinUpdate) :
  forall tbl a, addresses_rows tbl data ->
    (forall u, In u data -> upd_task_timestamp u = None) ->
    task_timestamp <$> upsert tbl data !! a = task_timestamp <$> tbl !! a.
Proof.
  induction data as [|u rest IH]; intros tbl a Hadr Hnone; [reflexivity|].
  rewrite upsert_cons. rewrite IH.
  - destruct (Hadr u (or_introl eq_refl)) as [row Hrow].
    rewrite (upsert_row_existing _ _ _ Hrow).
    destruct (decide (upd_asin u = a)) as [E|E].
    + subst a. rewrite lookup_insert_eq, Hrow. cbn.
      rewrite (Hnone u (or_introl eq_refl)). reflexivity.
    + rewrite lookup_insert_ne by exact E. reflexivity.
  - apply addresses_rows_step, Hadr.
  - intros v Hv. apply Hnone. right; exact Hv.
Qed.

Lemma update_one_by_one_keeps_timestamp (faults : Faults) (st : string)
    (ts : option Z) (asins : list string) :
  st <> "running" \/ ts = None ->
  forall succ failed tbl a,
    task_timestamp <$> (update_one_by_one faults st ts asins succ failed tbl).2 !! a
    = task_timestamp <$> tbl !! a.
Proof.
  intros Hno. induction asins as [|h rest IH]; intros succ failed tbl a; [reflexivity|].
  cbn [update_one_by_one].
  destruct (status_row_query_fails faults h); [apply IH|].
  destruct (tbl !! h) as [row|] eqn:Hh; [|apply IH].
  destruct (status_row_update_fails faults h); [apply IH|].
  rewrite IH. destruct (decide (h = a)) as [->|E].
  - rewrite lookup_insert_eq, Hh.
    pose proof (asin_update_data_no_timestamp a st ts (retry_count row) Hno) as Hn.
    cbn in Hn |- *. rewrite Hn. reflexivity.
  - rewrite lookup_insert_ne by exact E. reflexivity.
Qed.

(** X5: a batch transition changes a stored timestamp only when the
    target status is running and a timestamp is passed: completing,
    failing or resetting identifiers leaves every timestamp as it was,
    whatever the store does. *)
Theorem bulk_update_asin_status_keeps_timestamps (faults : Faults)
    (asins : list string) (new_status : string) (timestamp : option Z) (db : Db) :
  new_status <> "running" \/ timestamp = None ->
  forall a,
    task_timestamp
      <$> asin_status_tbl
            (bulk_update_asin_status faults asins new_status timestamp db).2 !! a
    = task_timestamp <$> asin_status_tbl db !! a.
Proof.
  intros Hno a. unfold bulk_update_asin_status.
  destruct asins as [|a0 rest0] eqn:Easins; [reflexivity|].
  rewrite <- Easins. clear Easins a0 rest0.
  destruct (negb (mem new_status valid_statuses)); [reflexivity|].
  destruct (status_client_missing faults); [reflexivity|].
  destruct (status_bulk_query_fails faults).
  { pose proof (update_one_by_one_keeps_timestamp faults new_status timestamp asins
                  Hno [] [] (asin_status_tbl db) a) as H.
    destruct (update_one_by_one _ _ _ _ _ _ _) as [[s f] t]. exact H. }
  rewrite prepare_bulk_update_closed. cbn [app].
  destruct (bulk_data (asin_status_tbl db) new_status timestamp asins)
    as [|u0 data0] eqn:Edata; [reflexivity|].
  rewrite <- Edata. clear Edata u0 data0.
  destruct (status_bulk_upsert_fails faults).
  - pose proof (update_one_by_one_keeps_timestamp faults new_status timestamp asins
                  Hno (List.filter (stored (asin_status_tbl db)) asins)
                  (List.filter (fun a => negb (stored (asin_status_tbl db) a)) asins)
                  (asin_status_tbl db) a) as H.
    destruct (update_one_by_one _ _ _ _ _ _ _) as [[s f] t]. exact H.
  - cbn. apply upsert_keeps_timestamp; [apply bulk_data_addresses_rows|].
    intros u Hu. apply in_bulk_data in Hu as (x & row & _ & _ & ->).
    apply asin_update_data_no_timestamp, Hno.
Qed.

Lemma bulk_update_asin_status_keeps_timestamps_witness :
  task_timestamp
    <$> asin_status_tbl
          (bulk_update_asin_status no_faults ["B0DG3X1D7B"] "completed" None
             one_tracked_db).2 !! "B0DG3X1D7B"
  = task_timestamp <$> asin_status_tbl one_tracked_db !! "B0DG3X1D7B".
Proof.
  apply bulk_update_asin_status_keeps_timestamps. left. discriminate.
Defined.

(** ** Every identifier of a batch is accounted for *)

Lemma in_remove_first_ne (a x : string) (l : list string) :
  x <> a -> In x l -> In x (remove_first a l).
Proof.
  intros Hne. induction l as [|h t IH]; cbn; [tauto|].
  destruct (String.eqb_spec a h) as [->|E]; cbn.
  - intros [E|H]; [congruence | exact H].
  - intros [E'|H]; [left; exact E' | right; apply IH, H].
Qed.

Lemma update_one_by_one_partition (faults : Faults) (st : string) (ts : option Z)
    (asins : list string) :
  forall succ failed tbl succ' failed' tbl',
    update_one_by_one faults st ts asins succ failed tbl = (succ', failed', tbl') ->
    NoDup asins -> NoDup succ ->
    (forall x, In x succ -> is_Some (tbl !! x)) ->
    (forall x, In x succ -> ~ In x failed) ->
    (forall x, In x failed -> In x asins -> tbl !! x = None) ->
    (forall x, In x succ' -> ~ In x failed')
    /\ (forall x, In x asins -> In x succ' \/ In x failed')
    /\ (forall x, ~ In x asins ->
          (In x succ' <-> In x succ) /\ (In x failed' <-> In x failed)).
Proof.
  induction asins as [|h rest IH];
    intros succ failed tbl succ' failed' tbl' H Hnd Hsucc Hsome Hdis Hf.
  - cbn in H. inversion H; subst. split; [exact Hdis|]. split; [intros x []|].
    intros x _. tauto.
  - apply NoDup_cons in Hnd as [Hh Hnd].
    assert (Hh' : ~ In h rest) by (intros X; apply Hh, list_elem_of_In, X).
    cbn [update_one_by_one] in H.
    assert (Hfail :
      update_one_by_one faults st ts rest
        (if mem h succ then remove_first h succ else succ) (failed ++ [h]) tbl
      = (succ', failed', tbl') ->
      (forall x, In x succ' -> ~ In x failed')
      /\ (forall x, In x (h :: rest) -> In x succ' \/ In x failed')
      /\ (forall x, ~ In x (h :: rest) ->
            (In x succ' <-> In x succ) /\ (In x failed' <-> In x failed))).
    { intros H1.
      destruct (remove_first_NoDup h succ Hsucc) as [Hnd1 Hnot].
      assert (Hsub : forall x,
                 In x (if mem h succ then remove_first h succ else succ) ->
                 In x succ /\ x <> h).
      { intros x Hx. destruct (mem h succ) eqn:Hm.
        - split; [eapply in_remove_first, Hx|]. intros ->. apply Hnot, Hx.
        - split; [exact Hx|]. intros ->. apply mem_In in Hx. congruence. }
      assert (Hsup : forall x, x <> h -> In x succ ->
                 In x (if mem h succ then remove_first h succ else succ)).
      { intros x Hne Hx. destruct (mem h succ); [|exact Hx].
        apply in_remove_first_ne; assumption. }
      apply IH in H1 as (I1 & I2 & I3); [| exact Hnd | | | |].
      - split; [exact I1|]. split.
        + intros x [<-|Hx]; [|apply I2, Hx].
          right. apply (I3 h Hh'). apply in_app_iff. right; left; reflexivity.
        + intros x Hx. assert (Hne : x <> h) by (intros ->; apply Hx; left; reflexivity).
          assert (Hr : ~ In x rest) by (intros X; apply Hx; right; exact X).
          destruct (I3 x Hr) as [J1 J2]. split.
          * rewrite J1. split; [intros X; apply (Hsub x X) | apply Hsup, Hne].
          * rewrite J2, in_app_iff. cbn. split; [|tauto].
            intros [X|[X|[]]]; [exact X | congruence].
      - destruct (mem h succ); assumption.
      - intros x Hx. apply Hsome, (Hsub x Hx).
      - intros x Hx Hx'. destruct (Hsub x Hx) as [Hs Hne].
        apply in_app_iff in Hx' as [Hx'|[E|[]]]; [apply (Hdis x Hs Hx') | congruence].
      - intros x Hx Hr. apply in_app_iff in Hx as [Hx|[<-|[]]]; [|contradiction].
        apply Hf; [exact Hx | right; exact Hr]. }
    destruct (status_row_query_fails faults h); [apply Hfail, H|].
    destruct (tbl !! h) as [row|] eqn:Hrow.
    2:{ apply IH in H as (I1 & I2 & I3); [| exact Hnd | exact Hsucc | exact Hsome | |].
        - split; [exact I1|]. split.
          + intros x [<-|Hx]; [|apply I2, Hx].
            right. apply (I3 h Hh'). apply in_app_iff. right; left; reflexivity.
          + intros x Hx. assert (Hne : x <> h) by (intros ->; apply Hx; left; reflexivity).
            assert (Hr : ~ In x rest) by (intros X; apply Hx; right; exact X).
            destruct (I3 x Hr) as [J1 J2]. split; [exact J1|].
            rewrite J2, in_app_iff. cbn. split; [|tauto].
            intros [X|[X|[]]]; [exact X | congruence].
        - intros x Hx Hx'. apply in_app_iff in Hx' as [Hx'|[<-|[]]];
            [apply (Hdis x Hx Hx')|].
          destruct (Hsome h Hx) as [r Hr]. congruence.
        - intros x Hx Hr. apply in_app_iff in Hx as [Hx|[<-|[]]]; [|contradiction].
          apply Hf; [exact Hx | right; exact Hr]. }
    destruct (status_row_update_fails faults h); [apply Hfail, H|].
    assert (Hhf : ~ In h failed).
    { intros X. rewrite (Hf h X (or_introl eq_refl)) in Hrow. discriminate. }
    apply IH in H as (I1 & I2 & I3); [| exact Hnd | | | |].
    + split; [exact I1|]. split.
      * intros x [<-|Hx]; [|apply I2, Hx].
        left. apply (I3 h Hh'). destruct (mem h succ) eqn:Hm.
        -- apply mem_In, Hm.
        -- apply in_app_iff. right; left; reflexivity.
      * intros x Hx. assert (Hne : x <> h) by (intros ->; apply Hx; left; reflexivity).
        assert (Hr : ~ In x rest) by (intros X; apply Hx; right; exact X).
        destruct (I3 x Hr) as [J1 J2]. split; [|exact J2].
        rewrite J1. destruct (mem h succ); [tauto|].
        rewrite in_app_iff. cbn. split; [|tauto].
        intros [X|[X|[]]]; [exact X | congruence].
    + destruct (mem h succ) eqn:Hm; [exact Hsucc|].
      apply NoDup_app. repeat split; [exact Hsucc | | apply NoDup_singleton].
      intros x Hx Hx'. apply list_elem_of_In in Hx'. destruct Hx' as [<-|[]].
      apply list_elem_of_In, mem_In in Hx. congruence.
    + intros x Hx. destruct (decide (h = x)) as [->|E].
      * rewrite lookup_insert_eq. eauto.
      * rewrite lookup_insert_ne by exact E. apply Hsome.
        destruct (mem h succ); [exact Hx|].
        apply in_app_iff in Hx as [Hx|[E'|[]]]; [exact Hx | congruence].
    + intros x Hx Hx'. destruct (mem h succ); [apply (Hdis x Hx Hx')|].
      apply in_app_iff in Hx as [Hx|[<-|[]]]; [apply (Hdis x Hx Hx') | contradiction].
    + intros x Hx Hr. rewrite lookup_insert_ne; [apply Hf; [exact Hx | right; exact Hr]|].
      intros ->. contradiction.
Qed.

Lemma update_result_success (successful failed : list string) :
  success (update_result successful failed) = true <-> failed = [].
Proof.
  destruct failed; cbn; split; intros H; try reflexivity; discriminate H.
Qed.

Lemma stored_partition (tbl : gmap string AsinRow) (asins : list string) :
  (forall a, In a asins <->
             In a (List.filter (stored tbl) asins)
             \/ In a (List.filter (fun a => negb (stored tbl a)) asins))
  /\ (forall a, In a (List.filter (stored tbl) asins) ->
                ~ In a (List.filter (fun a => negb (stored tbl a)) asins)).
Proof.
  split.
  - intros a. rewrite !filter_In. destruct (stored tbl a); cbn; intuition.
  - intros a H1 H2. apply filter_In in H1 as [_ H1]. apply filter_In in H2 as [_ H2].
    rewrite H1 in H2. discriminate.
Qed.

(** X6: in a batch of distinct identifiers every identifier is
    reported, as successful or as failed and never as both, nothing
    else is reported, and [success] is true exactly when no identifier
    failed, whatever the store does.  The failed list may name an
    identifier twice: one that is not stored is appended once while the
    bulk update is prepared and once more by the row-by-row pass that
    follows a refused upsert. *)
Theorem bulk_update_asin_status_partitions (faults : Faults) (asins : list string)
    (new_status : string) (timestamp : option Z) (db : Db)
    (res : StatusUpdateResult) (db' : Db) :
  bulk_update_asin_status faults asins new_status timestamp db = (res, db') ->
  NoDup asins ->
  (forall a, In a asins <-> In a (successful_asins res) \/ In a (failed_asins res))
  /\ (forall a, In a (successful_asins res) -> ~ In a (failed_asins res))
  /\ (success res = true <-> failed_asins res = []).
Proof.
  intros H Hnd. unfold bulk_update_asin_status in H.
  destruct asins as [|a0 rest0] eqn:Easins.
  { inversion H; subst. cbn. repeat split; try tauto. }
  assert (Hne : asins <> []) by (rewrite Easins; discriminate).
  rewrite <- Easins in *. clear Easins a0 rest0.
  assert (Hbad : forall r d,
            ({| success := false; successful_asins := []; failed_asins := asins |}, db)
            = (r, d) ->
            (forall a, In a asins <-> In a (successful_asins r) \/ In a (failed_asins r))
            /\ (forall a, In a (successful_asins r) -> ~ In a (failed_asins r))
            /\ (success r = true <-> failed_asins r = [])).
  { intros r d E. inversion E; subst. cbn. repeat split; try tauto; try discriminate. }
  assert (Hloop : forall s0 f0 r d,
            NoDup s0 ->
            (forall x, In x s0 -> is_Some (asin_status_tbl db !! x)) ->
            (forall x, In x s0 -> ~ In x f0) ->
            (forall x, In x f0 -> asin_status_tbl db !! x = None) ->
            (forall x, In x s0 \/ In x f0 -> In x asins) ->
            (let '(s, f, t) :=
               update_one_by_one faults new_status timestamp asins s0 f0
                 (asin_status_tbl db) in
             (update_result s f, set_asin_status db t)) = (r, d) ->
            (forall a, In a asins <-> In a (successful_asins r) \/ In a (failed_asins r))
            /\ (forall a, In a (successful_asins r) -> ~ In a (failed_asins r))
            /\ (success r = true <-> failed_asins r = [])).
  { intros s0 f0 r d N0 S0 D0 F0 Sub E.
    destruct (update_one_by_one faults new_status timestamp asins s0 f0
                (asin_status_tbl db)) as [[s f] t] eqn:Eloop.
    inversion E; subst. cbn [successful_asins failed_asins update_result].
    apply update_one_by_one_partition in Eloop as (I1 & I2 & I3);
      [| exact Hnd | exact N0 | exact S0 | exact D0 | intros x Hx _; apply F0, Hx].
    split; [|split; [exact I1 | apply update_result_success]].
    intros a. split; [apply I2|].
    intros Ha. destruct (List.in_dec String.string_dec a asins) as [Hin|Hout];
      [exact Hin|].
    destruct (I3 a Hout) as [J1 J2]. apply Sub. tauto. }
  destruct (negb (mem new_status valid_statuses)); [eapply Hbad, H|].
  destruct (status_client_missing faults); [eapply Hbad, H|].
  destruct (status_bulk_query_fails faults).
  { eapply (Hloop [] []); [constructor | intros x [] | intros x [] | intros x []
                          | intros x [[]|[]] | exact H]. }
  rewrite prepare_bulk_update_closed in H. cbn [app] in H.
  destruct (stored_partition (asin_status_tbl db) asins) as [P1 P2].
  assert (Hnormal : forall r d,
            (update_result (List.filter (stored (asin_status_tbl db)) asins)
               (List.filter (fun a => negb (stored (asin_status_tbl db) a)) asins), d)
            = (r, db') ->
            (forall a, In a asins <-> In a (successful_asins r) \/ In a (failed_asins r))
            /\ (forall a, In a (successful_asins r) -> ~ In a (failed_asins r))
            /\ (success r = true <-> failed_asins r = [])).
  { intros r d E. inversion E; subst. cbn [successful_asins failed_asins update_result].
    split; [exact P1|]. split; [exact P2 | apply update_result_success]. }
  destruct (bulk_data (asin_status_tbl db) new_status timestamp asins)
    as [|u0 data0] eqn:Edata; [eapply Hnormal, H|].
  rewrite <- Edata in *. clear Edata u0 data0.
  destruct (status_bulk_upsert_fails faults); [|eapply Hnormal, H].
  eapply Hloop; [| | | | | exact H].
  - apply filter_NoDup, Hnd.
  - intros x Hx. apply filter_In in Hx as [_ Hx]. apply stored_true, Hx.
  - exact P2.
  - intros x Hx. apply filter_In in Hx as [_ Hx]. unfold stored in Hx.
    destruct (asin_status_tbl db !! x); [discriminate | reflexivity].
  - intros x Hx. apply P1, Hx.
Qed.

Lemma bulk_update_asin_status_partitions_witness :
  let res :=
    (bulk_update_asin_status (upsert_refused "B000000000")
       ["B0DG3X1D7B"; "B000000000"] "failed" None one_tracked_db).1 in
  In "B0DG3X1D7B" (successful_asins res) /\ ~ In "B0DG3X1D7B" (failed_asins res)
  /\ failed_asins res = ["B000000000"; "B000000000"].
Proof.
  intros res.
  destruct (bulk_update_asin_status_partitions (upsert_refused "B000000000")
              ["B0DG3X1D7B"; "B000000000"] "failed" None one_tracked_db
              res (bulk_update_asin_status (upsert_refused "B000000000")
                     ["B0DG3X1D7B"; "B000000000"] "failed" None one_tracked_db).2)
    as (_ & H2 & _).
  - apply surjective_pairing.
  - apply NoDup_cons. split; [|apply NoDup_singleton].
    intros X. apply list_elem_of_In in X. destruct X as [E|[]]. discriminate E.
  - assert (Hs : In "B0DG3X1D7B" (successful_asins res)) by (left; reflexivity).
    split; [exact Hs|]. split; [apply H2, Hs|]. reflexivity.
Defined.

(** ** Selection: distinct, complete up to the limit *)

Lemma in_get_asins_to_scrape (faults : Faults) (limit : nat) (now : Z) (db : Db)
    (a : string) :
  In a (get_asins_to_scrape faults limit now db) ->
  exists row, asin_status_tbl db !! a = Some row /\ to_scrape_filter now row = true.
Proof.
  unfold get_asins_to_scrape.
  destruct (status_client_missing faults); [intros []|].
  destruct (status_bulk_query_fails faults); [intros []|].
  intros H. apply in_map_iff in H as ([a' row] & <- & H).
  apply in_firstn, in_order_by_task_timestamp, filter_In in H as [H Hf].
  exists row. split; [|exact Hf].
  apply list_elem_of_In, elem_of_map_to_list in H. exact H.
Qed.

Lemma insert_by_timestamp_perm (r : string * AsinRow) (l : list (string * AsinRow)) :
  Permutation (insert_by_timestamp r l) (r :: l).
Proof.
  induction l as [|h t IH]; cbn; [reflexivity|].
  destruct (ts_leb _ _); [reflexivity|].
  rewrite IH. apply perm_swap.
Qed.

Lemma order_by_task_timestamp_perm (l : list (string * AsinRow)) :
  Permutation (order_by_task_timestamp l) l.
Proof.
  induction l as [|h t IH]; cbn; [reflexivity|].
  rewrite insert_by_timestamp_perm, IH. reflexivity.
Qed.

Lemma NoDup_fst_filter (f : string * AsinRow -> bool) (l : list (string * AsinRow)) :
  NoDup (map fst l) -> NoDup (map fst (List.filter f l)).
Proof.
  induction l as [|h t IH]; cbn; intros H; [constructor|].
  apply NoDup_cons in H as [Hh Ht].
  destruct (f h); cbn; [|apply IH, Ht].
  apply NoDup_cons. split; [|apply IH, Ht].
  intros X. apply Hh. apply list_elem_of_In. apply list_elem_of_In in X.
  apply in_map_iff in X as (y & E & Hy). apply filter_In in Hy as [Hy _].
  apply in_map_iff. exists y. split; assumption.
Qed.

Lemma NoDup_fst_firstn (n : nat) (l : list (string * AsinRow)) :
  NoDup (map fst l) -> NoDup (map fst (firstn n l)).
Proof.
  revert n. induction l as [|h t IH]; intros [|n]; cbn; intros H;
    [constructor | constructor | constructor |].
  apply NoDup_cons in H as [Hh Ht].
  apply NoDup_cons. split; [|apply IH, Ht].
  intros X. apply Hh. apply list_elem_of_In. apply list_elem_of_In in X.
  apply in_map_iff in X as (y & E & Hy). apply in_firstn in Hy.
  apply in_map_iff. exists y. split; assumption.
Qed.

Lemma get_asins_to_scrape_nodup (faults : Faults) (limit : nat) (now : Z) (db : Db) :
  NoDup (get_asins_to_scrape faults limit now db).
Proof.
  unfold get_asins_to_scrape.
  destruct (status_client_missing faults); [constructor|].
  destruct (status_bulk_query_fails faults); [constructor|].
  apply NoDup_fst_firstn.
  rewrite (Permutation_map fst (order_by_task_timestamp_perm _)).
  apply NoDup_fst_filter. apply (NoDup_fst_map_to_list (asin_status_tbl db)).
Qed.

(** X7: the selection never names an identifier twice; when the store
    answers it returns as many identifiers as there are eligible rows,
    up to the limit, so that with no more eligible rows than the limit
    every eligible identifier is selected. *)
Theorem get_asins_to_scrape_distinct_and_complete (faults : Faults) (limit : nat)
    (now : Z) (db : Db) :
  NoDup (get_asins_to_scrape faults limit now db)
  /\ (status_client_missing faults = false ->
      status_bulk_query_fails faults = false ->
      length (get_asins_to_scrape faults limit now db)
      = Nat.min limit (length (eligible_rows now db))
      /\ (length (eligible_rows now db) <= limit ->
          forall a row,
            asin_status_tbl db !! a = Some row -> query_eligible now row ->
            In a (get_asins_to_scrape faults limit now db))).
Proof.
  split; [apply get_asins_to_scrape_nodup|].
  unfold get_asins_to_scrape, eligible_rows.
  set (rows := List.filter (fun r => to_scrape_filter now r.2)
                 (map_to_list (asin_status_tbl db))).
  intros -> ->. split.
  - rewrite length_map, length_firstn.
    rewrite (Permutation_length (order_by_task_timestamp_perm rows)). reflexivity.
  - intros Hle a row Hrow Hel.
    rewrite firstn_all2
      by (rewrite (Permutation_length (order_by_task_timestamp_perm rows)); exact Hle).
    apply in_map_iff. exists (a, row). split; [reflexivity|].
    apply in_order_by_task_timestamp. apply filter_In. split.
    + apply list_elem_of_In, elem_of_map_to_list, Hrow.
    + apply to_scrape_filter_eligible, Hel.
Qed.

Lemma get_asins_to_scrape_distinct_and_complete_witness :
  In "B0DG3X1D7B" (get_asins_to_scrape no_faults 100 1000000000000 one_tracked_db).
Proof.
  destruct (get_asins_to_scrape_distinct_and_complete no_faults 100 1000000000000
              one_tracked_db) as [_ H].
  destruct (H eq_refl eq_refl) as [_ Hall].
  apply (Hall ltac:(vm_compute; repeat constructor) "B0DG3X1D7B"
           {| status := "running"; task_timestamp := Some 1000%Z; retry_count := 1 |}).
  - reflexivity.
  - right; right; left. split; [reflexivity|].
    exists 1000%Z. split; [reflexivity|]. reflexivity.
Defined.

(** ** Dispatching a batch *)

Lemma fetch_amazon_products_started (faults : Faults) (asins : list string)
    (now : Z) (db : Db) :
  asins <> [] ->
  fetch_amazon_products faults asins None false now db
  = (FetchReturned "task_started"
       (bulk_update_asin_status faults asins "running" (Some now) db).1,
     (bulk_update_asin_status faults asins "running" (Some now) db).2).
Proof.
  intros Hne. unfold fetch_amazon_products.
  assert (E : get_product_details asins false = "started")
    by (destruct asins; [contradiction | reflexivity]).
  rewrite E. change (("started" =? "started")%string) with true. cbv iota.
  destruct (bulk_update_asin_status faults asins "running" (Some now) db) as [res db1].
  rewrite (log_status_update_nonempty _ _ Hne). reflexivity.
Qed.

Lemma fetch_amazon_products_not_started (faults : Faults) (asins : list string)
    (collector_raises : option exn) (start_raises : bool) (now : Z) (db : Db) :
  asins <> [] ->
  is_Some collector_raises \/ start_raises = true ->
  (fetch_amazon_products faults asins collector_raises start_raises now db).2
  = (bulk_update_asin_status faults asins "failed" None db).2
  /\ forall res, (fetch_amazon_products faults asins collector_raises start_raises now db).1
                 <> FetchReturned "task_started" res.
Proof.
  intros Hne Hcase. unfold fetch_amazon_products.
  destruct collector_raises as [exc|].
  { cbn. split; [reflexivity | discriminate]. }
  destruct Hcase as [[x Hx]| ->]; [discriminate Hx|].
  assert (E : get_product_details asins true = "error")
    by (destruct asins; reflexivity).
  rewrite E. change (("error" =? "started")%string) with false. cbv iota.
  destruct (bulk_update_asin_status faults asins "failed" None db) as [res db1].
  rewrite (log_status_update_nonempty _ _ Hne). cbn.
  split; [reflexivity | discriminate].
Qed.

Lemma running_row_not_eligible (now now' : Z) (row : AsinRow) :
  status row = "running" -> task_timestamp row = Some now ->
  (now' <= now + 5 * microseconds_per_minute)%Z ->
  to_scrape_filter now' row = false.
Proof.
  intros Hs Ht Hle. unfold to_scrape_filter. rewrite Hs, Ht.
  change (("running" =? "pending")%string) with false.
  change (("running" =? "completed")%string) with false.
  change (("running" =? "failed")%string) with false.
  change (("running" =? "running")%string) with true.
  cbn [orb andb ts_lt]. rewrite orb_false_r.
  apply Z.ltb_ge. unfold five_minutes_ago. lia.
Qed.

Lemma exhausted_row_not_eligible (now : Z) (row : AsinRow) :
  status row = "failed" -> (3 <= retry_count row)%Z ->
  to_scrape_filter now row = false.
Proof.
  intros Hs Hr. unfold to_scrape_filter. rewrite Hs.
  change (("failed" =? "pending")%string) with false.
  change (("failed" =? "completed")%string) with false.
  change (("failed" =? "running")%string) with false.
  change (("failed" =? "failed")%string) with true.
  cbn [orb andb]. apply Z.ltb_ge. exact Hr.
Qed.

Lemma marked_running_not_selected (faults faults' : Faults) (asins : list string)
    (now now' : Z) (limit : nat) (db : Db) (res : StatusUpdateResult) (db' : Db) :
  bulk_update_asin_status faults asins "running" (Some now) db = (res, db') ->
  NoDup asins ->
  (now' <= now + 5 * microseconds_per_minute)%Z ->
  forall a, In a (successful_asins res) ->
    (exists row, asin_status_tbl db' !! a = Some row
                 /\ status row = "running" /\ task_timestamp row = Some now)
    /\ ~ In a (get_asins_to_scrape faults' limit now' db').
Proof.
  intros E Hnd Hle a Ha.
  destruct (bulk_update_written faults asins "running" (Some now) db res db' E Hnd a Ha)
    as (row & Hrow & Hrow').
  split.
  - eexists. split; [exact Hrow'|]. split; reflexivity.
  - intros Hin. apply in_get_asins_to_scrape in Hin as (r & Hr & Hf).
    rewrite Hrow' in Hr. inversion Hr; subst r.
    rewrite (running_row_not_eligible now now') in Hf; [discriminate | reflexivity.. | exact Hle].
Qed.

(** X8: when the actor starts, [fetch_amazon_products] returns
    [task_started] and every identifier of the batch (distinct
    identifiers) whose status was updated is stored as running with the
    dispatch time, and no selection made up to five minutes after that
    time returns it. *)
Theorem fetch_amazon_products_batch_not_reselected (faults faults' : Faults)
    (asins : list string) (now now' : Z) (limit : nat) (db : Db) :
  asins <> [] -> NoDup asins ->
  (now' <= now + 5 * microseconds_per_minute)%Z ->
  exists res db',
    fetch_amazon_products faults asins None false now db
    = (FetchReturned "task_started" res, db')
    /\ forall a, In a (successful_asins res) ->
        (exists row, asin_status_tbl db' !! a = Some row
                     /\ status row = "running" /\ task_timestamp row = Some now)
        /\ ~ In a (get_asins_to_scrape faults' limit now' db').
Proof.
  intros Hne Hnd Hle. eexists _, _. split; [apply fetch_amazon_products_started, Hne|].
  eapply marked_running_not_selected; [apply surjective_pairing | exact Hnd | exact Hle].
Qed.

Lemma fetch_amazon_products_batch_not_reselected_witness :
  exists res db',
    fetch_amazon_products no_faults ["B0DG3X1D7B"] None false 5000 one_tracked_db
    = (FetchReturned "task_started" res, db')
    /\ In "B0DG3X1D7B" (successful_asins res)
    /\ ~ In "B0DG3X1D7B" (get_asins_to_scrape no_faults 100 300005000 db').
Proof.
  destruct (fetch_amazon_products_batch_not_reselected no_faults no_faults
              ["B0DG3X1D7B"] 5000 300005000 100 one_tracked_db)
    as (res & db' & Hrun & Hall).
  - discriminate.
  - apply NoDup_singleton.
  - unfold microseconds_per_minute. lia.
  - exists res, db'. split; [exact Hrun|].
    assert (Hs : In "B0DG3X1D7B" (successful_asins res)).
    { rewrite fetch_amazon_products_started in Hrun by discriminate.
      inversion Hrun. left; reflexivity. }
    split; [exact Hs | apply (Hall _ Hs)].
Defined.

(** X9: when the launch does not start (the collector cannot be built,
    or starting the actor fails) the batch is sent through one
    transition to failed: every identifier (distinct identifiers) whose
    status was updated has its retry count raised by 1 and keeps its
    timestamp, and one that had already failed twice is never selected
    again. *)
Theorem fetch_amazon_products_failed_launch (faults faults' : Faults)
    (asins : list string) (collector_raises : option exn) (start_raises : bool)
    (now : Z) (db : Db) :
  asins <> [] -> NoDup asins ->
  is_Some collector_raises \/ start_raises = true ->
  exists res,
    (fetch_amazon_products faults asins collector_raises start_raises now db).2
    = (bulk_update_asin_status faults asins "failed" None db).2
    /\ res = (bulk_update_asin_status faults asins "failed" None db).1
    /\ forall a, In a (successful_asins res) ->
        exists row row',
          asin_status_tbl db !! a = Some row
          /\ asin_status_tbl
               (fetch_amazon_products faults asins collector_raises start_raises
                  now db).2 !! a = Some row'
          /\ status row' = "failed"
          /\ retry_count row' = (retry_count row + 1)%Z
          /\ task_timestamp row' = task_timestamp row
          /\ ((2 <= retry_count row)%Z ->
              forall limit now',
                ~ In a (get_asins_to_scrape faults' limit now'
                          (fetch_amazon_products faults asins collector_raises
                             start_raises now db).2)).
Proof.
  intros Hne Hnd Hcase.
  destruct (fetch_amazon_products_not_started faults asins collector_raises
              start_raises now db Hne Hcase) as [Hdb _].
  eexists. split; [exact Hdb|]. split; [reflexivity|].
  intros a Ha. rewrite Hdb.
  destruct (bulk_update_written faults asins "failed" None db _ _
              (surjective_pairing _) Hnd a Ha) as (row & Hrow & Hrow').
  exists row, (apply_update (asin_update_data a "failed" None (retry_count row)) row).
  split; [exact Hrow|]. split; [exact Hrow'|].
  split; [reflexivity|]. split; [reflexivity|]. split; [reflexivity|].
  intros Hr limit now' Hin.
  apply in_get_asins_to_scrape in Hin as (r & Hr' & Hf).
  rewrite Hrow' in Hr'. inversion Hr'; subst r.
  rewrite exhausted_row_not_eligible in Hf; [discriminate | reflexivity|].
  cbn. lia.
Qed.

Lemma fetch_amazon_products_failed_launch_witness :
  exists row',
    asin_status_tbl
      (fetch_amazon_products no_faults ["B0DG3X1D7B"] None true 5000
         one_tracked_db).2 !! "B0DG3X1D7B" = Some row'
    /\ status row' = "failed" /\ retry_count row' = 2%Z.
Proof.
  destruct (fetch_amazon_products_failed_launch no_faults no_faults
              ["B0DG3X1D7B"] None true 5000 one_tracked_db)
    as (res & _ & Hres & Hall).
  - discriminate.
  - apply NoDup_singleton.
  - right; reflexivity.
  - destruct (Hall "B0DG3X1D7B") as (row & row' & Hrow & Hrow' & Hs & Hr & _).
    + rewrite Hres. left; reflexivity.
    + exists row'. split; [exact Hrow'|]. split; [exact Hs|].
      rewrite Hr. vm_compute in Hrow. inversion Hrow. reflexivity.
Defined.

(** X10: handed an empty batch, [fetch_amazon_products] never returns:
    reading [success_count] from the answer for an empty list raises,
    so the task asks for a retry, and the store is left as it was. *)
Theorem fetch_amazon_products_empty_batch (faults : Faults)
    (collector_raises : option exn) (start_raises : bool) (now : Z) (db : Db) :
  exists exc,
    fetch_amazon_products faults [] collector_raises start_raises now db
    = (FetchRetry exc, db).
Proof.
  destruct collector_raises as [exc|]; eexists; reflexivity.
Qed.

(** ** Scheduling passes *)

Lemma scheduled_batch (faults : Faults) (now : Z) (db : Db) (batch : list string) :
  schedule_amazon_scraping faults None now db = Scheduled batch ->
  batch = get_asins_to_scrape faults 100 now db
  /\ batch <> []
  /\ status_client_missing faults = false
  /\ status_bulk_query_fails faults = false.
Proof.
  unfold schedule_amazon_scraping, get_pending_asins.
  destruct (get_asins_to_scrape faults 100 now db) as [|a0 rest0] eqn:E;
    [discriminate|].
  intros H. inversion H; subst. split; [reflexivity|]. split; [discriminate|].
  unfold get_asins_to_scrape in E.
  destruct (status_client_missing faults); [discriminate|].
  destruct (status_bulk_query_fails faults); [discriminate|].
  split; reflexivity.
Qed.

(** X11: no identifier is dispatched twice within five minutes: when a
    scheduling pass hands a batch to [fetch_amazon_products], the actor
    starts and the batch upsert is accepted, then no identifier of the
    batch is selected by a pass made up to five minutes after the
    dispatch time. *)
Theorem schedule_amazon_scraping_no_double_dispatch (faults faults' : Faults)
    (now0 now1 now2 : Z) (db : Db) (batch : list string) :
  status_bulk_upsert_fails faults = false ->
  schedule_amazon_scraping faults None now0 db = Scheduled batch ->
  (now2 <= now1 + 5 * microseconds_per_minute)%Z ->
  forall a, In a batch ->
    ~ In a (get_pending_asins faults' 100 now2
              (fetch_amazon_products faults batch None false now1 db).2).
Proof.
  intros F3 Hs Hle a Ha.
  apply scheduled_batch in Hs as (Hb & Hne & F1 & F2).
  rewrite (fetch_amazon_products_started faults batch now1 db Hne). cbn [snd].
  unfold get_pending_asins.
  eapply marked_running_not_selected; [apply surjective_pairing | | exact Hle |].
  - rewrite Hb. apply get_asins_to_scrape_nodup.
  - eapply (bulk_update_normal faults batch "running" (Some now1) db);
      [exact F1 | exact F2 | exact F3 | reflexivity
      | apply surjective_pairing | exact Ha |].
    rewrite Hb in Ha. apply in_get_asins_to_scrape in Ha as (row & Hrow & _).
    eauto.
Qed.

Lemma schedule_amazon_scraping_no_double_dispatch_witness :
  ~ In "B0DG3X1D7B"
      (get_pending_asins no_faults 100 1000000000002
         (fetch_amazon_products no_faults ["B0DG3X1D7B"] None false 1000000000001
            one_tracked_db).2).
Proof.
  apply (schedule_amazon_scraping_no_double_dispatch no_faults no_faults
           1000000000000 1000000000001 1000000000002 one_tracked_db).
  - reflexivity.
  - vm_compute. reflexivity.
  - unfold microseconds_per_minute. lia.
  - left. reflexivity.
Defined.

(** ** Report jobs: creation, update, lookup *)

Lemma head_filter_find {A : Type} (f : A -> bool) (l : list A) :
  head (List.filter f l) = List.find f l.
Proof.
  induction l as [|h t IH]; [reflexivity|]. cbn. destruct (f h); [reflexivity | exact IH].
Qed.

Lemma get_report_job_status_job_of (id : nat) (db : Db) :
  get_report_job_status id false db = Ok (job_of id db).
Proof. unfold get_report_job_status, job_of. rewrite head_filter_find. reflexivity. Qed.

Lemma job_of_In (id : nat) (db : Db) (j : ReportJob) :
  job_of id db = Some j -> In j (report_jobs_tbl db) /\ job_id j = id.
Proof.
  unfold job_of. intros H. apply find_some in H as [H1 H2].
  split; [exact H1 | apply Nat.eqb_eq, H2].
Qed.

Lemma job_of_fresh (id : nat) (db : Db) :
  ~ In id (job_ids db) -> job_of id db = None.
Proof.
  intros H. destruct (job_of id db) as [j|] eqn:E; [|reflexivity].
  apply job_of_In in E as [E1 E2]. exfalso. apply H. unfold job_ids.
  apply in_map_iff. exists j. split; assumption.
Qed.

Lemma next_job_id_fresh (db : Db) : ~ In (next_job_id (report_jobs_tbl db)) (job_ids db).
Proof.
  unfold job_ids. intros H. apply in_map_iff in H as (j & E & Hj).
  apply job_id_below_next in Hj. lia.
Qed.

Lemma job_of_app (id : nat) (db : Db) (l : list ReportJob) :
  job_of id (set_report_jobs db (report_jobs_tbl db ++ l))
  = match job_of id db with
    | Some j => Some j
    | None => List.find (fun j => (job_id j =? id)%nat) l
    end.
Proof.
  unfold job_of. cbn [report_jobs_tbl set_report_jobs].
  induction (report_jobs_tbl db) as [|h t IH]; [reflexivity|].
  cbn. destruct (job_id h =? id)%nat; [reflexivity | exact IH].
Qed.

(** X12: creating a job gives it an identifier no stored job has and
    stores it as pending with the given type, hash and creation time;
    looking that identifier up returns the new row, every other lookup
    answers as before, and no result is touched. *)
Theorem create_report_job_round_trip (type hash : string) (now : Z) (db : Db) :
  exists id db',
    create_report_job type hash now false db = (Ok id, db')
    /\ ~ In id (job_ids db)
    /\ (exists j,
          get_report_job_status id false db' = Ok (Some j)
          /\ job_id j = id /\ job_type j = type /\ parameters_hash j = hash
          /\ job_status j = "pending" /\ created_at j = now
          /\ started_at j = None /\ completed_at j = None
          /\ error_message j = None)
    /\ (forall id', id' <> id ->
          get_report_job_status id' false db' = get_report_job_status id' false db)
    /\ report_results_tbl db' = report_results_tbl db.
Proof.
  unfold create_report_job. eexists _, _. split; [reflexivity|].
  pose proof (next_job_id_fresh db) as Hfresh.
  split; [exact Hfresh|]. split; [|split; [|reflexivity]].
  - eexists. rewrite get_report_job_status_job_of, job_of_app.
    rewrite (job_of_fresh _ _ Hfresh). cbn [List.find job_id].
    rewrite Nat.eqb_refl. split; [reflexivity|]. repeat split.
  - intros id' Hne. rewrite !get_report_job_status_job_of, job_of_app.
    destruct (job_of id' db); [reflexivity|]. cbn [List.find job_id].
    destruct (Nat.eqb_spec (next_job_id (report_jobs_tbl db)) id') as [E|_];
      [congruence | reflexivity].
Qed.

Lemma set_report_jobs_same (db : Db) : set_report_jobs db (report_jobs_tbl db) = db.
Proof. destruct db; reflexivity. Qed.

(** X13: a status update touches the job with the given identifier and
    nothing else: for an unknown identifier it answers [False] and
    leaves the store as it was; for a stored one it answers [True],
    sets the status and keeps the identifier, the hash and the creation
    time, and a call without a message keeps the message already
    stored; every other job reads as before. *)
Theorem update_report_job_status_touches_one_job (id : nat) (new_status : string)
    (url message : option string) (now : Z) (db : Db) :
  exists b db',
    update_report_job_status id new_status url message now false db = (Ok b, db')
    /\ (b = true <-> In id (job_ids db))
    /\ (b = false -> db' = db)
    /\ (forall id', id' <> id ->
          get_report_job_status id' false db' = get_report_job_status id' false db)
    /\ (forall j, job_of id db = Some j ->
          exists j',
            job_of id db' = Some j'
            /\ job_status j' = new_status /\ job_id j' = id
            /\ created_at j' = created_at j
            /\ parameters_hash j' = parameters_hash j
            /\ (truthy message = false -> error_message j' = error_message j))
    /\ report_results_tbl db' = report_results_tbl db.
Proof.
  eexists _, _. split; [reflexivity|]. split; [|split; [|split; [|split]]].
  - rewrite existsb_exists. unfold job_ids. rewrite in_map_iff. split.
    + intros (j & Hj & E). exists j. split; [apply Nat.eqb_eq, E | exact Hj].
    + intros (j & E & Hj). exists j. split; [exact Hj | apply Nat.eqb_eq, E].
  - intros Hb. cbn [snd].
    transitivity (set_report_jobs db (report_jobs_tbl db));
      [|apply set_report_jobs_same].
    f_equal. transitivity (map (fun j => j) (report_jobs_tbl db)); [|apply map_id].
    apply map_ext_in.
    intros j Hj. destruct (job_id j =? id)%nat eqn:E; [|reflexivity].
    exfalso. apply not_true_iff_false in Hb. apply Hb.
    apply existsb_exists. exists j. split; assumption.
  - intros id' Hne. rewrite !get_report_job_status_job_of.
    f_equal. apply (job_of_updated_other id id' new_status url message now db Hne).
  - intros j Hj.
    pose proof (job_of_updated id new_status url message now db) as Hu.
    cbn [snd] in Hu. unfold update_report_job_status in Hu. cbn [snd] in Hu.
    rewrite Hj in Hu. eexists. split; [exact Hu|].
    apply job_of_In in Hj as [_ Hid].
    cbn. repeat split; try assumption.
    intros Hm. unfold or_keep. rewrite Hm. reflexivity.
  - reflexivity.
Qed.

(** ** What the worker reports and what the store holds *)

Lemma update_report_job_status_ok id st url msg now raises db b db' :
  update_report_job_status id st url msg now raises db = (Ok b, db') ->
  job_of id db' = update_job st url msg now <$> job_of id db
  /\ report_results_tbl db' = report_results_tbl db.
Proof.
  destruct raises; [unfold update_report_job_status; discriminate|].
  intros H. pose proof (job_of_updated id st url msg now db) as Hu.
  rewrite H in Hu. cbn [snd] in Hu. split; [exact Hu|].
  unfold update_report_job_status in H. inversion H; subst. reflexivity.
Qed.

Lemma updated_status st url msg now (o : option ReportJob) (j : ReportJob) :
  update_job st url msg now <$> o = Some j -> job_status j = st.
Proof. destruct o; cbn; intros H; [|discriminate H]. inversion H. reflexivity. Qed.

Lemma report_task_body_ok id parameters att db execution db1 j :
  report_task_body id parameters att db = (Ok execution, db1) ->
  job_of id db1 = Some j ->
  if exec_success execution
  then job_status j = "completed"
       /\ exists type text,
            dict_index "report_type" parameters = Ok type
            /\ generation att = Ok text
            /\ In (stored_report id type text) (report_results_tbl db1)
  else job_status j = "failed".
Proof.
  unfold report_task_body.
  destruct (update_report_job_status id "running" None None (attempt_time att)
              (running_update_raises att) db) as [[b0|e0] db0]; [|discriminate].
  destruct (dict_index "main_asin" parameters); [|discriminate].
  destruct (dict_index "competitor_asins" parameters); [|discriminate].
  destruct (dict_index "window_size" parameters); [|discriminate].
  destruct (dict_index "report_type" parameters) as [type|]; [|discriminate].
  destruct (_execute_report_generation id type att db0) as [ex db2] eqn:Ex.
  destruct (exec_success ex) eqn:Hs.
  - intros H Hj. inversion H; subst. rewrite Hs.
    unfold _execute_report_generation in Ex.
    destruct (analysis att) as [[|]|]; try (inversion Ex; subst; discriminate Hs).
    destruct (generation att) as [text|]; try (inversion Ex; subst; discriminate Hs).
    destruct (negb (truthy (Some text))); try (inversion Ex; subst; discriminate Hs).
    unfold save_report_result in Ex.
    destruct (save_raises att); try (inversion Ex; subst; discriminate Hs).
    destruct (update_report_job_status id "completed" None None (attempt_time att)
                (completed_update_raises att) _) as [[b2|e2] db3] eqn:Eu;
      try (inversion Ex; subst; discriminate Hs).
    inversion Ex; subst. apply update_report_job_status_ok in Eu as [Hjob Hres].
    rewrite Hjob in Hj. split.
    + apply (updated_status _ _ _ _ _ _ Hj).
    + exists type, text. split; [reflexivity|]. split; [reflexivity|].
      rewrite Hres. cbn [report_results_tbl set_report_results].
      apply in_app_iff. right. left. reflexivity.
  - destruct (update_report_job_status id "failed" None _ (attempt_time att)
                (failed_update_raises att) db2) as [[b3|e3] db3] eqn:Eu; [|discriminate].
    intros H Hj. inversion H; subst. rewrite Hs.
    apply update_report_job_status_ok in Eu as [Hjob _].
    rewrite Hjob in Hj. apply (updated_status _ _ _ _ _ _ Hj).
Qed.

(** X14: what one execution of the report task reports agrees with the
    stored job: when it returns success the job is completed and the
    generated text is stored as a result of that job; when it returns
    failure the job is failed.  It never asks for a retry: an execution
    that raised with retries left ends in an exception, the
    AttributeError of the missing [get_retry_delay] when the handler's
    update was accepted, and the job is then left running. *)
Theorem generate_competitor_report_outcome_matches_job (retries id : nat)
    (parameters : list (string * json)) (att : Attempt) (db : Db)
    (out : TaskOutcome) (db' : Db) (j : ReportJob) :
  generate_competitor_report retries id parameters att db = (out, db') ->
  job_of id db' = Some j ->
  match out with
  | Returned true _ =>
      job_status j = "completed"
      /\ exists type text,
           dict_index "report_type" parameters = Ok type
           /\ generation att = Ok text
           /\ In (stored_report id type text) (report_results_tbl db')
  | Returned false _ => job_status j = "failed"
  | Retry _ => False
  | Crashed e =>
      handler_update_raises att = false ->
      (retries < max_retries)%nat
      /\ e = AttributeError "generate_competitor_report" "get_retry_delay"
      /\ job_status j = "running"
  end.
Proof.
  unfold generate_competitor_report.
  destruct (report_task_body id parameters att db) as [[execution|exc] db1] eqn:Eb.
  - intros H Hj. inversion H; subst.
    exact (report_task_body_ok _ _ _ _ _ _ _ Eb Hj).
  - destruct (retries <? max_retries)%nat eqn:Er.
    + destruct (update_report_job_status id "running" _ _ _ _ db1)
        as [[b|e] db2] eqn:Eu; intros H Hj; inversion H; subst; intros Hh.
      * apply update_report_job_status_ok in Eu as [Hjob _].
        rewrite Hjob in Hj. split; [apply Nat.ltb_lt, Er|]. split; [reflexivity|].
        apply (updated_status _ _ _ _ _ _ Hj).
      * unfold update_report_job_status in Eu. rewrite Hh in Eu. discriminate Eu.
    + destruct (update_report_job_status id "failed" _ _ _ _ db1)
        as [[b|e] db2] eqn:Eu; intros H Hj; inversion H; subst.
      * apply update_report_job_status_ok in Eu as [Hjob _].
        rewrite Hjob in Hj. apply (updated_status _ _ _ _ _ _ Hj).
      * intros Hh. unfold update_report_job_status in Eu. rewrite Hh in Eu.
        discriminate Eu.
Qed.

Lemma generate_competitor_report_outcome_matches_job_witness :
  let run :=
    generate_competitor_report 0 1 (request_parameter_items report_request)
      (working_attempt 5) one_job_db in
  exists j, job_of 1 run.2 = Some j /\ job_status j = "completed".
Proof.
  intros run. destruct (job_of 1 run.2) as [j|] eqn:E; [|vm_compute in E; discriminate E].
  exists j. split; [reflexivity|].
  pose proof (generate_competitor_report_outcome_matches_job 0 1
                (request_parameter_items report_request) (working_attempt 5)
                one_job_db run.1 run.2 j (surjective_pairing _) E) as H.
  change run.1 with (Returned true None) in H. apply H.
Defined.

Lemma generate_competitor_report_succeeds (retries id : nat)
    (request : list (string * json)) (att : Attempt) (db : Db) :
  attempt_succeeds att ->
  exists db' text,
    generate_competitor_report retries id (request_parameter_items request) att db
    = (Returned true None, db')
    /\ generation att = Ok text
    /\ report_jobs_tbl db'
       = map (fun j => if (job_id j =? id)%nat
                       then completed_row (attempt_time att) j else j)
           (report_jobs_tbl db)
    /\ report_results_tbl db'
       = report_results_tbl db
         ++ [stored_report id
               (dict_get "report_type" request (JStr "competitor_analysis")) text].
Proof.
  intros (H1 & H2 & (text & H3 & H4) & H5 & H6).
  unfold generate_competitor_report, report_task_body.
  unfold update_report_job_status at 1. rewrite H1.
  cbn [request_parameter_items dict_index String.eqb Ascii.eqb Bool.eqb].
  unfold _execute_report_generation. rewrite H2, H3, H4. cbn [negb].
  unfold save_report_result. rewrite H5.
  unfold update_report_job_status. rewrite H6. cbn.
  eexists _, text. split; [reflexivity|]. split; [reflexivity|]. split; [|reflexivity].
  rewrite map_map. apply map_ext. intros j. unfold completed_row.
  destruct (job_id j =? id)%nat eqn:E; [|rewrite E; reflexivity].
  cbn. rewrite E. reflexivity.
Qed.

Lemma job_of_map (id : nat) (f : ReportJob -> ReportJob) (jobs : list ReportJob) :
  (forall j, job_id (f j) = job_id j) ->
  List.find (fun j => (job_id j =? id)%nat)
    (map (fun j => if (job_id j =? id)%nat then f j else j) jobs)
  = f <$> List.find (fun j => (job_id j =? id)%nat) jobs.
Proof.
  intros Hf. induction jobs as [|j rest IH]; [reflexivity|].
  cbn. destruct (job_id j =? id)%nat eqn:E.
  - cbn. rewrite Hf, E. reflexivity.
  - rewrite E. exact IH.
Qed.

(** ** Submission and the store *)

Lemma check_idempotency_none (hash : string) (now : Z) (db : Db) :
  (forall j, In j (report_jobs_tbl db) -> parameters_hash j = hash ->
             job_status j <> "completed") ->
  _check_idempotency hash now false db = None.
Proof.
  intros H. unfold _check_idempotency, check_existing_report.
  rewrite filter_nil; [reflexivity|].
  intros j Hj. destruct (String.eqb_spec (parameters_hash j) hash) as [E|]; [|reflexivity].
  destruct (String.eqb_spec (job_status j) "completed") as [E'|]; [|reflexivity].
  exfalso. exact (H j Hj E E').
Qed.

Lemma check_idempotency_found (hash : string) (now : Z) (raises : bool) (db : Db)
    (j : ReportJob) :
  _check_idempotency hash now raises db = Some j ->
  In j (report_jobs_tbl db) /\ job_status j = "completed" /\ parameters_hash j = hash.
Proof.
  unfold _check_idempotency, check_existing_report. destruct raises; [discriminate|].
  destruct (List.filter _ _) as [|h t] eqn:E; [discriminate|].
  intros H. inversion H; subst h.
  assert (Hin : In j (j :: t)) by (left; reflexivity).
  rewrite <- E in Hin. apply filter_In in Hin as [Hin Hm].
  rewrite !andb_true_iff in Hm. destruct Hm as [[[H1 H2] _] _].
  split; [exact Hin|]. split; [apply String.eqb_eq, H2 | apply String.eqb_eq, H1].
Qed.

(** X16: the answer of a submission agrees with the store: a rejected
    request writes nothing; an accepted one names a stored job with the
    status that is answered; one answered as existing names a completed
    job and writes nothing; one answered as new names a pending job
    with an identifier that was not in use, and adds exactly that
    row. *)
Theorem create_competitor_report_answer_matches_store
    (request : list (string * json)) (now : Z) (faults : SubmitFaults) (db : Db) :
  match create_competitor_report request now faults db with
  | (Rejected _, db') => db' = db
  | (Accepted id state existing _, db') =>
      (exists j, In j (report_jobs_tbl db') /\ job_id j = id /\ job_status j = state)
      /\ (if existing then db' = db /\ state = "completed"
          else state = "pending" /\ ~ In id (job_ids db)
               /\ exists j, report_jobs_tbl db' = report_jobs_tbl db ++ [j])
  end.
Proof.
  unfold create_competitor_report.
  destruct (negb (json_truthy (dict_get "main_asin" request JNull))); [reflexivity|].
  destruct (negb (json_truthy (dict_get "competitor_asins" request (JArr []))));
    [reflexivity|].
  set (hash := generate_parameters_hash (request_parameters request)).
  clearbody hash.
  destruct (_check_idempotency hash now (check_raises faults) db) as [j|] eqn:E.
  - apply check_idempotency_found in E as (Hin & Hst & _).
    split; [exists j; auto|]. split; [reflexivity | exact Hst].
  - unfold create_report_job. destruct (insert_raises faults); [reflexivity|].
    split.
    + eexists. split.
      * cbn [report_jobs_tbl set_report_jobs]. apply in_app_iff. right. left. reflexivity.
      * split; reflexivity.
    + split; [reflexivity|]. split; [apply next_job_id_fresh|].
      eexists. reflexivity.
Qed.

Lemma create_competitor_report_new (request : list (string * json)) (now : Z) (db : Db) :
  json_truthy (dict_get "main_asin" request JNull) = true ->
  json_truthy (dict_get "competitor_asins" request (JArr [])) = true ->
  (forall j, In j (report_jobs_tbl db) ->
             parameters_hash j = generate_parameters_hash (request_parameters request) ->
             job_status j <> "completed") ->
  create_competitor_report request now no_submit_faults db
  = (Accepted (next_job_id (report_jobs_tbl db)) "pending" false false,
     (create_report_job "competitor_analysis"
        (generate_parameters_hash (request_parameters request)) now false db).2).
Proof.
  intros Hm Hc Hnone. unfold create_competitor_report. rewrite Hm, Hc. cbn [negb].
  change (check_raises no_submit_faults) with false.
  change (insert_raises no_submit_faults) with false.
  change (enqueue_raises no_submit_faults) with false.
  rewrite (check_idempotency_none _ now db Hnone). reflexivity.
Qed.

(** X17: submissions are not idempotent before completion: while no
    completed job carries the hash of the request, submitting the same
    request twice creates two jobs with different identifiers, both
    pending. *)
Theorem create_competitor_report_pending_is_not_reused
    (request : list (string * json)) (now1 now2 : Z) (db : Db) :
  json_truthy (dict_get "main_asin" request JNull) = true ->
  json_truthy (dict_get "competitor_asins" request (JArr [])) = true ->
  (forall j, In j (report_jobs_tbl db) ->
             parameters_hash j = generate_parameters_hash (request_parameters request) ->
             job_status j <> "completed") ->
  exists id1 id2 db1 db2 j1 j2,
    create_competitor_report request now1 no_submit_faults db
    = (Accepted id1 "pending" false false, db1)
    /\ create_competitor_report request now2 no_submit_faults db1
       = (Accepted id2 "pending" false false, db2)
    /\ id1 <> id2
    /\ job_of id1 db2 = Some j1 /\ job_status j1 = "pending"
    /\ job_of id2 db2 = Some j2 /\ job_status j2 = "pending".
Proof.
  intros Hm Hc Hnone.
  set (hash := generate_parameters_hash (request_parameters request)) in *.
  pose proof (create_competitor_report_new request now1 db Hm Hc Hnone) as H1.
  fold hash in H1.
  set (db1 := (create_report_job "competitor_analysis" hash now1 false db).2) in *.
  assert (Hnone1 : forall j, In j (report_jobs_tbl db1) -> parameters_hash j = hash ->
                             job_status j <> "completed").
  { intros j Hj Hh. unfold db1, create_report_job in Hj.
    cbn [snd report_jobs_tbl set_report_jobs] in Hj.
    apply in_app_iff in Hj as [Hj|[<-|[]]]; [apply (Hnone j Hj Hh) | discriminate]. }
  pose proof (create_competitor_report_new request now2 db1 Hm Hc Hnone1) as H2.
  fold hash in H2.
  set (db2 := (create_report_job "competitor_analysis" hash now2 false db1).2) in *.
  set (id1 := next_job_id (report_jobs_tbl db)) in *.
  set (id2 := next_job_id (report_jobs_tbl db1)) in *.
  assert (Hlt : id1 < id2).
  { unfold id2. change id1 with
      (job_id {| job_id := id1; job_type := "competitor_analysis";
                 parameters_hash := hash; job_status := "pending";
                 created_at := now1; started_at := None; completed_at := None;
                 result_url := None; error_message := None |}).
    apply job_id_below_next. unfold db1, create_report_job.
    cbn [snd report_jobs_tbl set_report_jobs]. apply in_app_iff. right. left. reflexivity. }
  assert (Hj1 : job_of id1 db1
                = Some {| job_id := id1; job_type := "competitor_analysis";
                          parameters_hash := hash; job_status := "pending";
                          created_at := now1; started_at := None; completed_at := None;
                          result_url := None; error_message := None |}).
  { unfold db1, create_report_job. cbn [snd]. rewrite job_of_app.
    rewrite (job_of_fresh id1 db (next_job_id_fresh db)). cbn [List.find job_id].
    fold id1. rewrite Nat.eqb_refl. reflexivity. }
  exists id1, id2, db1, db2,
    {| job_id := id1; job_type := "competitor_analysis";
       parameters_hash := hash; job_status := "pending";
       created_at := now1; started_at := None; completed_at := None;
       result_url := None; error_message := None |},
    {| job_id := id2; job_type := "competitor_analysis";
       parameters_hash := hash; job_status := "pending";
       created_at := now2; started_at := None; completed_at := None;
       result_url := None; error_message := None |}.
  split; [exact H1|]. split; [exact H2|].
  split; [lia|]. split; [|split; [reflexivity|split; [|reflexivity]]].
  - unfold db2, create_report_job. cbn [snd]. rewrite job_of_app, Hj1. reflexivity.
  - unfold db2, create_report_job. cbn [snd]. rewrite job_of_app.
    rewrite (job_of_fresh id2 db1 (next_job_id_fresh db1)). cbn [List.find job_id].
    fold id2. rewrite Nat.eqb_refl. reflexivity.
Qed.

Lemma create_competitor_report_pending_is_not_reused_witness :
  exists id1 id2 db1 db2 j1 j2,
    create_competitor_report report_request 10 no_submit_faults empty_db
    = (Accepted id1 "pending" false false, db1)
    /\ create_competitor_report report_request 20 no_submit_faults db1
       = (Accepted id2 "pending" false false, db2)
    /\ id1 <> id2
    /\ job_of id1 db2 = Some j1 /\ job_status j1 = "pending"
    /\ job_of id2 db2 = Some j2 /\ job_status j2 = "pending".
Proof.
  apply (create_competitor_report_pending_is_not_reused report_request 10 20 empty_db).
  - reflexivity.
  - reflexivity.
  - intros j [].
Defined.

(** ** Downloading a report *)

Lemma download_report_ok (id : nat) (db : Db) (text : string) :
  (exists j, job_of id db = Some j /\ job_status j = "completed") ->
  (exists r,
     head (List.filter (fun r => (result_job_id r =? id)%nat)
             (report_results_tbl db)) = Some r
     /\ content r = text) ->
  ReportsRouter.download_report id false false db = (200, Some text).
Proof.
  intros (j & Hj & Hc) (r & Hr & <-).
  unfold ReportsRouter.download_report, download_report.
  rewrite get_report_job_status_job_of, Hj, Hc.
  change (negb ("completed" =? "completed")%string) with false. cbv iota.
  unfold get_report_result. rewrite Hr. reflexivity.
Qed.

(** The endpoint answers with a body exactly for a completed job whose
    result query returns a row, and the body is the content of the row
    the query returns first. *)
Lemma download_report_body (id : nat)
    (status_raises result_raises : bool) (db : Db) (code : nat) (text : string) :
  ReportsRouter.download_report id status_raises result_raises db = (code, Some text)
  <-> code = 200
      /\ status_raises = false /\ result_raises = false
      /\ (exists j, job_of id db = Some j /\ job_status j = "completed")
      /\ exists r,
           head (List.filter (fun r => (result_job_id r =? id)%nat)
                   (report_results_tbl db)) = Some r
           /\ content r = text.
Proof.
  unfold ReportsRouter.download_report, download_report.
  assert (Herr : forall state,
            (if (state =? "not_found")%string then (404, None)
             else if mem state ["pending"; "running"] then (202, None)
                  else (500, @None string)) = (code, Some text) -> False).
  { intros state. destruct (state =? "not_found")%string; [discriminate|].
    destruct (mem state _); discriminate. }
  split.
  - destruct status_raises; [intros H; destruct (Herr "error" H)|].
    rewrite get_report_job_status_job_of.
    destruct (job_of id db) as [j|] eqn:Hj; [|intros H; destruct (Herr "not_found" H)].
    destruct (String.eqb_spec (job_status j) "completed") as [Hc|Hc]; cbn [negb];
      [|intros H; destruct (Herr (job_status j) H)].
    unfold get_report_result.
    destruct result_raises; [intros H; destruct (Herr "error" H)|].
    destruct (head _) as [r|]; [|intros H; destruct (Herr "not_found" H)].
    intros H. inversion H; subst. repeat split; eauto.
  - intros (-> & -> & -> & Hj & Hr). apply download_report_ok; assumption.
Qed.

Lemma download_report_code (id : nat) (status_raises result_raises : bool)
    (db : Db) :
  (ReportsRouter.download_report id status_raises result_raises db).1 = 200
  <-> is_Some (ReportsRouter.download_report id status_raises result_raises db).2.
Proof.
  unfold ReportsRouter.download_report.
  destruct (download_report id status_raises result_raises db) as [r|state].
  - cbn. split; [intros _; eexists; reflexivity | reflexivity].
  - destruct (state =? "not_found")%string;
      [|destruct (mem state ["pending"; "running"])];
      cbn; (split; [discriminate | intros [x Hx]; discriminate]).
Qed.

(** X18: the download endpoint answers 200 exactly when it answers with
    a body; it does so only for a completed job, and the body is then
    the content of a result stored for that job; and for a completed
    job with a stored result, when the store answers, it does answer
    200. *)
Theorem download_report_serves_completed_jobs_only (id : nat)
    (status_raises result_raises : bool) (db : Db) :
  let answer := ReportsRouter.download_report id status_raises result_raises db in
  (answer.1 = 200 <-> is_Some answer.2)
  /\ (forall text, answer.2 = Some text ->
        status_raises = false /\ result_raises = false
        /\ (exists j, job_of id db = Some j /\ job_status j = "completed")
        /\ exists r, In r (report_results_tbl db)
                     /\ result_job_id r = id /\ content r = text)
  /\ (status_raises = false -> result_raises = false ->
      (exists j, job_of id db = Some j /\ job_status j = "completed") ->
      (exists r, In r (report_results_tbl db) /\ result_job_id r = id) ->
      answer.1 = 200).
Proof.
  intros answer. split; [apply download_report_code|]. split.
  - intros text Ht.
    destruct answer as [code body] eqn:Ea. cbn [snd] in Ht. subst body.
    apply download_report_body in Ea as (_ & Hs & Hr & Hj & r & Hhead & Hc).
    repeat split; try assumption. exists r.
    destruct (List.filter _ _) as [|y t] eqn:Ef; [discriminate|].
    cbn in Hhead. inversion Hhead; subst y.
    assert (Hin : In r (List.filter (fun r => (result_job_id r =? id)%nat)
                          (report_results_tbl db)))
      by (rewrite Ef; left; reflexivity).
    apply filter_In in Hin as [Hin E]. apply Nat.eqb_eq in E. auto.
  - intros -> -> Hj (r & Hin & Hid).
    destruct (List.filter (fun r => (result_job_id r =? id)%nat)
                (report_results_tbl db)) as [|y t] eqn:Ef.
    + assert (H : In r (List.filter (fun r => (result_job_id r =? id)%nat)
                          (report_results_tbl db)))
        by (apply filter_In; split; [exact Hin | apply Nat.eqb_eq, Hid]).
      rewrite Ef in H. destruct H.
    + unfold answer.
      rewrite (download_report_ok id db (content y) Hj); [reflexivity|].
      exists y. rewrite Ef. split; reflexivity.
Qed.

Lemma download_pending (id : nat) (db : Db) (j : ReportJob) :
  job_of id db = Some j -> job_status j = "pending" ->
  ReportsRouter.download_report id false false db = (202, None).
Proof.
  intros Hj Hs. unfold ReportsRouter.download_report, download_report.
  rewrite get_report_job_status_job_of, Hj, Hs. reflexivity.
Qed.

(** X19: the life of a new report, end to end: a valid request with no
    completed job of the same hash is accepted as a new pending job;
    downloading it then answers 202; once an execution of the task
    succeeds, downloading it answers 200 with the generated text. *)
Theorem report_is_served_once_generated (request : list (string * json)) (now : Z)
    (task_id : nat) (att : Attempt) (text : string) (db : Db) :
  json_truthy (dict_get "main_asin" request JNull) = true ->
  json_truthy (dict_get "competitor_asins" request (JArr [])) = true ->
  (forall j, In j (report_jobs_tbl db) ->
             parameters_hash j = generate_parameters_hash (request_parameters request) ->
             job_status j <> "completed") ->
  (forall r, In r (report_results_tbl db) -> In (result_job_id r) (job_ids db)) ->
  attempt_succeeds att -> generation att = Ok text ->
  exists id db1,
    create_competitor_report request now no_submit_faults db
    = (Accepted id "pending" false false, db1)
    /\ ReportsRouter.download_report id false false db1 = (202, None)
    /\ ReportsRouter.download_report id false false
         (run_report_task task_id 0 id (request_parameter_items request) [att] db1).2
       = (200, Some text).
Proof.
  intros Hm Hc Hnone Hres Hok Hgen.
  set (hash := generate_parameters_hash (request_parameters request)) in *.
  pose proof (create_competitor_report_new request now db Hm Hc Hnone) as H1.
  fold hash in H1.
  set (id := next_job_id (report_jobs_tbl db)) in *.
  set (db1 := (create_report_job "competitor_analysis" hash now false db).2) in *.
  set (row := {| job_id := id; job_type := "competitor_analysis";
                 parameters_hash := hash; job_status := "pending";
                 created_at := now; started_at := None; completed_at := None;
                 result_url := None; error_message := None |}).
  assert (Hj : job_of id db1 = Some row).
  { unfold db1, create_report_job. cbn [snd]. rewrite job_of_app.
    rewrite (job_of_fresh id db (next_job_id_fresh db)). cbn [List.find job_id].
    fold id. rewrite Nat.eqb_refl. reflexivity. }
  exists id, db1. split; [exact H1|]. split; [apply (download_pending id db1 row Hj eq_refl)|].
  destruct (generate_competitor_report_succeeds 0 id request att db1 Hok)
    as (db2 & text' & Hstep & Hgen' & Hjobs & Hresults).
  rewrite Hgen in Hgen'. inversion Hgen'; subst text'.
  cbn [run_report_task]. rewrite Hstep. cbn [snd].
  apply download_report_ok.
  - exists (completed_row (attempt_time att) row). split; [|reflexivity].
    unfold job_of. rewrite Hjobs, job_of_map by reflexivity.
    unfold job_of in Hj. rewrite Hj. reflexivity.
  - exists (stored_report id
              (dict_get "report_type" request (JStr "competitor_analysis")) text).
    split; [|reflexivity]. rewrite Hresults, List.filter_app.
    rewrite filter_nil.
    + cbn. rewrite Nat.eqb_refl. reflexivity.
    + intros r Hr. apply Nat.eqb_neq. intros E.
      apply (next_job_id_fresh db). fold id. rewrite <- E. apply Hres, Hr.
Qed.

Lemma report_is_served_once_generated_witness :
  exists id db1,
    create_competitor_report report_request 10 no_submit_faults empty_db
    = (Accepted id "pending" false false, db1)
    /\ ReportsRouter.download_report id false false db1 = (202, None)
    /\ ReportsRouter.download_report id false false
         (run_report_task 77 0 id (request_parameter_items report_request)
            [working_attempt 70] db1).2
       = (200, Some "# report").
Proof.
  apply (report_is_served_once_generated report_request 10 77 (working_attempt 70)
           "# report" empty_db).
  - reflexivity.
  - reflexivity.
  - intros j [].
  - intros r [].
  - apply working_attempt_succeeds.
  - reflexivity.
Defined.

(** ** Deleting a job *)

Lemma find_filter_out {A : Type} (p : A -> bool) (l : list A) :
  List.find p (List.filter (fun x => negb (p x)) l) = None.
Proof.
  induction l as [|h t IH]; [reflexivity|]. cbn.
  destruct (p h) eqn:E; cbn; [exact IH|]. rewrite E. exact IH.
Qed.

Lemma find_filter_other {A : Type} (p q : A -> bool) (l : list A) :
  (forall x, q x = true -> p x = false) ->
  List.find q (List.filter (fun x => negb (p x)) l) = List.find q l.
Proof.
  intros H. induction l as [|h t IH]; [reflexivity|]. cbn.
  destruct (p h) eqn:E; cbn.
  - destruct (q h) eqn:E'; [rewrite (H h E') in E; discriminate | exact IH].
  - destruct (q h); [reflexivity | exact IH].
Qed.

(** X20: deleting a job removes it and every result stored for it, and
    nothing else: afterwards the job and its result are not found, the
    download endpoint answers 404 for it, and every other job and
    result reads as before. *)
Theorem delete_report_job_removes_job_and_results (id : nat) (db : Db) :
  exists b db',
    delete_report_job id false false db = (Ok b, db')
    /\ (b = true <-> In id (job_ids db))
    /\ get_report_job_status id false db' = Ok None
    /\ get_report_result id false db' = Ok None
    /\ ReportsRouter.download_report id false false db' = (404, None)
    /\ forall id', id' <> id ->
         get_report_job_status id' false db' = get_report_job_status id' false db
         /\ get_report_result id' false db' = get_report_result id' false db.
Proof.
  unfold delete_report_job. eexists _, _. split; [reflexivity|].
  assert (Hjob : get_report_job_status id false
                   (set_report_jobs
                      (set_report_results db
                         (List.filter (fun r => negb (result_job_id r =? id)%nat)
                            (report_results_tbl db)))
                      (List.filter (fun j => negb (job_id j =? id)%nat)
                         (report_jobs_tbl db))) = Ok None).
  { unfold get_report_job_status. cbn [report_jobs_tbl set_report_jobs].
    rewrite head_filter_find, find_filter_out. reflexivity. }
  split; [|split; [exact Hjob|split; [|split]]].
  - cbn [report_jobs_tbl set_report_results].
    rewrite existsb_exists. unfold job_ids. rewrite in_map_iff. split.
    + intros (j & Hj & E). exists j. split; [apply Nat.eqb_eq, E | exact Hj].
    + intros (j & E & Hj). exists j. split; [exact Hj | apply Nat.eqb_eq, E].
  - unfold get_report_result. cbn [report_results_tbl set_report_jobs set_report_results].
    rewrite head_filter_find, find_filter_out. reflexivity.
  - unfold ReportsRouter.download_report, download_report.
    cbn [report_jobs_tbl set_report_results] in Hjob |- *. rewrite Hjob. reflexivity.
  - intros id' Hne. split.
    + unfold get_report_job_status. cbn [report_jobs_tbl set_report_jobs set_report_results].
      rewrite !head_filter_find. f_equal. apply find_filter_other.
      intros j Hj. apply Nat.eqb_eq in Hj. apply Nat.eqb_neq. congruence.
    + unfold get_report_result. cbn [report_results_tbl set_report_jobs set_report_results].
      rewrite !head_filter_find. f_equal. apply find_filter_other.
      intros r Hr. apply Nat.eqb_eq in Hr. apply Nat.eqb_neq. congruence.
Qed.

(** ** Competitor analysis: rankings *)

Lemma extract_bsr_info_fold (l : list BsrEntry) :
  forall info,
    fold_left
      (fun info bsr_item =>
         {| overall_rank :=
              match overall_rank info, rank bsr_item with
              | None, Some r => Some r
              | overall, _ => overall
              end;
            details :=
              details info
                ++ [{| rank := rank bsr_item; category := category bsr_item |}] |})
      l info
    = {| overall_rank :=
           match overall_rank info with
           | Some r => Some r
           | None => head (omap rank l)
           end;
         details := details info ++ l |}.
Proof.
  induction l as [|x t IH]; intros info.
  - cbn. rewrite app_nil_r. destruct info as [[r|] d]; reflexivity.
  - cbn [fold_left]. rewrite IH. cbn [overall_rank details].
    rewrite <- app_assoc. destruct x as [[r|] c]; destruct (overall_rank info); reflexivity.
Qed.

(** X21: the ranking details of a product list the ranks of its stored
    rankings, in order, and its overall rank is the first rank that is
    not null, so that it is the rank the alert evaluator compares
    whenever the first ranking has one. *)
Theorem extract_bsr_info_overall_rank (s : ProductSnapshotDict) :
  map rank (details (_extract_bsr_info (bsr_data s))) = map rank (bsr_data s)
  /\ overall_rank (_extract_bsr_info (bsr_data s)) = head (omap rank (bsr_data s))
  /\ forall r, primary_rank s = Some r ->
               overall_rank (_extract_bsr_info (bsr_data s)) = Some r.
Proof.
  assert (H : _extract_bsr_info (bsr_data s)
              = {| overall_rank := head (omap rank (bsr_data s));
                   details := bsr_data s |}).
  { unfold _extract_bsr_info. destruct (bsr_data s) as [|x t] eqn:E; [reflexivity|].
    rewrite extract_bsr_info_fold. reflexivity. }
  rewrite H. cbn [details overall_rank]. split; [reflexivity|]. split; [reflexivity|].
  intros r. unfold primary_rank. destruct (bsr_data s) as [|x t]; [discriminate|].
  intros Hr. cbn. rewrite Hr. reflexivity.
Qed.

Lemma extract_bsr_info_overall_rank_witness :
  overall_rank (_extract_bsr_info (bsr_data (snap (rank_snapshot "X" 1 (ranked 475)))))
  = Some 475%Z.
Proof.
  destruct (extract_bsr_info_overall_rank (snap (rank_snapshot "X" 1 (ranked 475))))
    as (_ & _ & H).
  apply H. reflexivity.
Defined.

(** ** Competitor analysis: statistics *)

Lemma Qlt_bool_true (a b : Q) : Qlt_bool a b = true -> (a < b)%Q.
Proof.
  unfold Qlt_bool. intros H. apply negb_true_iff in H.
  apply Qnot_le_lt. intros Hle. apply Qle_bool_iff in Hle. congruence.
Qed.

Lemma Qlt_bool_false (a b : Q) : Qlt_bool a b = false -> (b <= a)%Q.
Proof.
  unfold Qlt_bool. intros H. apply negb_false_iff in H. apply Qle_bool_iff, H.
Qed.

Lemma fold_min_Q (rest : list Q) :
  forall x,
    let m := fold_left (fun m y => if Qlt_bool y m then y else m) rest x in
    (m = x \/ In m rest) /\ (m <= x)%Q /\ forall p, In p rest -> (m <= p)%Q.
Proof.
  induction rest as [|y t IH]; intros x; cbn.
  - split; [left; reflexivity|]. split; [apply Qle_refl | intros p []].
  - destruct (IH (if Qlt_bool y x then y else x)) as (H1 & H2 & H3).
    assert (Hx : ((if Qlt_bool y x then y else x) <= x)%Q
                 /\ ((if Qlt_bool y x then y else x) <= y)%Q).
    { destruct (Qlt_bool y x) eqn:E.
      - split; [apply Qlt_le_weak, Qlt_bool_true, E | apply Qle_refl].
      - split; [apply Qle_refl | apply Qlt_bool_false, E]. }
    split.
    + destruct H1 as [H1|H1]; [|right; right; exact H1].
      rewrite H1. destruct (Qlt_bool y x); [right; left; reflexivity | left; reflexivity].
    + split; [eapply Qle_trans; [exact H2 | apply Hx]|].
      intros p [<-|Hp]; [eapply Qle_trans; [exact H2 | apply Hx] | apply H3, Hp].
Qed.

Lemma fold_max_Q (rest : list Q) :
  forall x,
    let m := fold_left (fun m y => if Qlt_bool m y then y else m) rest x in
    (m = x \/ In m rest) /\ (x <= m)%Q /\ forall p, In p rest -> (p <= m)%Q.
Proof.
  induction rest as [|y t IH]; intros x; cbn.
  - split; [left; reflexivity|]. split; [apply Qle_refl | intros p []].
  - destruct (IH (if Qlt_bool x y then y else x)) as (H1 & H2 & H3).
    assert (Hx : (x <= (if Qlt_bool x y then y else x))%Q
                 /\ (y <= (if Qlt_bool x y then y else x))%Q).
    { destruct (Qlt_bool x y) eqn:E.
      - split; [apply Qlt_le_weak, Qlt_bool_true, E | apply Qle_refl].
      - split; [apply Qle_refl | apply Qlt_bool_false, E]. }
    split.
    + destruct H1 as [H1|H1]; [|right; right; exact H1].
      rewrite H1. destruct (Qlt_bool x y); [right; left; reflexivity | left; reflexivity].
    + split; [eapply Qle_trans; [apply Hx | exact H2]|].
      intros p [<-|Hp]; [eapply Qle_trans; [apply Hx | exact H2] | apply H3, Hp].
Qed.

(** The minimum and the maximum the comparison reports for a list of
    values. *)
Lemma statistics_Q (l : list Q) :
  match l with
  | [] => min_Q l = None /\ max_Q l = None
  | _ =>
      exists lowest highest,
        min_Q l = Some lowest /\ max_Q l = Some highest
        /\ In lowest l /\ In highest l
        /\ (forall p, In p l -> (lowest <= p)%Q /\ (p <= highest)%Q)
  end.
Proof.
  destruct l as [|x t]; [repeat split|].
  destruct (fold_min_Q t x) as (A1 & A2 & A3).
  destruct (fold_max_Q t x) as (B1 & B2 & B3).
  cbn zeta in *.
  set (lowest := fold_left (fun m y => if Qlt_bool y m then y else m) t x) in *.
  set (highest := fold_left (fun m y => if Qlt_bool m y then y else m) t x) in *.
  exists lowest, highest.
  split; [reflexivity|]. split; [reflexivity|].
  split; [destruct A1 as [->|A1]; [left; reflexivity | right; exact A1]|].
  split; [destruct B1 as [->|B1]; [left; reflexivity | right; exact B1]|].
  intros p [<-|Hp]; split; [exact A2 | exact B2 | apply A3, Hp | apply B3, Hp].
Qed.

Lemma omap_filter {A B : Type} (f : A -> option B) (g : A -> bool) (l : list A) :
  (forall x, is_Some (f x) -> g x = true) ->
  omap f (List.filter g l) = omap f l.
Proof.
  intros H. induction l as [|x t IH]; [reflexivity|]. cbn.
  destruct (g x) eqn:E.
  - cbn. rewrite IH. reflexivity.
  - rewrite IH. destruct (f x) as [b|] eqn:Ef; [|reflexivity].
    rewrite H in E by (rewrite Ef; eauto). discriminate.
Qed.

Lemma perform_basic_comparison_lists (main_data : ExtractedProductData)
    (competitor_data : list ExtractedProductData) :
  let c := _perform_basic_comparison main_data competitor_data in
  competitor_prices (price_comparison c)
  = omap (fun x => current_price (current_data x))
      (List.filter has_values competitor_data)
  /\ min_competitor_price (price_comparison c)
     = min_Q (competitor_prices (price_comparison c))
  /\ max_competitor_price (price_comparison c)
     = max_Q (competitor_prices (price_comparison c))
  /\ competitor_ratings (rating_comparison c)
     = omap (fun x => current_rating (current_data x))
         (List.filter has_values competitor_data)
  /\ min_competitor_rating (rating_comparison c)
     = min_Q (competitor_ratings (rating_comparison c))
  /\ max_competitor_rating (rating_comparison c)
     = max_Q (competitor_ratings (rating_comparison c))
  /\ total_competitors c = length (List.filter has_values competitor_data)
  /\ competitors_with_data (data_availability c)
     = length (List.filter has_values competitor_data).
Proof.
  unfold _perform_basic_comparison.
  destruct competitor_data as [|x t]; [cbn; repeat split|].
  destruct (List.filter has_values (x :: t)) as [|y u]; cbn; repeat split.
Qed.

(** X22: the competitor prices and ratings that are compared are those
    of the competitors that have one, in order; the minimum and the
    maximum reported are elements of the list that bound every element;
    with no value to compare, both are absent. *)
Theorem perform_basic_comparison_statistics (main_data : ExtractedProductData)
    (competitor_data : list ExtractedProductData) :
  let c := _perform_basic_comparison main_data competitor_data in
  let prices := competitor_prices (price_comparison c) in
  let ratings := competitor_ratings (rating_comparison c) in
  prices = omap (fun x => current_price (current_data x)) competitor_data
  /\ ratings = omap (fun x => current_rating (current_data x)) competitor_data
  /\ match prices with
     | [] => min_competitor_price (price_comparison c) = None
             /\ max_competitor_price (price_comparison c) = None
     | _ =>
         exists lowest highest,
           min_competitor_price (price_comparison c) = Some lowest
           /\ max_competitor_price (price_comparison c) = Some highest
           /\ In lowest prices /\ In highest prices
           /\ (forall p, In p prices -> (lowest <= p)%Q /\ (p <= highest)%Q)
     end
  /\ match ratings with
     | [] => min_competitor_rating (rating_comparison c) = None
             /\ max_competitor_rating (rating_comparison c) = None
     | _ =>
         exists lowest highest,
           min_competitor_rating (rating_comparison c) = Some lowest
           /\ max_competitor_rating (rating_comparison c) = Some highest
           /\ In lowest ratings /\ In highest ratings
           /\ (forall p, In p ratings -> (lowest <= p)%Q /\ (p <= highest)%Q)
     end.
Proof.
  intros c prices ratings.
  destruct (perform_basic_comparison_lists main_data competitor_data)
    as (P1 & P2 & P3 & R1 & R2 & R3 & _).
  fold c in P1, P2, P3, R1, R2, R3. fold prices in P1, P2, P3.
  fold ratings in R1, R2, R3.
  split; [rewrite P1; apply omap_filter|].
  { intros x [v Hv]. unfold has_values. rewrite Hv. reflexivity. }
  split; [rewrite R1; apply omap_filter|].
  { intros x [v Hv]. unfold has_values. rewrite Hv.
    destruct (current_price (current_data x)); reflexivity. }
  rewrite P2, P3, R2, R3.
  split; [apply (statistics_Q prices) | apply (statistics_Q ratings)].
Qed.

(** X23: the number of competitors reported is the number of those with
    at least one of price, rating and review count, never more than the
    competitors given; and the flag telling that the main product has
    data is set exactly when a competitor was given, whatever data the
    main product has. *)
Theorem perform_basic_comparison_counts (main_data : ExtractedProductData)
    (competitor_data : list ExtractedProductData) :
  let c := _perform_basic_comparison main_data competitor_data in
  total_competitors c = length (List.filter has_values competitor_data)
  /\ competitors_with_data (data_availability c) = total_competitors c
  /\ total_competitors c <= length competitor_data
  /\ (main_has_data (data_availability c) = true <-> competitor_data <> []).
Proof.
  intros c.
  destruct (perform_basic_comparison_lists main_data competitor_data)
    as (_ & _ & _ & _ & _ & _ & T1 & T2).
  fold c in T1, T2. split; [exact T1|]. split; [congruence|].
  split; [rewrite T1; apply List.filter_length_le|].
  unfold c, _perform_basic_comparison.
  destruct competitor_data as [|x t]; [cbn; split; [discriminate | congruence]|].
  destruct (List.filter has_values (x :: t)); cbn; split; try reflexivity; discriminate.
Qed.

(** ** Competitor analysis: what is read from the store *)

Lemma get_latest_snapshots_lookup (faults : Faults) (asins : list string) (db : Db)
    (a : string) :
  forall m : gmap string ProductSnapshotDict,
    fold_left
      (fun snapshots a =>
         match get_latest_snapshot faults a db with
         | Some snapshot => <[a := snapshot]> snapshots
         | None => snapshots
         end) asins m !! a
    = match (if mem a asins then get_latest_snapshot faults a db else None) with
      | Some v => Some v
      | None => m !! a
      end.
Proof.
  induction asins as [|h t IH]; intros m; [reflexivity|].
  cbn [fold_left]. rewrite IH. unfold mem. cbn [existsb]. fold (mem a t).
  destruct (String.eqb_spec a h) as [->|Hne]; cbn [orb].
  - destruct (mem h t).
    + destruct (get_latest_snapshot faults h db) as [s|] eqn:E; reflexivity.
    + destruct (get_latest_snapshot faults h db) as [s|] eqn:E; [|reflexivity].
      apply lookup_insert_eq.
  - assert (E : (match get_latest_snapshot faults h db with
                 | Some snapshot => <[h := snapshot]> m
                 | None => m
                 end) !! a = m !! a).
    { destruct (get_latest_snapshot faults h db); [|reflexivity].
      apply lookup_insert_ne. congruence. }
    rewrite E. reflexivity.
Qed.

Lemma omap_ext_in {A B : Type} (f g : A -> option B) (l : list A) :
  (forall x, In x l -> f x = g x) -> omap f l = omap g l.
Proof.
  induction l as [|x t IH]; intros H; [reflexivity|]. cbn.
  rewrite (H x (or_introl eq_refl)), IH; [reflexivity|].
  intros y Hy. apply H. right; exact Hy.
Qed.

Lemma omap_map {A B C : Type} (f : B -> option C) (g : A -> B) (l : list A) :
  omap f (map g l) = omap (fun x => f (g x)) l.
Proof.
  induction l as [|x t IH]; [reflexivity|]. cbn. rewrite IH. reflexivity.
Qed.

Lemma collected_latest_snapshot (faults : Faults) (main_asin : string)
    (competitor_asins : list string) (db : Db) (a : string) :
  In a (main_asin :: competitor_asins) ->
  _get_latest_snapshots faults (main_asin :: competitor_asins) db !! a
  = get_latest_snapshot faults a db.
Proof.
  intros Ha. unfold _get_latest_snapshots. rewrite get_latest_snapshots_lookup.
  apply mem_In in Ha. rewrite Ha.
  destruct (get_latest_snapshot faults a db); [reflexivity | apply lookup_empty].
Qed.

(** X24: the analysis compares latest snapshots: it returns one entry
    per competitor asked for, in order; the main product's price is
    that of its latest snapshot; and the competitor prices and ratings
    compared are those of the competitors' latest snapshots that have
    one, in the order asked. *)
Theorem analyze_competitors_compares_latest_snapshots (faults : Faults)
    (query_raises : bool) (main_asin : string) (competitor_asins : list string)
    (window today : Z) (db : Db) :
  let r :=
    analyze_competitors faults query_raises main_asin competitor_asins
      window today db in
  map (fun c => info_asin (basic_info c)) (competitor_data r) = competitor_asins
  /\ current_price (current_data (main_product_data r))
     = get_latest_snapshot faults main_asin db ≫= price
  /\ competitor_prices (price_comparison (basic_comparison r))
     = omap (fun a => get_latest_snapshot faults a db ≫= price) competitor_asins
  /\ competitor_ratings (rating_comparison (basic_comparison r))
     = omap (fun a => get_latest_snapshot faults a db ≫= rating) competitor_asins.
Proof.
  intros r. unfold r, analyze_competitors, collect_competitors_data.
  cbn [main_product competitors main_product_data competitor_data basic_comparison].
  split; [|split].
  - rewrite !map_map. cbn. apply map_id.
  - unfold _extract_product_data. cbn [current_data latest_snapshot].
    rewrite collected_latest_snapshot by (left; reflexivity).
    destruct (get_latest_snapshot faults main_asin db); reflexivity.
  - match goal with
    | |- context [_perform_basic_comparison ?m ?l] =>
        destruct (perform_basic_comparison_lists m l)
          as (P1 & _ & _ & R1 & _)
    end.
    cbn zeta in P1, R1. rewrite P1, R1. split.
    + rewrite omap_filter.
      2:{ intros x [v Hv]. unfold has_values. rewrite Hv. reflexivity. }
      rewrite map_map, omap_map. apply omap_ext_in. intros a Ha.
      unfold _extract_product_data. cbn [current_data latest_snapshot].
      rewrite collected_latest_snapshot by (right; exact Ha).
      destruct (get_latest_snapshot faults a db); reflexivity.
    + rewrite omap_filter.
      2:{ intros x [v Hv]. unfold has_values. rewrite Hv.
          destruct (current_price (current_data x)); reflexivity. }
      rewrite map_map, omap_map. apply omap_ext_in. intros a Ha.
      unfold _extract_product_data. cbn [current_data latest_snapshot].
      rewrite collected_latest_snapshot by (right; exact Ha).
      destruct (get_latest_snapshot faults a db); reflexivity.
Qed.

(** ** Snapshot history *)

Lemma newest_first_leb_iff (x y : SnapshotRow) :
  newest_first_leb x y = true <-> newest_first x y.
Proof.
  unfold newest_first_leb, newest_first.
  rewrite orb_true_iff, andb_true_iff, Z.ltb_lt, Z.eqb_eq, Z.leb_le. tauto.
Qed.

Lemma newest_first_total (x y : SnapshotRow) : newest_first x y \/ newest_first y x.
Proof. unfold newest_first. lia. Qed.

Lemma newest_first_trans (x y z : SnapshotRow) :
  newest_first x y -> newest_first y z -> newest_first x z.
Proof. unfold newest_first. lia. Qed.

Lemma in_insert_newest_first (r x : SnapshotRow) (l : list SnapshotRow) :
  In x (insert_newest_first r l) <-> x = r \/ In x l.
Proof.
  induction l as [|h t IH]; cbn.
  - intuition.
  - destruct (newest_first_leb r h); cbn; [intuition|]. rewrite IH. intuition.
Qed.

Lemma in_order_newest_first (x : SnapshotRow) (l : list SnapshotRow) :
  In x (order_newest_first l) <-> In x l.
Proof.
  induction l as [|h t IH]; cbn; [tauto|].
  rewrite in_insert_newest_first, IH. intuition.
Qed.

Lemma insert_newest_first_sorted (r : SnapshotRow) (l : list SnapshotRow) :
  StronglySorted newest_first l -> StronglySorted newest_first (insert_newest_first r l).
Proof.
  induction 1 as [|h t Hs IH Hh]; cbn.
  - repeat constructor.
  - destruct (newest_first_leb r h) eqn:E.
    + apply newest_first_leb_iff in E. constructor.
      * constructor; assumption.
      * constructor; [exact E|].
        rewrite List.Forall_forall in *. intros y Hy.
        apply (newest_first_trans _ h); [exact E | apply Hh, Hy].
    + assert (Hhr : newest_first h r).
      { destruct (newest_first_total r h) as [H|H]; [|exact H].
        apply newest_first_leb_iff in H. congruence. }
      constructor; [exact IH|].
      rewrite List.Forall_forall in *. intros y Hy.
      apply in_insert_newest_first in Hy as [->|Hy]; [exact Hhr | apply Hh, Hy].
Qed.

Lemma order_newest_first_sorted (l : list SnapshotRow) :
  StronglySorted newest_first (order_newest_first l).
Proof.
  induction l as [|h t IH]; cbn; [constructor|].
  apply insert_newest_first_sorted, IH.
Qed.

Lemma get_historical_snapshots_lookup (faults : Faults) (asins : list string)
    (start_date end_date : Z) (db : Db) (a : string) :
  forall m : gmap string (list ProductSnapshotDict),
    fold_left
      (fun grouped_snapshots a =>
         match get_snapshots_by_date_range faults a start_date end_date db with
         | [] => grouped_snapshots
         | snapshots => <[a := snapshots]> grouped_snapshots
         end) asins m !! a
    = match (if mem a asins
             then get_snapshots_by_date_range faults a start_date end_date db
             else []) with
      | [] => m !! a
      | snapshots => Some snapshots
      end.
Proof.
  induction asins as [|h t IH]; intros m; [reflexivity|].
  cbn [fold_left]. rewrite IH. unfold mem. cbn [existsb]. fold (mem a t).
  destruct (String.eqb_spec a h) as [->|Hne]; cbn [orb].
  - destruct (mem h t).
    + destruct (get_snapshots_by_date_range faults h start_date end_date db);
        reflexivity.
    + destruct (get_snapshots_by_date_range faults h start_date end_date db);
        [reflexivity|]. apply lookup_insert_eq.
  - assert (E : (match get_snapshots_by_date_range faults h start_date end_date db with
                 | [] => m
                 | s :: l => <[h := s :: l]> m
                 end) !! a = m !! a).
    { destruct (get_snapshots_by_date_range faults h start_date end_date db);
        [reflexivity|]. apply lookup_insert_ne. congruence. }
    rewrite E. reflexivity.
Qed.

Lemma collected_history (faults : Faults) (main_asin : string)
    (competitor_asins : list string) (window today : Z) (db : Db) (a : string) :
  In a (main_asin :: competitor_asins) ->
  default []
    (_get_historical_snapshots faults (main_asin :: competitor_asins) window today db
       !! a)
  = get_snapshots_by_date_range faults a (today - window) today db.
Proof.
  intros Ha. unfold _get_historical_snapshots. cbv zeta.
  rewrite get_historical_snapshots_lookup. apply mem_In in Ha. rewrite Ha.
  destruct (get_snapshots_by_date_range faults a (today - window) today db);
    [rewrite lookup_empty|]; reflexivity.
Qed.

(** X25: the history collected for the main product and for every
    competitor holds exactly the stored snapshots of that identifier
    dated from [today - window] to [today], both days included (a window
    of 7 spans 8 calendar days), the newest first. *)
Theorem collect_competitors_data_history_window (faults : Faults)
    (query_raises : bool) (main_asin : string) (competitor_asins : list string)
    (window today : Z) (db : Db) (p : ProductAnalysisData) :
  let d :=
    collect_competitors_data faults query_raises main_asin competitor_asins
      window today db in
  snapshots_unavailable faults = false ->
  p = main_product d \/ In p (competitors d) ->
  exists rows,
    historical_snapshots p = map snap rows
    /\ StronglySorted newest_first rows
    /\ forall r,
        In r rows <->
        In r (product_snapshots_tbl db)
        /\ has_asin (analysis_asin p) r = true
        /\ (today - window <= snapshot_date (snap r) <= today)%Z.
Proof.
  intros d Hf Hp.
  assert (Hhist : In (analysis_asin p) (main_asin :: competitor_asins)
                  /\ historical_snapshots p
                     = get_snapshots_by_date_range faults (analysis_asin p)
                         (today - window) today db).
  { destruct Hp as [->|Hp].
    - cbn. split; [left; reflexivity|].
      apply (collected_history faults main_asin competitor_asins window today db).
      left; reflexivity.
    - unfold d, collect_competitors_data in Hp. cbn [competitors] in Hp.
      apply in_map_iff in Hp as (a & <- & Ha). cbn. split; [right; exact Ha|].
      apply (collected_history faults main_asin competitor_asins window today db).
      right; exact Ha. }
  destruct Hhist as [_ Hhist]. rewrite Hhist.
  unfold get_snapshots_by_date_range. rewrite Hf.
  exists (snapshots_in_range (analysis_asin p) (today - window) today db).
  split; [reflexivity|]. split; [apply order_newest_first_sorted|].
  intros r. unfold snapshots_in_range.
  rewrite in_order_newest_first, filter_In, !andb_true_iff, !Z.leb_le. tauto.
Qed.

Lemma collect_competitors_data_history_window_witness :
  let db := db_with [price_snapshot "X" 1 100; price_snapshot "X" 3 90;
                     price_snapshot "X" 10 80] [] in
  exists rows,
    historical_snapshots
      (main_product (collect_competitors_data no_faults false "X" [] 7 10 db))
    = map snap rows
    /\ In (price_snapshot "X" 3 90) rows.
Proof.
  intros db.
  destruct (collect_competitors_data_history_window no_faults false "X" [] 7 10 db
              (main_product (collect_competitors_data no_faults false "X" [] 7 10 db))
              eq_refl (or_introl eq_refl)) as (rows & Hrows & _ & Hin).
  exists rows. split; [exact Hrows|].
  apply Hin. split; [right; left; reflexivity|]. split; [reflexivity|].
  cbn. lia.
Defined.

(** ** The latest snapshot after an ingestion *)

Lemma first_by_app (after : SnapshotRow -> SnapshotRow -> bool)
    (l1 l2 : list SnapshotRow) :
  first_by after (l1 ++ l2)
  = fold_left (fun best r =>
                 match best with
                 | None => Some r
                 | Some b => if after r b then Some r else Some b
                 end) l2 (first_by after l1).
Proof. unfold first_by. apply fold_left_app. Qed.

Lemma fold_keeps_best (after : SnapshotRow -> SnapshotRow -> bool)
    (l : list SnapshotRow) (b : SnapshotRow) :
  (forall r, In r l -> after r b = false) ->
  fold_left (fun best r =>
               match best with
               | None => Some r
               | Some b => if after r b then Some r else Some b
               end) l (Some b) = Some b.
Proof.
  induction l as [|h t IH]; intros H; [reflexivity|].
  cbn. rewrite (H h (or_introl eq_refl)). apply IH.
  intros r Hr. apply H. right; exact Hr.
Qed.

Lemma first_by_app_newest (after : SnapshotRow -> SnapshotRow -> bool)
    (l1 : list SnapshotRow) (x : SnapshotRow) (rest : list SnapshotRow) :
  (forall b, In b l1 -> after x b = true) ->
  (forall r, In r rest -> after r x = false) ->
  first_by after (l1 ++ x :: rest) = Some x.
Proof.
  intros Hold Hrest. rewrite first_by_app. cbn [fold_left].
  destruct (first_by after l1) as [b|] eqn:E.
  - apply first_by_In in E. rewrite (Hold b E). apply fold_keeps_best, Hrest.
  - apply fold_keeps_best, Hrest.
Qed.

Lemma find_split {A : Type} (p : A -> bool) (l : list A) (x : A) :
  List.find p l = Some x ->
  p x = true /\ exists l2, List.filter p l = x :: List.filter p l2
                           /\ forall y, In y l2 -> In y l.
Proof.
  induction l as [|h t IH]; [discriminate|]. cbn.
  destruct (p h) eqn:E.
  - intros H. inversion H; subst. split; [exact E|]. exists t. split; [reflexivity|].
    intros y Hy. right; exact Hy.
  - intros H. destruct (IH H) as (Hx & l2 & Hl2 & Hsub). split; [exact Hx|].
    exists l2. split; [exact Hl2|]. intros y Hy. right. apply Hsub, Hy.
Qed.

Lemma filter_map_swap {A B : Type} (f : A -> B) (p : B -> bool) (l : list A) :
  List.filter p (map f l) = map f (List.filter (fun x => p (f x)) l).
Proof.
  induction l as [|x t IH]; [reflexivity|]. cbn.
  destruct (p (f x)); cbn; rewrite IH; reflexivity.
Qed.

Lemma filter_filter_and {A : Type} (p q : A -> bool) (l : list A) :
  List.filter p (List.filter q l) = List.filter (fun x => q x && p x) l.
Proof.
  induction l as [|x t IH]; [reflexivity|]. cbn.
  destruct (q x); cbn; [destruct (p x); rewrite IH; reflexivity | exact IH].
Qed.

(** With ties in day and creation time broken by position, the latest
    snapshot after a batch is the first snapshot of the batch that
    carries the identifier. *)
Lemma bulk_create_snapshots_first_of_batch (faults : Faults)
    (snapshots : list ProductSnapshotDict) (now : Z) (db : Db) (a : string)
    (s : ProductSnapshotDict) :
  snapshots_client_missing faults = false ->
  snapshots_insert_fails faults = false ->
  snapshots_unavailable faults = false ->
  a <> "" ->
  List.find (fun x => match asin x with Some k => (k =? a)%string | None => false end)
    snapshots = Some s ->
  (forall x, In x snapshots -> asin x = Some a -> snapshot_date x = snapshot_date s) ->
  (forall r, In r (product_snapshots_tbl db) -> has_asin a r = true ->
             (snapshot_date (snap r) < snapshot_date s)%Z
             \/ (snapshot_date (snap r) = snapshot_date s
                 /\ (snap_created_at r < now)%Z)) ->
  let db' := (bulk_create_snapshots faults snapshots now db).2 in
  get_latest_snapshot faults a db' = Some s
  /\ get_previous_snapshot faults a (snapshot_date s) db'
     = get_previous_snapshot faults a (snapshot_date s) db.
Proof.
  intros F1 F2 F3 Hne Hfind Hday Hold db'.
  set (p := fun x : ProductSnapshotDict =>
              match asin x with Some k => (k =? a)%string | None => false end).
  set (mk := fun x => {| snap := x; snap_created_at := now |}).
  assert (Hp : forall x, p x = true -> asin x = Some a /\ truthy (asin x) = true).
  { intros x Hx. unfold p in Hx. destruct (asin x) as [k|] eqn:E; [|discriminate].
    apply String.eqb_eq in Hx. subst k. split; [reflexivity|].
    destruct a; [contradiction | reflexivity]. }
  destruct (find_split p snapshots s Hfind) as (Hs & l2 & Hl2 & Hsub).
  assert (Hin : In s (List.filter (fun x => truthy (asin x)) snapshots)).
  { apply filter_In. split; [|apply Hp, Hs].
    apply find_some in Hfind. tauto. }
  assert (Htbl : product_snapshots_tbl db'
                 = product_snapshots_tbl db
                   ++ map mk (List.filter (fun x => truthy (asin x)) snapshots)).
  { unfold db', bulk_create_snapshots.
    destruct snapshots as [|x0 t0] eqn:Es; [destruct Hin|]. rewrite <- Es in *.
    rewrite F1.
    destruct (List.filter (fun x => truthy (asin x)) snapshots) as [|y0 u0] eqn:Ef;
      [destruct Hin|].
    rewrite F2. reflexivity. }
  assert (Hnew : List.filter (has_asin a)
                   (map mk (List.filter (fun x => truthy (asin x)) snapshots))
                 = mk s :: map mk (List.filter p l2)).
  { rewrite filter_map_swap, filter_filter_and.
    replace (List.filter (fun x => truthy (asin x) && has_asin a (mk x)) snapshots)
      with (List.filter p snapshots).
    - rewrite Hl2. reflexivity.
    - apply filter_ext. intros x. unfold has_asin. cbn [snap mk]. fold (p x).
      destruct (p x) eqn:E; [|symmetry; apply andb_false_r].
      destruct (Hp x E) as [_ Ht]. rewrite Ht. reflexivity. }
  split.
  - unfold get_latest_snapshot. rewrite F3, Htbl, List.filter_app, Hnew.
    rewrite first_by_app_newest; [reflexivity | |].
    + intros b Hb. apply filter_In in Hb as [Hb Hab]. cbn [snap snap_created_at mk].
      apply orb_true_iff. rewrite andb_true_iff, Z.ltb_lt, Z.eqb_eq, Z.ltb_lt.
      destruct (Hold b Hb Hab) as [H|[H1 H2]]; [left; exact H | right; auto].
    + intros r Hr. apply in_map_iff in Hr as (x & <- & Hx).
      apply filter_In in Hx as [Hx Hpx]. cbn [snap snap_created_at mk].
      rewrite (Hday x (Hsub x Hx) (proj1 (Hp x Hpx))).
      rewrite !Z.ltb_irrefl, Z.eqb_refl. reflexivity.
  - unfold get_previous_snapshot. rewrite F3, Htbl, List.filter_app.
    rewrite (filter_nil _ (map mk _)); [rewrite app_nil_r; reflexivity|].
    intros r Hr. apply in_map_iff in Hr as (x & <- & Hx).
    apply filter_In in Hx as [Hx _].
    destruct (has_asin a (mk x)) eqn:E; [|reflexivity].
    unfold has_asin in E. cbn [snap mk] in E |- *.
    destruct (asin x) as [k|] eqn:Ek; [|discriminate].
    apply String.eqb_eq in E. subst k.
    rewrite (Hday x Hx Ek). apply Z.ltb_irrefl.
Qed.

Lemma find_unique {A : Type} (p : A -> bool) (l : list A) (x : A) :
  In x l -> p x = true -> (forall y, In y l -> p y = true -> y = x) ->
  List.find p l = Some x.
Proof.
  intros Hin Hp Huniq. destruct (List.find p l) as [y|] eqn:E.
  - apply find_some in E as [Hy Hpy]. rewrite (Huniq y Hy Hpy). reflexivity.
  - rewrite (find_none _ _ E x Hin) in Hp. discriminate.
Qed.

(** X26: storing a batch that holds one snapshot for an identifier, when
    every snapshot already stored for it is older, makes that snapshot
    the latest one of the identifier; and the previous snapshot for its
    day reads as before the batch, so that storing a day again never
    changes what the day is compared with. *)
Theorem bulk_create_snapshots_latest (faults : Faults)
    (snapshots : list ProductSnapshotDict) (now : Z) (db : Db) (a : string)
    (s : ProductSnapshotDict) :
  snapshots_client_missing faults = false ->
  snapshots_insert_fails faults = false ->
  snapshots_unavailable faults = false ->
  a <> "" ->
  In s snapshots -> asin s = Some a ->
  (forall x, In x snapshots -> asin x = Some a -> x = s) ->
  (forall r, In r (product_snapshots_tbl db) -> has_asin a r = true ->
             (snapshot_date (snap r) < snapshot_date s)%Z
             \/ (snapshot_date (snap r) = snapshot_date s
                 /\ (snap_created_at r < now)%Z)) ->
  let db' := (bulk_create_snapshots faults snapshots now db).2 in
  get_latest_snapshot faults a db' = Some s
  /\ get_previous_snapshot faults a (snapshot_date s) db'
     = get_previous_snapshot faults a (snapshot_date s) db.
Proof.
  intros F1 F2 F3 Hne Hin Ha Huniq Hold.
  apply bulk_create_snapshots_first_of_batch; try assumption.
  - apply find_unique; [exact Hin | rewrite Ha; apply String.eqb_refl |].
    intros y Hy Hpy. apply (Huniq y Hy).
    destruct (asin y) as [k|]; [|discriminate].
    apply String.eqb_eq in Hpy. subst k. reflexivity.
  - intros x Hx Hxa. rewrite (Huniq x Hx Hxa). reflexivity.
Qed.

Lemma bulk_create_snapshots_latest_witness :
  let db := db_with [price_snapshot "X" 1 100] [] in
  let s := snap (price_snapshot "X" 2 80) in
  get_latest_snapshot no_faults "X" (bulk_create_snapshots no_faults [s] 5 db).2
  = Some s.
Proof.
  intros db s.
  apply (bulk_create_snapshots_latest no_faults [s] 5 db "X" s).
  - reflexivity.
  - reflexivity.
  - reflexivity.
  - discriminate.
  - left. reflexivity.
  - reflexivity.
  - intros x [<-|[]] _. reflexivity.
  - intros r [<-|[]] _. left. reflexivity.
Defined.
